(** * ECG delineation (neurokit2/ecg/ecg_delineate.py): a shallow embedding

    The Python module is embedded function by function.  Conventions:

    - samples are rationals ([Q]): floating-point arithmetic is idealised as
      exact arithmetic; the only irrational operation of the source, the
      square root inside the RMS height, is kept symbolic in a [threshold]
      and compared by squaring;
    - sample indices are integers ([Z]); a value that may be NaN is a
      [pynum], which keeps apart the [np.nan] object (what [is np.nan]
      recognises) from a NaN freshly produced by arithmetic;
    - a raised Python exception is a [Raise e] result; [try/except] is
      [catch_IndexError];
    - numpy and Python slicing, including the wrap-around of negative
      bounds, is [py_slice];
    - functions of scipy, pywt and of neurokit2 modules other than
      ecg_delineate.py are either modelled (scipy's [find_peaks]) or taken as
      section variables (resampling, the continuous wavelet transform, epoch
      extraction, the neurokit2 peak finder). *)

From Stdlib Require Import String Ascii.
From Stdlib Require Import ZArith QArith Qround Qreduction Qabs Lqa.
From Stdlib Require Import List Sorted Bool Lia.
Import ListNotations.

Local Open Scope Z_scope.

(* ===================================================================== *)
(** ** Python values, exceptions and sequences *)
(* ===================================================================== *)

(** The exceptions the module can raise. *)
Inductive exn : Type :=
| IndexError
| ValueError
| TypeError
| KeyError
| OverflowError
| ImportError
| UnboundLocalError (name : string).

Inductive result (A : Type) : Type :=
| Ok (a : A)
| Raise (e : exn).
Arguments Ok {A} a.
Arguments Raise {A} e.

Definition bind {A B} (r : result A) (k : A -> result B) : result B :=
  match r with
  | Ok a => k a
  | Raise e => Raise e
  end.

Notation "x <- c ;; k" := (bind c (fun x => k))
  (at level 61, c at next level, right associativity).
Notation "' pat <- c ;; k" := (bind c (fun x => match x with pat => k end))
  (at level 61, pat pattern, c at next level, right associativity).

(** [try: c except IndexError: h]. *)
Definition catch_IndexError {A} (c : result A) (h : A) : result A :=
  match c with
  | Raise IndexError => Ok h
  | r => r
  end.

(** An entry of a list of sample indices: an integer, the [np.nan] object
    itself, or a NaN produced by arithmetic (a new float object, for which
    [x is np.nan] is false). *)
Inductive pynum : Type :=
| Idx (z : Z)
| NanObj
| NanNew.

(** [x is np.nan] *)
Definition is_np_nan (x : pynum) : bool :=
  match x with NanObj => true | _ => false end.

(** [np.isnan(x)] *)
Definition isnan (x : pynum) : bool :=
  match x with Idx _ => false | _ => true end.

(** [x + k] and [x - k] for an integer [k]. *)
Definition pynum_add (x : pynum) (k : Z) : pynum :=
  match x with Idx z => Idx (z + k) | _ => NanNew end.

Definition pynum_sub (x : pynum) (k : Z) : pynum :=
  match x with Idx z => Idx (z - k) | _ => NanNew end.

(** Normalisation of one bound of a slice against a length [n]: a negative
    bound counts from the end, and the result is clipped to [0, n]. *)
Definition slice_bound (n i : Z) : Z :=
  if i <? 0 then Z.max 0 (i + n) else Z.min i n.

(** [l[start:stop]] *)
Definition py_slice {A} (l : list A) (start stop : Z) : list A :=
  let n := Z.of_nat (length l) in
  let a := slice_bound n start in
  let b := slice_bound n stop in
  firstn (Z.to_nat (b - a)) (skipn (Z.to_nat a) l).

(** [l[:stop]] and [l[start:]] *)
Definition py_slice_to {A} (l : list A) (stop : Z) : list A :=
  py_slice l 0 stop.

Definition py_slice_from {A} (l : list A) (start : Z) : list A :=
  py_slice l start (Z.of_nat (length l)).

(** [l[i]]: a negative index counts from the end; out of range raises. *)
Definition py_getitem {A} (l : list A) (i : Z) : result A :=
  let n := Z.of_nat (length l) in
  let j := if i <? 0 then i + n else i in
  if (j <? 0) || (n <=? j) then Raise IndexError
  else match nth_error l (Z.to_nat j) with
       | Some a => Ok a
       | None => Raise IndexError
       end.

(** A slice whose bounds are possibly-NaN numbers: a float bound is a
    [TypeError]. *)
Definition py_slice_num {A} (l : list A) (start stop : pynum) : result (list A) :=
  match start, stop with
  | Idx a, Idx b => Ok (py_slice l a b)
  | _, _ => Raise TypeError
  end.

(** [int(x)] and [astype(int)]: truncation towards zero. *)
Definition int_of_Q (q : Q) : Z :=
  if Qle_bool 0 q then Qfloor q else Qceiling q.

(** [np.where(cond)[0]] over the positions of a list. *)
Fixpoint where_from {A} (cond : A -> bool) (l : list A) (i : Z) : list Z :=
  match l with
  | [] => []
  | a :: l' => if cond a then i :: where_from cond l' (i + 1)
               else where_from cond l' (i + 1)
  end.

Definition np_where {A} (cond : A -> bool) (l : list A) : list Z :=
  where_from cond l 0.

Definition Qlt_bool (a b : Q) : bool := negb (Qle_bool b a).

(** Python's [max] and [min] of a sequence: [ValueError] when empty. *)
Definition Qmax_b (a b : Q) : Q := if Qlt_bool a b then b else a.
Definition Qmin_b (a b : Q) : Q := if Qlt_bool b a then b else a.

Definition py_max (l : list Q) : result Q :=
  match l with
  | [] => Raise ValueError
  | a :: l' => Ok (fold_left Qmax_b l' a)
  end.

Definition py_min (l : list Q) : result Q :=
  match l with
  | [] => Raise ValueError
  | a :: l' => Ok (fold_left Qmin_b l' a)
  end.

Definition Zmax_list (a : Z) (l : list Z) : Z := fold_left Z.max l a.
Definition Zmin_list (a : Z) (l : list Z) : Z := fold_left Z.min l a.

(* ===================================================================== *)
(** ** Resampling of points (DWT path) *)
(* ===================================================================== *)

(** [_dwt_resample_points]: scale every point by
    [desired_sampling_rate / sampling_rate], drop the NaN entries, truncate
    to integers.  The product and the quotient are exact here; in the
    source the product of an integer array is a 64-bit integer and the
    quotient a double.  The two agree for whole-number rates and points
    [p] with [|p| * desired_sampling_rate + sampling_rate < 2^53]. *)
Definition resample_point (sampling_rate desired_sampling_rate : Q) (p : Z) : Z :=
  int_of_Q (inject_Z p * desired_sampling_rate / sampling_rate).

Fixpoint _dwt_resample_points (peaks : list pynum)
    (sampling_rate desired_sampling_rate : Q) : list Z :=
  match peaks with
  | [] => []
  | Idx p :: rest =>
      resample_point sampling_rate desired_sampling_rate p
        :: _dwt_resample_points rest sampling_rate desired_sampling_rate
  | _ :: rest => _dwt_resample_points rest sampling_rate desired_sampling_rate
  end.

(** The analysis rate of [_dwt_ecg_delinator]. *)
Definition analysis_sampling_rate : Q := 2000.


(* ===================================================================== *)
(** ** scipy.signal.find_peaks *)
(* ===================================================================== *)

Definition nthQ (x : list Q) (i : nat) : Q := nth i x 0%Q.

(** [x[i]] for an index known to be inside the array. *)
Definition atQ (x : list Q) (i : Z) : Q := nthQ x (Z.to_nat i).

(** The inner loop of [_local_maxima_1d]:
    [while i_ahead < i_max and x[i_ahead] == x[i]: i_ahead += 1]. *)
Fixpoint plateau_end (fuel : nat) (x : list Q) (v : Q) (i_ahead i_max : nat) : nat :=
  match fuel with
  | O => i_ahead
  | S fuel' =>
      if (i_ahead <? i_max)%nat && Qeq_bool (nthQ x i_ahead) v
      then plateau_end fuel' x v (S i_ahead) i_max
      else i_ahead
  end.

(** The outer loop of [_local_maxima_1d]: a sample (or the middle of a flat
    run) higher than the sample before it and the sample after it; samples on
    the border are never peaks. *)
Fixpoint local_maxima_loop (fuel : nat) (x : list Q) (i i_max : nat) : list nat :=
  match fuel with
  | O => []
  | S fuel' =>
      if (i <? i_max)%nat then
        if Qlt_bool (nthQ x (i - 1)) (nthQ x i) then
          let i_ahead := plateau_end (length x) x (nthQ x i) (i + 1) i_max in
          if Qlt_bool (nthQ x i_ahead) (nthQ x i) then
            ((i + (i_ahead - 1)) / 2)%nat
              :: local_maxima_loop fuel' x (i_ahead + 1) i_max
          else local_maxima_loop fuel' x (i + 1) i_max
        else local_maxima_loop fuel' x (i + 1) i_max
      else []
  end.

Definition _local_maxima_1d (x : list Q) : list nat :=
  local_maxima_loop (length x) x 1 (length x - 1).

(** [_peak_prominences], left scan: walk left from the peak while the
    samples do not exceed it, remembering the lowest sample seen. *)
Fixpoint scan_left (x : list Q) (xp : Q) (i : nat) (m : Q) (b : nat) {struct i}
  : Q * nat :=
  if Qle_bool (nthQ x i) xp then
    let mb := if Qlt_bool (nthQ x i) m then (nthQ x i, i) else (m, b) in
    match i with
    | O => mb
    | S i' => scan_left x xp i' (fst mb) (snd mb)
    end
  else (m, b).

(** Right scan of [_peak_prominences]. *)
Fixpoint scan_right (fuel : nat) (x : list Q) (xp : Q) (i : nat) (m : Q) (b : nat)
  : Q * nat :=
  match fuel with
  | O => (m, b)
  | S fuel' =>
      if (i <? length x)%nat && Qle_bool (nthQ x i) xp then
        let mb := if Qlt_bool (nthQ x i) m then (nthQ x i, i) else (m, b) in
        scan_right fuel' x xp (S i) (fst mb) (snd mb)
      else (m, b)
  end.

(** A peak with the properties the callers read: [peak_heights],
    [prominences], [left_bases], [right_bases]. *)
Record peak : Type := {
  pk_index : Z;
  peak_height : Q;
  prominence : Q;
  left_base : Z;
  right_base : Z
}.

Definition peak_at (x : list Q) (p : nat) : peak :=
  let xp := nthQ x p in
  let l := scan_left x xp p xp p in
  let r := scan_right (length x) x xp p xp p in
  {| pk_index := Z.of_nat p;
     peak_height := xp;
     prominence := xp - Qmax_b (fst l) (fst r);
     left_base := Z.of_nat (snd l);
     right_base := Z.of_nat (snd r) |}.

(** A minimal height: a number, [w * sqrt m] (the RMS heights of the
    source, with [m] a mean of squares), or NaN (the mean of an empty
    window). *)
Inductive threshold : Type :=
| Thr (q : Q)
| ThrSqrt (w m : Q)
| ThrNan.

(** [t <= v]; for [w * sqrt m] the comparison is made on the squares. *)
Definition thr_le (t : threshold) (v : Q) : bool :=
  match t with
  | Thr q => Qle_bool q v
  | ThrSqrt w m =>
      if Qle_bool 0 w
      then Qle_bool 0 v && Qle_bool (w * w * m) (v * v)
      else Qle_bool 0 v || Qle_bool (v * v) (w * w * m)
  | ThrNan => false
  end.

(** [find_peaks(x, height=..., prominence=...)]: the local maxima, kept when
    their height reaches [height], then when their prominence reaches
    [prominence]; an absent condition keeps everything. *)
Definition find_peaks (x : list Q) (height : option threshold)
    (min_prominence : option Q) : list peak :=
  let peaks := map (peak_at x) (_local_maxima_1d x) in
  let peaks :=
    match height with
    | Some h => filter (fun p => thr_le h (peak_height p)) peaks
    | None => peaks
    end in
  match min_prominence with
  | Some pmin => filter (fun p => Qle_bool pmin (prominence p)) peaks
  | None => peaks
  end.

(* ===================================================================== *)
(** ** Peak and zero-crossing primitives of neurokit2.signal *)
(* ===================================================================== *)

Definition sign_change (a b : Q) : bool :=
  (Qlt_bool a 0 && Qlt_bool 0 b) || (Qlt_bool 0 a && Qlt_bool b 0).

Fixpoint zerocrossings_from (x : list Q) (i : Z) : list Z :=
  match x with
  | a :: rest =>
      match rest with
      | b :: _ =>
          if sign_change a b then (i + 1) :: zerocrossings_from rest (i + 1)
          else zerocrossings_from rest (i + 1)
      | [] => []
      end
  | [] => []
  end.

(** Modelled from the spec: [signal_zerocrossings] lives in
    neurokit2/signal/signal_zerocrossings.py, which is not part of the
    sources at hand.  Section 4.3: "given a 1-D array, return indices
    immediately following a sign change (negative-to-positive or
    positive-to-negative), scanning left to right"; empty when the signal
    never changes sign. *)
Definition signal_zerocrossings (x : list Q) : list Z :=
  zerocrossings_from x 0.

(** Modelled from the spec: the local-maxima detector of section 4.3 with a
    minimum height ("a sample is a peak if strictly greater than both
    neighbors (flat regions excluded) and satisfies threshold constraints").
    It stands for neurokit2's [signal_findpeaks], whose source is not at
    hand, wherever a concrete detector is needed; [None] is a NaN height. *)
Fixpoint strict_maxima_from (x : list Q) (i : nat) : list nat :=
  match x with
  | a :: rest =>
      match rest with
      | b :: c :: _ =>
          if Qlt_bool a b && Qlt_bool c b
          then (i + 1)%nat :: strict_maxima_from rest (i + 1)
          else strict_maxima_from rest (i + 1)
      | _ => []
      end
  | [] => []
  end.

Definition spec_findpeaks (x : list Q) (height_min : option Q) : list nat :=
  match height_min with
  | Some h => filter (fun p => Qle_bool h (nthQ x p)) (strict_maxima_from x 0)
  | None => []
  end.

(* ===================================================================== *)
(** ** The multiscale decomposition [_dwt_compute_multiscales] *)
(* ===================================================================== *)

(** Pointwise sum of two arrays, the shorter one padded with zeros; sums are
    kept in lowest terms. *)
Fixpoint vadd (a b : list Q) : list Q :=
  match a, b with
  | [], _ => b
  | _, [] => a
  | u :: a', v :: b' => Qred (u + v) :: vadd a' b'
  end.

Definition zeros (n : nat) : list Q := repeat 0%Q n.

(** [scipy.signal.convolve(x, h, mode='full')]:
    [y[m] = sum_k h[k] * x[m - k]], for a signal [x] with at least one
    sample (scipy refuses an empty input with a [ValueError], which is not
    modelled: section 6 takes [N >= 1] samples). *)
Fixpoint convolve (x h : list Q) : list Q :=
  match h with
  | [] => []
  | hk :: h' =>
      vadd (map (fun v => Qred (hk * v)) x ++ zeros (length h'))
           (0%Q :: convolve x h')
  end.

(** [signal_f[:-timedelay] = signal_f[timedelay:]] *)
Definition timeshift (signal_f : list Q) (timedelay : Z) : list Q :=
  py_slice_from signal_f timedelay ++ py_slice_from signal_f (- timedelay).

Definition _apply_H_filter (signal_i : list Q) (power : nat) : list Q :=
  let z := zeros (2 ^ power - 1) in
  let timedelay := Z.of_nat (2 ^ power) in
  let banks := [(1 # 8)%Q] ++ z ++ [(3 # 8)%Q] ++ z ++ [(3 # 8)%Q] ++ z ++ [(1 # 8)%Q] in
  timeshift (convolve signal_i banks) timedelay.

Definition _apply_G_filter (signal_i : list Q) (power : nat) : list Q :=
  let z := zeros (2 ^ power - 1) in
  let timedelay := Z.of_nat (2 ^ power) in
  let banks := [2%Q] ++ z ++ [(-2)%Q] in
  timeshift (convolve signal_i banks) timedelay.

(** The loop [for deg in range(max_degree)], from degree [deg] on. *)
Fixpoint multiscales_loop (n : nat) (deg : nat) (intermediate_ret : list Q)
  : list (list Q) :=
  match n with
  | O => []
  | S n' =>
      let S_deg := _apply_G_filter intermediate_ret deg in
      let T_deg := _apply_H_filter intermediate_ret deg in
      S_deg :: multiscales_loop n' (S deg) T_deg
  end.

Definition _dwt_compute_multiscales (ecg : list Q) (max_degree : nat)
  : list (list Q) :=
  map (fun arr => py_slice_to arr (Z.of_nat (length ecg)))
      (multiscales_loop max_degree 0 ecg).

(** [int(np.log2(q))] for a positive [q]: [log2], truncated towards zero.
    The logarithm is exact here and a double in the source: the two agree
    on the quotients [rate / 250] of whole-number rates up to [2^32], not
    on a rate that lies a rounding error below [250 * 2^d]. *)
Definition int_log2 (q : Q) : Z :=
  if Qle_bool 1 q then Z.log2 (Qfloor q) else - Z.log2 (Qfloor (/ q)).

(** [_dwt_compensate_degree]; a rate of zero gives [-inf] and a negative
    rate NaN, neither of which [int] accepts. *)
Definition _dwt_compensate_degree (sampling_rate : Q) : result Z :=
  if Qlt_bool 0 sampling_rate then Ok (int_log2 (sampling_rate / 250))
  else if Qeq_bool sampling_rate 0 then Raise OverflowError
  else Raise ValueError.

(** A loop over a list of items that threads a state and stops at the first
    exception. *)
Fixpoint for_loop {I S : Type} (body : I -> S -> result S) (items : list I) (s : S)
  : result S :=
  match items with
  | [] => Ok s
  | i :: rest => s' <- body i s ;; for_loop body rest s'
  end.

(** [range(n)] for an integer [n] that may be negative. *)
Definition range (n : Z) : list Z := map Z.of_nat (seq 0 (Z.to_nat n)).

Definition len {A} (l : list A) : Z := Z.of_nat (length l).

(** [mean(square(x))], NaN ([None]) on an empty array. *)
Definition mean_square (x : list Q) : option Q :=
  match x with
  | [] => None
  | _ => Some (Qred (fold_left (fun acc v => Qred (acc + v * v)) x 0%Q
                       / inject_Z (len x)))
  end.

(** [weight * np.sqrt(np.mean(np.square(x)))] *)
Definition rms_height (weight : Q) (x : list Q) : threshold :=
  match mean_square x with
  | Some m => ThrSqrt weight m
  | None => ThrNan
  end.

(** [zip(l[:-1], l[1:])] *)
Fixpoint consecutive_pairs {A} (l : list A) : list (A * A) :=
  match l with
  | a :: rest =>
      match rest with
      | b :: _ => (a, b) :: consecutive_pairs rest
      | [] => []
      end
  | [] => []
  end.

(** A computation that can only fail with [IndexError]. *)
Definition only_IndexError {A} (r : result A) : Prop :=
  match r with
  | Ok _ => True
  | Raise IndexError => True
  | Raise _ => False
  end.

(* ===================================================================== *)
(** ** Wavelet method (DWT) *)
(* ===================================================================== *)

Inductive attribute : Type := tpeak | ppeak.

(** "detect morphology": for every pair of consecutive candidate peaks with
    a positive then a negative coefficient, the first zero crossing between
    them. *)
Fixpoint morphology (dwt_local : list Q) (pairs : list (Z * Z)) : result (list Z) :=
  match pairs with
  | [] => Ok []
  | (idx_peak, idx_peak_nxt) :: rest =>
      let correct_sign :=
        Qlt_bool 0 (atQ dwt_local idx_peak)
        && Qlt_bool (atQ dwt_local idx_peak_nxt) 0 in
      if correct_sign then
        zc <- py_getitem
                (signal_zerocrossings (py_slice dwt_local idx_peak idx_peak_nxt)) 0 ;;
        more <- morphology dwt_local rest ;;
        Ok ((zc + idx_peak) :: more)
      else morphology dwt_local rest
  end.

(** [dwtmatr[row, start:stop]] *)
Definition matr_slice (matr : list (list Q)) (row : Z) (start stop : pynum)
  : result (list Q) :=
  r <- py_getitem matr row ;;
  py_slice_num r start stop.

(** The body of the loop of [_dwt_delinate_tp_peaks] for one attribute,
    from the local window on: the entry appended to [peaks_dict[attribute]]. *)
Definition tp_peak_search (attr : attribute) (dwt_local : list Q)
    (height : threshold) (srch_idx_start : Z) : result pynum :=
  match dwt_local with
  | [] => Ok NanObj
  | d0 :: _ =>
      let peaks := map pk_index (find_peaks (map Qabs dwt_local) (Some height) None) in
      mx <- py_max dwt_local ;;
      let peaks :=
        filter (fun p => Qlt_bool ((25 # 1000) * mx) (Qabs (atQ dwt_local p))) peaks in
      let peaks := if Qlt_bool 0 d0 then 0 :: peaks else peaks in
      candidate_peaks <- morphology dwt_local (consecutive_pairs peaks) ;;
      match candidate_peaks with
      | [] => Ok NanObj
      | c0 :: _ =>
          match attr with
          | tpeak => Ok (Idx (c0 + srch_idx_start))
          | ppeak => Ok (Idx (last candidate_peaks c0 + srch_idx_start))
          end
      end
  end.

(** One pass of the loop [for i in range(len(rpeaks)-1)] of
    [_dwt_delinate_tp_peaks]: the T-peak search, then the P-peak search. *)
Definition tp_peaks_body (rpeaks : list Z) (dwtmatr : list (list Q))
    (sampling_rate : Q) (srch_bndry degree_add : Z)
    (i : Z) (st : list pynum * list pynum) : result (list pynum * list pynum) :=
  let '(tpeaks, ppeaks) := st in
  (* search for T peaks from R peaks *)
  r_i <- py_getitem rpeaks i ;;
  r_nxt <- py_getitem rpeaks (i + 1) ;;
  let srch_idx_start := r_i + srch_bndry in
  let srch_idx_end := r_nxt - srch_bndry * 8 in
  dwt_local <- matr_slice dwtmatr (3 + degree_add)
                 (Idx srch_idx_start) (Idx srch_idx_end) ;;
  t <- tp_peak_search tpeak dwt_local (rms_height (25 # 100) dwt_local)
         srch_idx_start ;;
  (* search for P peaks from Rpeaks *)
  let srch_idx_start := r_i - int_of_Q ((5 # 10) * sampling_rate) in
  let srch_idx_end := r_i - srch_bndry in
  dwt_local <- matr_slice dwtmatr (2 + degree_add)
                 (Idx srch_idx_start) (Idx srch_idx_end) ;;
  p <- tp_peak_search ppeak dwt_local (rms_height (2 # 100) dwt_local)
         srch_idx_start ;;
  Ok (tpeaks ++ [t], ppeaks ++ [p]).

(** [_dwt_delinate_tp_peaks], with the defaults of the source:
    [qrs_duration=0.05], [p_qrs_duration=0.5], [degree_tpeak=3],
    [degree_ppeak=2], [epsilon_T_weight=0.25], [epsilon_P_weight=0.02]. *)
Definition _dwt_delinate_tp_peaks (rpeaks : list Z) (dwtmatr : list (list Q))
    (sampling_rate : Q) : result (list pynum * list pynum) :=
  let srch_bndry := int_of_Q ((9 # 10) * (5 # 100) * sampling_rate / 2) in
  degree_add <- _dwt_compensate_degree sampling_rate ;;
  for_loop (tp_peaks_body rpeaks dwtmatr sampling_rate srch_bndry degree_add)
    (range (len rpeaks - 1)) ([], []).

(** One pass of the loop of [_dwt_delinate_tp_onsets_offsets] over
    [peaks[i]]: the new [onsets] and [offsets]. *)
Definition tp_onsets_offsets_body (dwtmatr : list (list Q)) (degree : Z)
    (duration_samples duration_offset_samples : Z)
    (onset_weight offset_weight : Q)
    (peak_i : pynum) (st : list pynum * list pynum)
  : result (list pynum * list pynum) :=
  let '(onsets, offsets) := st in
  (* look for onsets *)
  let srch_idx_start := pynum_sub peak_i duration_samples in
  let srch_idx_end := peak_i in
  if is_np_nan srch_idx_start || is_np_nan srch_idx_end then
    Ok (onsets ++ [NanObj], offsets)
  else
    dwt_local <- matr_slice dwtmatr (2 + degree) srch_idx_start srch_idx_end ;;
    let onset_slope_peaks := map pk_index (find_peaks dwt_local None None) in
    onset <- catch_IndexError
               (p_last <- py_getitem onset_slope_peaks (-1) ;;
                d_last <- py_getitem dwt_local p_last ;;
                let epsilon_onset := (onset_weight * d_last)%Q in
                let candidate_onsets :=
                  np_where (fun v => Qlt_bool v epsilon_onset)
                           (py_slice_to dwt_local p_last) in
                c <- py_getitem candidate_onsets (-1) ;;
                Ok (pynum_add srch_idx_start c))
               NanObj ;;
    let onsets := onsets ++ [onset] in
    (* look for offset *)
    let srch_idx_start := peak_i in
    let srch_idx_end := pynum_add peak_i duration_offset_samples in
    if is_np_nan srch_idx_start || is_np_nan srch_idx_end then
      Ok (onsets ++ [NanObj], offsets)
    else
      dwt_local <- matr_slice dwtmatr (2 + degree) srch_idx_start srch_idx_end ;;
      let offset_slope_peaks :=
        map pk_index (find_peaks (map Qopp dwt_local) None None) in
      offset <- catch_IndexError
                  (p_first <- py_getitem offset_slope_peaks 0 ;;
                   d_first <- py_getitem dwt_local p_first ;;
                   let epsilon_offset := (- offset_weight * d_first)%Q in
                   let candidate_offsets :=
                     map (fun c => c + p_first)
                         (np_where (fun v => Qlt_bool (- v) epsilon_offset)
                                   (py_slice_from dwt_local p_first)) in
                   c <- py_getitem candidate_offsets 0 ;;
                   Ok (pynum_add srch_idx_start c))
                  NanObj ;;
      Ok (onsets, offsets ++ [offset]).

(** [_dwt_delinate_tp_onsets_offsets]; [duration], [duration_offset],
    [onset_weight] and [offset_weight] are arguments, the degrees are the
    defaults [degree_onset=2], [degree_offset=2]. *)
Definition _dwt_delinate_tp_onsets_offsets (peaks : list pynum)
    (dwtmatr : list (list Q)) (sampling_rate : Q)
    (duration duration_offset onset_weight offset_weight : Q)
  : result (list pynum * list pynum) :=
  degree <- _dwt_compensate_degree sampling_rate ;;
  for_loop
    (tp_onsets_offsets_body dwtmatr degree
       (int_of_Q (duration * sampling_rate))
       (int_of_Q (duration_offset * sampling_rate))
       onset_weight offset_weight)
    peaks ([], []).

(** The onset half of one pass of the loop of [_dwt_delinate_qrs_bounds],
    on the local window: the index appended to [onsets], relative to the
    start of the window. *)
Definition qrs_onset_search (dwt_local : list Q) : result Z :=
  let onset_slope_peaks :=
    map pk_index (find_peaks (map Qopp dwt_local) None None) in
  p_last <- py_getitem onset_slope_peaks (-1) ;;
  d_last <- py_getitem dwt_local p_last ;;
  let epsilon_onset := ((1 # 2) * - d_last)%Q in
  let candidate_onsets :=
    np_where (fun v => Qlt_bool (- v) epsilon_onset)
             (py_slice_to dwt_local p_last) in
  py_getitem candidate_onsets (-1).

(** The offset half. *)
Definition qrs_offset_search (dwt_local : list Q) : result Z :=
  let onset_slope_peaks := map pk_index (find_peaks dwt_local None None) in
  p_first <- py_getitem onset_slope_peaks 0 ;;
  d_first <- py_getitem dwt_local p_first ;;
  let epsilon_offset := ((1 # 2) * d_first)%Q in
  let candidate_offsets :=
    map (fun c => c + p_first)
        (np_where (fun v => Qlt_bool v epsilon_offset)
                  (py_slice_from dwt_local p_first)) in
  py_getitem candidate_offsets 0.

(** One pass of the loop of [_dwt_delinate_qrs_bounds]. *)
Definition qrs_bounds_body (dwtmatr : list (list Q)) (degree : Z) (rpeaks : list Z)
    (ppeaks tpeaks : list pynum) (i : Z) (st : list pynum * list pynum)
  : result (list pynum * list pynum) :=
  let '(onsets, offsets) := st in
  (* look for onsets *)
  srch_idx_start <- py_getitem ppeaks i ;;
  srch_idx_end <- py_getitem rpeaks i ;;
  if is_np_nan srch_idx_start then Ok (onsets ++ [NanObj], offsets)
  else
    dwt_local <- matr_slice dwtmatr (2 + degree) srch_idx_start (Idx srch_idx_end) ;;
    c <- qrs_onset_search dwt_local ;;
    let onsets := onsets ++ [pynum_add srch_idx_start c] in
    (* look for offsets *)
    srch_idx_start <- py_getitem rpeaks i ;;
    srch_idx_end <- py_getitem tpeaks i ;;
    if is_np_nan srch_idx_end then Ok (onsets, offsets ++ [NanObj])
    else
      dwt_local <- matr_slice dwtmatr (2 + degree) (Idx srch_idx_start) srch_idx_end ;;
      c <- qrs_offset_search dwt_local ;;
      Ok (onsets, offsets ++ [Idx (c + srch_idx_start)]).

(** [_dwt_delinate_qrs_bounds] *)
Definition _dwt_delinate_qrs_bounds (rpeaks : list Z) (dwtmatr : list (list Q))
    (ppeaks tpeaks : list pynum) (sampling_rate : Q)
  : result (list pynum * list pynum) :=
  degree <- _dwt_compensate_degree sampling_rate ;;
  for_loop (qrs_bounds_body dwtmatr degree rpeaks ppeaks tpeaks)
    (range (len rpeaks - 1)) ([], []).

(** The dictionary returned by the wavelet methods. *)
Record waves8 : Type := {
  ECG_T_Peaks : list Z;
  ECG_T_Onsets : list Z;
  ECG_T_Offsets : list Z;
  ECG_P_Peaks : list Z;
  ECG_P_Onsets : list Z;
  ECG_P_Offsets : list Z;
  ECG_R_Onsets : list Z;
  ECG_R_Offsets : list Z
}.

(** [a[:-1]] and [a[1:]] *)
Definition drop_last {A} (l : list A) : list A := py_slice_to l (-1).
Definition drop_first {A} (l : list A) : list A := py_slice_from l 1.

(* ===================================================================== *)
(** ** Concrete inputs *)
(* ===================================================================== *)

(** A signal of [n] samples: one at the given positions, zero elsewhere. *)
Definition impulse_train (n : nat) (positions : list nat) : list Q :=
  map (fun k => if existsb (Nat.eqb k) positions then 1%Q else 0%Q) (seq 0 n).

(** [signal_resample] between equal rates: the signal comes back as it
    is. *)
Definition resample_same_rate (signal : list Q) (sampling_rate desired : Q)
  : list Q := signal.

(** Eight evenly spaced R-peaks in a 10-second signal sampled at 250 Hz. *)
Definition eight_rpeaks : list Z :=
  [200; 500; 800; 1100; 1400; 1700; 2000; 2300].

(** The QRS onset search as section 4.5 of the specification words it:
    the same steps as [qrs_onset_search], but keeping the samples whose
    negated value exceeds the threshold. *)
Definition qrs_onset_as_specified (dwt_local : list Q) : result Z :=
  let onset_slope_peaks :=
    map pk_index (find_peaks (map Qopp dwt_local) None None) in
  p_last <- py_getitem onset_slope_peaks (-1) ;;
  d_last <- py_getitem dwt_local p_last ;;
  let epsilon_onset := ((1 # 2) * - d_last)%Q in
  let candidate_onsets :=
    np_where (fun v => Qlt_bool epsilon_onset (- v))
             (py_slice_to dwt_local p_last) in
  py_getitem candidate_onsets (-1).

(** A window of the detail signal that falls to a trough at position 3. *)
Definition trough_window : list Q := [0; -1; -6; -10; -3]%Q.

(** The continuous wavelet transform of an all-zero signal: the transform
    is linear, so each of the five scale rows is zero. *)
Definition cwt_zero_rows (ecg : list Q) (sampling_rate : Q) : list (list Q) :=
  repeat (zeros (length ecg)) 5.

(** A decomposition whose rows are all [trough_window]. *)
Definition trough_matr : list (list Q) := repeat trough_window 6.

(** An epoch of twelve samples, labelled from -0.8 s to 0.3 s in steps of
    0.1 s: a P wave at position 2, a Q wave at 6, the R-peak at 8 and an S
    wave at 10. *)
Definition epoch_labels : list Q :=
  [-8 # 10; -7 # 10; -6 # 10; -5 # 10; -4 # 10; -3 # 10; -2 # 10; -1 # 10;
   0; 1 # 10; 2 # 10; 3 # 10]%Q.

Definition epoch_pqrs_samples : list Q :=
  [0; 1; 3; 1; 0; 0; -2; 0; 10; 0; -3; 0]%Q.

(** The peak finder of section 4.3 in the shape of [signal_findpeaks]. *)
Definition findpeaks_strict (signal : list Q) (height_min : option Q) : list Z :=
  map Z.of_nat (spec_findpeaks signal height_min).

(** A smoother that leaves the signal as it is. *)
Definition smooth_none (signal : list Q) (size : Q) : list Q := signal.

(** An indicator table reduced to the lists it is built from. *)
Definition format_as_lists (waves : list (string * list Z)) (desired_length : Z)
  : list (string * list Z) := waves.

(** [np.argmax]: the first position of the largest element. *)
Fixpoint argmax_from (l : list Q) (i : Z) (best : Q) (best_i : Z) : Z :=
  match l with
  | [] => best_i
  | v :: rest =>
      if Qlt_bool best v then argmax_from rest (i + 1) v i
      else argmax_from rest (i + 1) best best_i
  end.

Definition np_argmax (l : list Q) : result Z :=
  match l with
  | [] => Raise ValueError
  | v :: rest => Ok (argmax_from rest 1 v 0)
  end.

(** The three kinds of peaks [_onset_offset_delineator] is called with. *)
Inductive peak_type : Type := rpeaks_t | ppeaks_t | tpeaks_t.

(** The name of a local variable read before any assignment. *)
Definition read_local (name : string) (v : option Q) : result Q :=
  match v with
  | Some q => Ok q
  | None => Raise (UnboundLocalError name)
  end.

(** The local variables of [_onset_offset_delineator] that live across the
    passes of its loop: the two output lists and the two epsilons, which the
    [rpeaks] branch assigns only under a condition. *)
Record oo_state : Type := {
  onsets : list Z;
  offsets : list Z;
  epsilon_onset : option Q;
  epsilon_offset : option Q
}.

Section Delineation.

Set Default Proof Using "Type".

(** *** Collaborators

    Functions of other modules and libraries, used as black boxes. *)

(** [signal_resample(signal, sampling_rate, desired_sampling_rate)] *)
Variable signal_resample : list Q -> Q -> Q -> list Q.

(** Whether [import pywt] succeeds, and [pywt.cwt(ecg, scales, 'gaus1',
    sampling_period)] for the scales [1, 2, 4, 8, 16]: one row per scale. *)
Variable pywt_installed : bool.
Variable cwt : list Q -> Q -> list (list Q).

(** [_dwt_ecg_delinator] *)
Definition _dwt_ecg_delinator (ecg : list Q) (rpeaks : list Z) (sampling_rate : Q)
  : result waves8 :=
  let ecg := signal_resample ecg sampling_rate analysis_sampling_rate in
  let dwtmatr := _dwt_compute_multiscales ecg 9 in
  let rpeaks_resampled :=
    _dwt_resample_points (map Idx rpeaks) sampling_rate analysis_sampling_rate in
  ' (tpeaks, ppeaks) <-
      _dwt_delinate_tp_peaks rpeaks_resampled dwtmatr analysis_sampling_rate ;;
  ' (qrs_onsets, qrs_offsets) <-
      _dwt_delinate_qrs_bounds rpeaks_resampled dwtmatr ppeaks tpeaks
        analysis_sampling_rate ;;
  ' (ponsets, poffsets) <-
      _dwt_delinate_tp_onsets_offsets ppeaks dwtmatr analysis_sampling_rate
        (3 # 10) (3 # 10) (4 # 10) (4 # 10) ;;
  ' (tonsets, toffsets) <-
      _dwt_delinate_tp_onsets_offsets tpeaks dwtmatr analysis_sampling_rate
        (6 # 10) (3 # 10) (6 # 10) (4 # 10) ;;
  let back l := _dwt_resample_points l analysis_sampling_rate sampling_rate in
  Ok {| ECG_T_Peaks := back tpeaks;
        ECG_T_Onsets := drop_last (back tonsets);
        ECG_T_Offsets := back toffsets;
        ECG_P_Peaks := drop_first (back ppeaks);
        ECG_P_Onsets := drop_first (back ponsets);
        ECG_P_Offsets := back poffsets;
        ECG_R_Onsets := drop_first (back qrs_onsets);
        ECG_R_Offsets := back qrs_offsets |}.

(* --------------------------------------------------------------------- *)
(** *** Wavelet method (CWT) *)

(** "Try loading pywt" *)
Definition import_pywt : result unit :=
  if pywt_installed then Ok tt else Raise ImportError.

(** [_find_tppeaks] *)
Definition _find_tppeaks (ecg : list Q) (keep_tp : list Z) (sampling_rate : Q)
  : result (list Z) :=
  _ <- import_pywt ;;
  let cwtmatr := cwt ecg sampling_rate in
  let max_search_duration : Q := 5 # 100 in
  for_loop
    (fun '(index_cur, index_next) tppeaks =>
       row <- py_getitem cwtmatr 4 ;;
       c_cur <- py_getitem row index_cur ;;
       correct_sign <-
         (if Qlt_bool c_cur 0
          then c_next <- py_getitem row index_next ;; Ok (Qlt_bool 0 c_next)
          else Ok false) ;;
       if correct_sign : bool then
         zc <- py_getitem
                 (signal_zerocrossings (py_slice row index_cur index_next)) 0 ;;
         let index_zero_cr := zc + index_cur in
         let nb_idx := int_of_Q (max_search_duration * sampling_rate) in
         am <- np_argmax (py_slice ecg (index_zero_cr - nb_idx)
                                       (index_zero_cr + nb_idx)) ;;
         let index_max := am + (index_zero_cr - nb_idx) in
         Ok (tppeaks ++ [index_max])
       else Ok tppeaks)
    (consecutive_pairs keep_tp) [].

(** [[(g[0], g[-1]) for g in significant_peaks_groups]] *)
Fixpoint first_last_of_groups (groups : list (list Z)) : result (list (Z * Z)) :=
  match groups with
  | [] => Ok []
  | g :: rest =>
      g0 <- py_getitem g 0 ;;
      g1 <- py_getitem g (-1) ;;
      more <- first_last_of_groups rest ;;
      Ok ((g0, g1) :: more)
  end.

(** [tpeaks, ppeaks = zip( *pairs )]: the unpacking needs exactly two
    sequences, and [zip] of no argument yields none. *)
Definition unzip_pairs (pairs : list (Z * Z)) : result (list Z * list Z) :=
  match pairs with
  | [] => Raise ValueError
  | _ => Ok (map fst pairs, map snd pairs)
  end.

(** One pass of the loop [for i in range(len(rpeaks)-1)] of
    [_peaks_delineator]: the group of peaks found between two R-peaks. *)
Definition peaks_delineator_body (ecg : list Q) (rpeaks : list Z)
    (sampling_rate : Q) (cwtmatr : list (list Q)) (search_boundary : Z)
    (i : Z) (significant_peaks_groups : list (list Z)) : result (list (list Z)) :=
  r_i <- py_getitem rpeaks i ;;
  r_nxt <- py_getitem rpeaks (i + 1) ;;
  let start := r_i + search_boundary in
  let end_ := r_nxt - search_boundary in
  search_window <- matr_slice cwtmatr 4 (Idx start) (Idx end_) ;;
  let height := rms_height (25 # 100) search_window in
  let found := find_peaks (map Qabs search_window) (Some height) None in
  mx <- py_max search_window ;;
  let threshold := ((125 # 1000) * mx)%Q in
  let significant_peaks_tp :=
    map (fun p => pk_index p + r_i + search_boundary)
        (filter (fun p => Qlt_bool threshold (peak_height p)) found) in
  g <- _find_tppeaks ecg significant_peaks_tp sampling_rate ;;
  Ok (significant_peaks_groups ++ [g]).

(** [_peaks_delineator] *)
Definition _peaks_delineator (ecg : list Q) (rpeaks : list Z) (sampling_rate : Q)
  : result (list Z * list Z) :=
  _ <- import_pywt ;;
  let cwtmatr := cwt ecg sampling_rate in
  let qrs_duration : Q := 1 # 10 in
  let search_boundary := int_of_Q ((9 # 10) * qrs_duration * sampling_rate / 2) in
  significant_peaks_groups <-
    for_loop (peaks_delineator_body ecg rpeaks sampling_rate cwtmatr search_boundary)
      (range (len rpeaks - 1)) [] ;;
  pairs <- first_last_of_groups significant_peaks_groups ;;
  unzip_pairs pairs.

(** The onset half of one pass of the loop of [_onset_offset_delineator],
    up to the test [len(wt_peaks) == 0]: the peaks found in the half-wave
    window before [index_peak]. *)
Definition onset_wt_peaks (cwtmatr : list (list Q)) (kind : peak_type)
    (half_wave_width index_peak : Z) : result (list peak) :=
  match kind with
  | rpeaks_t =>
      search_window <- matr_slice cwtmatr 2
                         (Idx (index_peak - half_wave_width)) (Idx index_peak) ;;
      mx <- py_max search_window ;;
      Ok (find_peaks search_window (Some (Thr 0)) (Some ((20 # 100) * mx)%Q))
  | _ =>
      w <- matr_slice cwtmatr 4
             (Idx (index_peak - half_wave_width)) (Idx index_peak) ;;
      let search_window := map Qopp w in
      mx <- py_max search_window ;;
      Ok (find_peaks search_window (Some (Thr 0)) (Some ((10 # 100) * mx)%Q))
  end.

(** The same for the offset half, in the window after [index_peak]. *)
Definition offset_wt_peaks (cwtmatr : list (list Q)) (kind : peak_type)
    (half_wave_width index_peak : Z) : result (list peak) :=
  match kind with
  | rpeaks_t =>
      w <- matr_slice cwtmatr 2
             (Idx index_peak) (Idx (index_peak + half_wave_width)) ;;
      let search_window := map Qopp w in
      mx <- py_max search_window ;;
      Ok (find_peaks search_window (Some (Thr 0)) (Some ((50 # 100) * mx)%Q))
  | _ =>
      search_window <- matr_slice cwtmatr 4
                         (Idx index_peak) (Idx (index_peak + half_wave_width)) ;;
      mx <- py_max search_window ;;
      Ok (find_peaks search_window (Some (Thr 0)) (Some ((10 # 100) * mx)%Q))
  end.

(** The onset appended once a peak was found in the window: [pk] is
    [wt_peaks[-1]] with its properties. *)
Definition onset_of_peak (cwtmatr : list (list Q)) (kind : peak_type)
    (half_wave_width index_peak : Z) (pk : peak) (eps : option Q)
  : result (Z * option Q) :=
  let nfirst := pk_index pk + index_peak - half_wave_width in
  let eps :=
    match kind with
    | rpeaks_t =>
        if Qlt_bool 0 (peak_height pk) then Some ((5 # 100) * peak_height pk)%Q
        else eps
    | ppeaks_t => Some ((50 # 100) * peak_height pk)%Q
    | tpeaks_t => Some ((25 # 100) * peak_height pk)%Q
    end in
  let leftbase := left_base pk + index_peak - half_wave_width in
  e <- read_local "epsilon_onset" eps ;;
  candidate_onsets <-
    match kind with
    | rpeaks_t =>
        w <- matr_slice cwtmatr 2 (Idx (nfirst - 100)) (Idx nfirst) ;;
        Ok (map (fun c => c + nfirst - 100)
                (np_where (fun v => Qlt_bool v e) w))
    | _ =>
        w <- matr_slice cwtmatr 4 (Idx (nfirst - 100)) (Idx nfirst) ;;
        Ok (map (fun c => c + nfirst - 100)
                (np_where (fun v => Qlt_bool (- v) e) w))
    end ;;
  Ok (Zmax_list leftbase candidate_onsets, eps).

(** The offset appended once a peak was found: [pk] is [wt_peaks[0]]. *)
Definition offset_of_peak (cwtmatr : list (list Q)) (kind : peak_type)
    (index_peak : Z) (pk : peak) (eps : option Q) : result (Z * option Q) :=
  let nlast := pk_index pk + index_peak in
  let eps :=
    match kind with
    | rpeaks_t =>
        if Qlt_bool 0 (peak_height pk) then Some ((125 # 1000) * peak_height pk)%Q
        else eps
    | ppeaks_t => Some ((9 # 10) * peak_height pk)%Q
    | tpeaks_t => Some ((4 # 10) * peak_height pk)%Q
    end in
  let rightbase := right_base pk + index_peak in
  e <- read_local "epsilon_offset" eps ;;
  candidate_offsets <-
    match kind with
    | rpeaks_t =>
        w <- matr_slice cwtmatr 2 (Idx nlast) (Idx (nlast + 100)) ;;
        Ok (map (fun c => c + nlast) (np_where (fun v => Qlt_bool (- v) e) w))
    | _ =>
        w <- matr_slice cwtmatr 4 (Idx nlast) (Idx (nlast + 100)) ;;
        Ok (map (fun c => c + nlast) (np_where (fun v => Qlt_bool v e) w))
    end ;;
  Ok (Zmin_list rightbase candidate_offsets, eps).

(** One pass of the loop [for index_peak in peaks] of
    [_onset_offset_delineator]; each [continue] of the source returns the
    state as it stands. *)
Definition onset_offset_body (cwtmatr : list (list Q)) (kind : peak_type)
    (half_wave_width : Z) (index_peak : Z) (st : oo_state) : result oo_state :=
  (* find onset *)
  wt_peaks <- onset_wt_peaks cwtmatr kind half_wave_width index_peak ;;
  match rev wt_peaks with
  | [] => Ok st
  | pk_last :: _ =>
      ' (onset, eps_on) <-
          onset_of_peak cwtmatr kind half_wave_width index_peak pk_last
            (epsilon_onset st) ;;
      let st := {| onsets := onsets st ++ [onset];
                   offsets := offsets st;
                   epsilon_onset := eps_on;
                   epsilon_offset := epsilon_offset st |} in
      (* find offset *)
      wt_peaks <- offset_wt_peaks cwtmatr kind half_wave_width index_peak ;;
      match wt_peaks with
      | [] => Ok st
      | pk_first :: _ =>
          ' (offset, eps_off) <-
              offset_of_peak cwtmatr kind index_peak pk_first (epsilon_offset st) ;;
          Ok {| onsets := onsets st;
                offsets := offsets st ++ [offset];
                epsilon_onset := epsilon_onset st;
                epsilon_offset := eps_off |}
      end
  end.

(** [_onset_offset_delineator] *)
Definition _onset_offset_delineator (ecg : list Q) (peaks : list Z)
    (kind : peak_type) (sampling_rate : Q) : result (list Z * list Z) :=
  _ <- import_pywt ;;
  let cwtmatr := cwt ecg sampling_rate in
  let half_wave_width := int_of_Q ((1 # 10) * sampling_rate) in
  st <- for_loop (onset_offset_body cwtmatr kind half_wave_width) peaks
          {| onsets := []; offsets := [];
             epsilon_onset := None; epsilon_offset := None |} ;;
  Ok (onsets st, offsets st).

(** [_ecg_delinator_cwt] *)
Definition _ecg_delinator_cwt (ecg : list Q) (rpeaks : list Z) (sampling_rate : Q)
  : result waves8 :=
  ' (tpeaks, ppeaks) <- _peaks_delineator ecg rpeaks sampling_rate ;;
  ' (qrs_onsets, qrs_offsets) <-
      _onset_offset_delineator ecg rpeaks rpeaks_t sampling_rate ;;
  ' (p_onsets, p_offsets) <-
      _onset_offset_delineator ecg ppeaks ppeaks_t sampling_rate ;;
  ' (t_onsets, t_offsets) <-
      _onset_offset_delineator ecg tpeaks tpeaks_t sampling_rate ;;
  Ok {| ECG_T_Peaks := tpeaks;
        ECG_T_Onsets := t_onsets;
        ECG_T_Offsets := t_offsets;
        ECG_P_Peaks := ppeaks;
        ECG_P_Onsets := p_onsets;
        ECG_P_Offsets := p_offsets;
        ECG_R_Onsets := qrs_onsets;
        ECG_R_Offsets := qrs_offsets |}.

(* --------------------------------------------------------------------- *)
(** *** Derivative method *)

(** A heartbeat epoch: the rows of the data frame [epochs_create] returns
    for one R-peak, as the column of time labels (the index, in seconds
    relative to the R-peak, increasing) and the column ["Signal"]. *)
Record heartbeat : Type := {
  hb_index : list Q;
  hb_signal : list Q
}.

(** [epochs_create(ecg, rpeaks, sampling_rate, epochs_start=-0.35,
    epochs_end=0.5)]: the epochs in the order of their keys ["1"], ["2"],
    ... *)
Variable epochs_create : list Q -> list Z -> Q -> list heartbeat.

(** [signal_findpeaks(signal, height_min=...)["Peaks"]]; a NaN height is
    [None]. *)
Variable signal_findpeaks : list Q -> option Q -> list Z.

(** [signal_smooth(signal, size=...)] *)
Variable signal_smooth : list Q -> Q -> list Q.

(** [index.get_loc(v)]: the position of the label [v]. *)
Fixpoint get_loc (index : list Q) (v : Q) (i : Z) : result Z :=
  match index with
  | [] => Raise KeyError
  | t :: rest => if Qeq_bool t v then Ok i else get_loc rest v (i + 1)
  end.

(** [R = heartbeat.index.get_loc(np.min(index.values[index.values > 0]))] *)
Definition heartbeat_R (hb : heartbeat) : result Z :=
  m <- py_min (filter (fun t => Qlt_bool 0 t) (hb_index hb)) ;;
  get_loc (hb_index hb) m 0.

(** [heartbeat[:0]] and [heartbeat[0:]]: slices by label on the increasing
    time index; the first keeps the rows labelled at most 0, the second the
    rows labelled at least 0. *)
Definition rows_to_label_0 (hb : heartbeat) : list Q :=
  firstn (length (filter (fun t => Qle_bool t 0) (hb_index hb))) (hb_signal hb).

Definition rows_from_label_0 (hb : heartbeat) : list Q :=
  skipn (length (filter (fun t => Qlt_bool t 0) (hb_index hb))) (hb_signal hb).

(** [0.05 * (segment.max() - segment.min())], NaN on an empty segment. *)
Definition height_floor (segment : list Q) : option Q :=
  match py_max segment, py_min segment with
  | Ok hi, Ok lo => Some ((5 # 100) * (hi - lo))%Q
  | _, _ => None
  end.

(** [_ecg_delineator_derivative_Q]: the sample index and the position in
    the epoch. *)
Definition _ecg_delineator_derivative_Q (rpeak : Z) (hb : heartbeat) (R : Z)
  : pynum * option Z :=
  let segment := rows_to_label_0 hb in
  let Q_peaks :=
    signal_findpeaks (map (fun v => (-1 * v)%Q) segment) (height_floor segment) in
  match rev Q_peaks with
  | [] => (NanObj, None)
  | Q_pos :: _ =>
      let from_R := R - Q_pos in
      (Idx (rpeak - from_R), Some Q_pos)
  end.

(** [_ecg_delineator_derivative_P] *)
Definition _ecg_delineator_derivative_P (rpeak : Z) (hb : heartbeat) (R : Z)
    (Q_pos : option Z) : pynum * option Z :=
  match Q_pos with
  | None => (NanObj, None)
  | Some Q_pos =>
      let segment := py_slice_to (hb_signal hb) Q_pos in
      let P_peaks := signal_findpeaks segment (height_floor segment) in
      match rev P_peaks with
      | [] => (NanObj, None)
      | P_pos :: _ =>
          let from_R := R - P_pos in
          (Idx (rpeak - from_R), Some P_pos)
      end
  end.

(** [_ecg_delineator_derivative_S] *)
Definition _ecg_delineator_derivative_S (rpeak : Z) (hb : heartbeat) (R : Z)
  : pynum * option Z :=
  let segment := rows_from_label_0 hb in
  let S_peaks := signal_findpeaks (map Qopp segment) (height_floor segment) in
  match S_peaks with
  | [] => (NanObj, None)
  | S_pos :: _ => (Idx (rpeak + S_pos), Some S_pos)
  end.

(** [_ecg_delineator_derivative_T] *)
Definition _ecg_delineator_derivative_T (rpeak : Z) (hb : heartbeat) (R : Z)
    (S_pos : option Z) : pynum * option Z :=
  match S_pos with
  | None => (NanObj, None)
  | Some S_pos =>
      let segment := py_slice_from (hb_signal hb) (R + S_pos) in
      let T_peaks := signal_findpeaks segment (height_floor segment) in
      match T_peaks with
      | [] => (NanObj, None)
      | T0 :: _ =>
          let T_pos := S_pos + T0 in
          (Idx (rpeak + T_pos), Some T_pos)
      end
  end.

(** [np.gradient] of a one-dimensional array: central differences inside,
    one-sided differences at both ends; fewer than two samples is an
    error. *)
Fixpoint gradient_inner (prev : Q) (l : list Q) : list Q :=
  match l with
  | [] => []
  | cur :: rest =>
      match rest with
      | [] => [(cur - prev)%Q]
      | nxt :: _ => ((nxt - prev) / 2)%Q :: gradient_inner cur rest
      end
  end.

Definition np_gradient (f : list Q) : result (list Q) :=
  match f with
  | f0 :: ((f1 :: _) as rest) => Ok ((f1 - f0)%Q :: gradient_inner f0 rest)
  | _ => Raise ValueError
  end.

(** [np.argmax(np.gradient(np.gradient(signal_smooth(values, size=R/10))))] *)
Definition steepest_bend (values : list Q) (R : Z) : result Z :=
  let signal := signal_smooth values (inject_Z R / 10) in
  g <- np_gradient signal ;;
  g <- np_gradient g ;;
  np_argmax g.

(** [_ecg_delineator_derivative_P_onset] *)
Definition _ecg_delineator_derivative_P_onset (rpeak : Z) (hb : heartbeat) (R : Z)
    (P_pos : option Z) : result pynum :=
  match P_pos with
  | None => Ok NanObj
  | Some P_pos =>
      P_onset <- steepest_bend (py_slice_to (hb_signal hb) P_pos) R ;;
      let from_R := R - P_onset in
      Ok (Idx (rpeak - from_R))
  end.

(** [_ecg_delineator_derivative_T_offset] *)
Definition _ecg_delineator_derivative_T_offset (rpeak : Z) (hb : heartbeat) (R : Z)
    (T_pos : option Z) : result pynum :=
  match T_pos with
  | None => Ok NanObj
  | Some T_pos =>
      T_offset <- steepest_bend (py_slice_from (hb_signal hb) (R + T_pos)) R ;;
      Ok (Idx (rpeak + T_pos + T_offset))
  end.

(** The six lists of the derivative method. *)
Record waves6 : Type := {
  P_list : list pynum;
  Q_list : list pynum;
  S_list : list pynum;
  T_list : list pynum;
  P_onsets : list pynum;
  T_offsets : list pynum
}.

(** One pass of the loop [for i, rpeak in enumerate(rpeaks)]: what the beat
    appends to each of the six lists. *)
Definition derivative_beat (heartbeats : list heartbeat) (i : nat) (rpeak : Z)
  : result (pynum * pynum * pynum * pynum * pynum * pynum) :=
  hb <- match nth_error heartbeats i with
        | Some hb => Ok hb
        | None => Raise KeyError
        end ;;
  R <- heartbeat_R hb ;;
  let '(Q_index, Q_pos) := _ecg_delineator_derivative_Q rpeak hb R in
  let '(P_index, P_pos) := _ecg_delineator_derivative_P rpeak hb R Q_pos in
  let '(S_index, S_pos) := _ecg_delineator_derivative_S rpeak hb R in
  let '(T_index, T_pos) := _ecg_delineator_derivative_T rpeak hb R S_pos in
  P_onset <- _ecg_delineator_derivative_P_onset rpeak hb R P_pos ;;
  T_offset <- _ecg_delineator_derivative_T_offset rpeak hb R T_pos ;;
  Ok (P_index, Q_index, S_index, T_index, P_onset, T_offset).

Fixpoint derivative_loop (heartbeats : list heartbeat) (i : nat) (rpeaks : list Z)
    (out : waves6) : result waves6 :=
  match rpeaks with
  | [] => Ok out
  | rpeak :: rest =>
      ' (P_index, Q_index, S_index, T_index, P_onset, T_offset) <-
          derivative_beat heartbeats i rpeak ;;
      derivative_loop heartbeats (S i) rest
        {| P_list := P_list out ++ [P_index];
           Q_list := Q_list out ++ [Q_index];
           S_list := S_list out ++ [S_index];
           T_list := T_list out ++ [T_index];
           P_onsets := P_onsets out ++ [P_onset];
           T_offsets := T_offsets out ++ [T_offset] |}
  end.

(** [_ecg_delineator_derivative] *)
Definition _ecg_delineator_derivative (ecg : list Q) (rpeaks : list Z)
    (sampling_rate : Q) : result waves6 :=
  let heartbeats := epochs_create ecg rpeaks sampling_rate in
  derivative_loop heartbeats 0 rpeaks
    {| P_list := []; Q_list := []; S_list := []; T_list := [];
       P_onsets := []; T_offsets := [] |}.

(* --------------------------------------------------------------------- *)
(** *** The dispatcher [ecg_delineate] *)

(** [str.lower] on the ASCII letters.  A string is its sequence of bytes;
    bytes outside ASCII are left as they are, whereas Python lowers a few
    characters outside ASCII to ASCII letters (the Kelvin sign to [k]):
    [lower] is [str.lower] on strings written in ASCII. *)
Definition lower_ascii (c : ascii) : ascii :=
  let n := nat_of_ascii c in
  if ((65 <=? n) && (n <=? 90))%nat then ascii_of_nat (n + 32) else c.

Fixpoint lower (s : string) : string :=
  match s with
  | EmptyString => EmptyString
  | String c rest => String (lower_ascii c) (lower rest)
  end.

(** [method in [...]] *)
Definition str_in (s : string) (l : list string) : bool :=
  existsb (String.eqb s) l.

(** The dictionary [waves]: feature names and their lists. *)
Definition waves_dict : Type := list (string * list pynum).

Definition dict_of_waves6 (w : waves6) : waves_dict :=
  [("ECG_P_Peaks", P_list w); ("ECG_Q_Peaks", Q_list w);
   ("ECG_S_Peaks", S_list w); ("ECG_T_Peaks", T_list w);
   ("ECG_P_Onsets", P_onsets w); ("ECG_T_Offsets", T_offsets w)]%string.

Definition dict_of_cwt (w : waves8) : waves_dict :=
  [("ECG_P_Peaks", map Idx (ECG_P_Peaks w)); ("ECG_T_Peaks", map Idx (ECG_T_Peaks w));
   ("ECG_R_Onsets", map Idx (ECG_R_Onsets w));
   ("ECG_R_Offsets", map Idx (ECG_R_Offsets w));
   ("ECG_P_Onsets", map Idx (ECG_P_Onsets w));
   ("ECG_P_Offsets", map Idx (ECG_P_Offsets w));
   ("ECG_T_Onsets", map Idx (ECG_T_Onsets w));
   ("ECG_T_Offsets", map Idx (ECG_T_Offsets w))]%string.

Definition dict_of_dwt (w : waves8) : waves_dict :=
  [("ECG_T_Peaks", map Idx (ECG_T_Peaks w)); ("ECG_T_Onsets", map Idx (ECG_T_Onsets w));
   ("ECG_T_Offsets", map Idx (ECG_T_Offsets w));
   ("ECG_P_Peaks", map Idx (ECG_P_Peaks w));
   ("ECG_P_Onsets", map Idx (ECG_P_Onsets w));
   ("ECG_P_Offsets", map Idx (ECG_P_Offsets w));
   ("ECG_R_Onsets", map Idx (ECG_R_Onsets w));
   ("ECG_R_Offsets", map Idx (ECG_R_Offsets w))]%string.

(** [[x for x in waves[feature] if ~np.isnan(x)]] *)
Fixpoint remove_nan (l : list pynum) : list Z :=
  match l with
  | [] => []
  | Idx z :: rest => z :: remove_nan rest
  | _ :: rest => remove_nan rest
  end.

(** The indicator table, built by [signal_formatpeaks] of another module,
    taken here as a function that always returns.  (It reads the first
    index of every list and writes at every index: it returns on lists
    that are not empty and hold indices from [- desired_length] to
    [desired_length - 1].) *)
Variable signals_table : Type.
Variable signal_formatpeaks : list (string * list Z) -> Z -> signals_table.

(** The argument [rpeaks]: the list of R-peaks or the info dictionary that
    holds it under ["ECG_R_Peaks"].  ([rpeaks=None], which calls the R-peak
    detector of another module, is not covered: the caller supplies the
    R-peaks.) *)
Inductive rpeaks_arg : Type :=
| RpeaksList (l : list Z)
| RpeaksDict (d : list (string * list Z)).

Fixpoint dict_get (d : list (string * list Z)) (key : string) : result (list Z) :=
  match d with
  | [] => Raise KeyError
  | (k, v) :: rest => if String.eqb k key then Ok v else dict_get rest key
  end.

(** [ecg_delineate].  The three tests on [method] follow one another
    without [else]; [waves] is a local variable that only they assign. *)
Definition ecg_delineate (ecg_cleaned : list Q) (rpeaks : rpeaks_arg)
    (sampling_rate : Q) (method : string)
  : result (signals_table * list (string * list Z)) :=
  rpeaks <- match rpeaks with
            | RpeaksDict d => dict_get d "ECG_R_Peaks"
            | RpeaksList l => Ok l
            end ;;
  let method := lower method in
  let waves : option waves_dict := None in
  waves <-
    (if str_in method ["derivative"; "gradient"]%string then
       w <- _ecg_delineator_derivative ecg_cleaned rpeaks sampling_rate ;;
       Ok (Some (dict_of_waves6 w))
     else Ok waves) ;;
  waves <-
    (if str_in method ["cwt"; "continuous wavelet transform"]%string then
       w <- _ecg_delinator_cwt ecg_cleaned rpeaks sampling_rate ;;
       Ok (Some (dict_of_cwt w))
     else Ok waves) ;;
  waves <-
    (if str_in method ["dwt"; "discrete wavelet transform"]%string then
       w <- _dwt_ecg_delinator ecg_cleaned rpeaks sampling_rate ;;
       Ok (Some (dict_of_dwt w))
     else Ok waves) ;;
  match waves with
  | None => Raise (UnboundLocalError "waves")
  | Some waves =>
      let waves := map (fun kv => (fst kv, remove_nan (snd kv))) waves in
      let instant_peaks := signal_formatpeaks waves (len ecg_cleaned) in
      Ok (instant_peaks, waves)
  end.

(** The method names [ecg_delineate] accepts. *)
Definition accepted_methods : list string :=
  ["derivative"; "gradient"; "cwt"; "continuous wavelet transform";
   "dwt"; "discrete wavelet transform"]%string.



(** Two epochs: a beat with P, Q, R and S waves, and a flat one. *)
Definition epochs_pqrs_then_flat (ecg : list Q) (rpeaks : list Z)
    (sampling_rate : Q) : list heartbeat :=
  [ {| hb_index := epoch_labels; hb_signal := epoch_pqrs_samples |};
    {| hb_index := epoch_labels; hb_signal := zeros 12 |} ].

(** A row of the detail signal with a trough at position 3 and a crest at
    position 7, and a decomposition made of it. *)
Definition trough_crest_row : list Q := [0; -1; -6; -10; -3; 0; 4; 10; 3; 1]%Q.

Definition trough_crest_matr : list (list Q) := repeat trough_crest_row 3.

(** The same with the signs exchanged: a crest, then a trough. *)
Definition crest_trough_matr : list (list Q) :=
  repeat (map Qopp trough_crest_row) 3.

(** A wave that rises and falls: a positive lobe followed by a negative
    one; its zero crossing is between the third and the fourth sample. *)
Definition lobes : list Q := [1; 3; 1; -1; -3; -1]%Q.

(** A row of 100 samples with the wave at the samples 30 to 35 and 70 to
    75, and a decomposition made of it. *)
Definition lobes_matr : list (list Q) :=
  repeat (zeros 30 ++ lobes ++ zeros 34 ++ lobes ++ zeros 24) 4.

(** A continuous wavelet transform whose five rows show a crest at sample 7
    and a trough at sample 12. *)
Definition cwt_crest_rows (ecg : list Q) (sampling_rate : Q) : list (list Q) :=
  repeat (zeros 6 ++ [1; 5; 2; 0; 0; -1; -5; -2]%Q ++ zeros 6) 5.

(** A transform whose rows reach exactly zero at sample 1, between two
    negative samples. *)
Definition cwt_zero_crest (ecg : list Q) (sampling_rate : Q) : list (list Q) :=
  repeat [-1; 0; -1; 0; 0]%Q 5.

(** A transform of 50 samples whose rows fall and rise around sample 22. *)
Definition cwt_falling_rising (ecg : list Q) (sampling_rate : Q)
  : list (list Q) :=
  repeat (zeros 20 ++ map Qopp lobes ++ zeros 24) 5.

(* --------------------------------------------------------------------- *)
(** *** What the derivative method asks of the peak finder *)

(** Modelled from the spec: the local-maximum semantics of section 4.3,
    "a sample is a peak if strictly greater than both neighbors (flat
    regions excluded)"; [signal_findpeaks] itself
    (neurokit2/signal/signal_findpeaks.py) is not among the sources at
    hand. *)
Definition strict_local_maximum (x : list Q) (p : Z) : Prop :=
  0 < p /\ p + 1 < len x
  /\ (atQ x (p - 1) < atQ x p)%Q /\ (atQ x (p + 1) < atQ x p)%Q.

(** The largest and the smallest sample of a segment. *)
Definition is_maximum (x : list Q) (m : Q) : Prop :=
  In m x /\ forall v, In v x -> (v <= m)%Q.

Definition is_minimum (x : list Q) (m : Q) : Prop :=
  In m x /\ forall v, In v x -> (m <= v)%Q.

(** Modelled from the spec: a candidate of section 4.4, a local maximum of
    the searched samples with "minimum height 5% of the segment's
    peak-to-peak amplitude"; [height_of] is the height the peak finder
    measures for a peak. *)
Definition qualifies (height_of : list Q -> Z -> Q) (segment searched : list Q)
    (p : Z) : Prop :=
  strict_local_maximum searched p
  /\ exists hi lo,
       is_maximum segment hi /\ is_minimum segment lo
       /\ ((5 # 100) * (hi - lo) <= height_of searched p)%Q.

(** The right-most candidate. *)
Definition rightmost_qualifying (height_of : list Q -> Z -> Q)
    (segment searched : list Q) (p : Z) : Prop :=
  qualifies height_of segment searched p
  /\ forall p', qualifies height_of segment searched p' -> p' <= p.

(** Modelled from the spec: what section 4.3 asks of the local-maxima
    detector: it reports positions from left to right, only local maxima,
    and, given a minimum height, exactly the local maxima whose height
    reaches it. *)
Definition local_maxima_detector (finder : list Q -> option Q -> list Z)
    (height_of : list Q -> Z -> Q) : Prop :=
  (forall x h, StronglySorted Z.lt (finder x h))
  /\ (forall x h p, In p (finder x h) -> strict_local_maximum x p)
  /\ (forall x h p,
        In p (finder x (Some h))
        <-> strict_local_maximum x p /\ (h <= height_of x p)%Q).

(** The height of a peak as its sample value. *)
Definition sample_height (x : list Q) (p : Z) : Q := atQ x p.

(** An epoch of 26 samples at 30 Hz around the R-peak at sample 11,
    labelled by 26 evenly spaced times from -0.35 s to 0.5 s: the R-peak,
    at position 11, carries the first positive label.  The samples show
    three crests before the Q wave, at positions 1, 3 and 5, the Q wave at
    9, the R-peak at 11, an S wave at 13 and a T wave at 17. *)
Definition spaced_labels : list Q :=
  map (fun k => (- (35 # 100) + inject_Z (Z.of_nat k) * ((85 # 100) / 25))%Q)
      (seq 0 26).

Definition pqrst_samples : list Q :=
  [0; 1; 0; 3; 1; 2; 1; 0; -1; -2; 1; 10; 1; -3; 0; 1; 2; 4; 2; 1;
   0; 0; 0; 0; 0; 0]%Q.

Definition epoch_pqrst (ecg : list Q) (rpeaks : list Z) (sampling_rate : Q)
  : list heartbeat :=
  [ {| hb_index := spaced_labels; hb_signal := pqrst_samples |} ].

(* ===================================================================== *)
(** ** Signal filtering (neurokit2/signal/signal_filter.py) *)
(* ===================================================================== *)

(** A cutoff frequency: Python tells an [int] from a [float]. *)
Inductive pyreal : Type :=
| PyInt (z : Z)
| PyFloat (q : Q).

Definition real_value (x : pyreal) : Q :=
  match x with
  | PyInt z => inject_Z z
  | PyFloat q => q
  end.

Inductive filter_type : Type := bandstop | bandpass | highpass | lowpass.

(** The argument [window_length]: a string (["default"]) or a number of
    samples. *)
Inductive window_arg : Type :=
| WinStr (s : string)
| WinInt (n : Z).

(** The [method] argument of [scipy.signal.filtfilt]. *)
Inductive pad_method : Type := gust | pad.

(** [try: c except ValueError: h] *)
Definition catch_ValueError {A} (c : result A) (h : result A) : result A :=
  match c with
  | Raise ValueError => h
  | r => r
  end.

(** [np.round]: to the nearest integer, a half to the even neighbour. *)
Definition np_round (q : Q) : Z :=
  let f := Qfloor q in
  let d := (q - inject_Z f)%Q in
  if Qlt_bool d (1 # 2) then f
  else if Qlt_bool (1 # 2) d then f + 1
  else if Z.even f then f else f + 1.

(** [np.ones(n)]: a negative dimension is an error. *)
Definition np_ones (n : Z) : result (list Q) :=
  if n <? 0 then Raise ValueError else Ok (repeat 1%Q (Z.to_nat n)).

Section SignalFilter.

(** *** Collaborators of the filters: scipy.signal and mne *)

(** [scipy.signal.savgol_filter(signal, window_length=..., polyorder=...)] *)
Variable savgol_filter : list Q -> Z -> Z -> result (list Q).

(** Whether [import mne] succeeds, and [mne.filter.filter_data] with the
    fixed options of the source: the signal, [sfreq], [l_freq], [h_freq]
    and [filter_length]. *)
Variable mne_installed : bool.
Variable mne_filter_data :
  list Q -> Q -> option pyreal -> option pyreal -> window_arg -> result (list Q).

(** [scipy.signal.butter] and [scipy.signal.bessel] with [output='sos'],
    and [scipy.signal.sosfiltfilt]: order, frequencies, [btype], [fs]. *)
Variable sos : Type.
Variable butter_sos : Z -> list pyreal -> filter_type -> Q -> result sos.
Variable bessel_sos : Z -> list pyreal -> filter_type -> Q -> result sos.
Variable sosfiltfilt : sos -> list Q -> result (list Q).

(** [scipy.signal.butter] with [output='ba'], and
    [scipy.signal.filtfilt(b, a, signal, method=...)]. *)
Variable butter_ba : Z -> list pyreal -> filter_type -> Q -> result (list Q * list Q).
Variable filtfilt : list Q -> list Q -> list Q -> pad_method -> result (list Q).

(** *** Utility *)

(** Whether [_signal_filter_sanitize] prints its warning about the Nyquist
    rate: only a cutoff that is an [int] is checked.  The warning does not
    change what the function returns. *)
Definition sanitize_warns (highcut : option pyreal) (sampling_rate : Q) : bool :=
  match highcut with
  | Some (PyInt h) => Qle_bool sampling_rate (2 * inject_Z h)
  | _ => false
  end.

(** "Replace 0 by none" *)
Definition zero_to_none (cut : option pyreal) : option pyreal :=
  match cut with
  | Some c => if Qeq_bool (real_value c) 0 then None else Some c
  | None => None
  end.

(** [_signal_filter_sanitize] with [normalize=False], the default and the
    only way the module calls it.  With no cutoff left, neither [freqs] nor
    [filter_type] is assigned and the [return] reads [freqs] first. *)
Definition _signal_filter_sanitize (lowcut highcut : option pyreal)
    (sampling_rate : Q) : result (list pyreal * filter_type) :=
  let lowcut := zero_to_none lowcut in
  let highcut := zero_to_none highcut in
  match lowcut, highcut with
  | Some l, Some h =>
      if Qlt_bool (real_value h) (real_value l)
      then Ok ([l; h], bandstop)
      else Ok ([l; h], bandpass)
  | Some l, None => Ok ([l], highpass)
  | None, Some h => Ok ([h], lowpass)
  | None, None => Raise (UnboundLocalError "freqs")
  end.

(** [_signal_filter_windowlength].  For a string, the length is
    [int(np.round(sampling_rate/3))]; the statement under the test
    [(window_length % 2) == 0] is the expression [window_length + 1], whose
    value is dropped, so both branches leave the length as it is. *)
Definition _signal_filter_windowlength (window_length : window_arg)
    (sampling_rate : Q) : Z :=
  match window_length with
  | WinStr _ =>
      let window_length := np_round (sampling_rate / 3) in
      if Z.even window_length then window_length else window_length
  | WinInt n => n
  end.

(** *** The filters *)

(** [_signal_filter_savgol] *)
Definition _signal_filter_savgol (signal : list Q) (sampling_rate : Q) (order : Z)
    (window_length : window_arg) : result (list Q) :=
  let window_length := _signal_filter_windowlength window_length sampling_rate in
  savgol_filter signal window_length order.

(** [_signal_filter_fir] *)
Definition _signal_filter_fir (signal : list Q) (sampling_rate : Q)
    (lowcut highcut : option pyreal) (window_length : window_arg)
  : result (list Q) :=
  if mne_installed then
    let window_length :=
      match window_length with
      | WinStr _ => WinStr "auto"
      | WinInt n => WinInt n
      end in
    mne_filter_data signal sampling_rate lowcut highcut window_length
  else Raise ImportError.

(** [_signal_filter_butterworth] *)
Definition _signal_filter_butterworth (signal : list Q) (sampling_rate : Q)
    (lowcut highcut : option pyreal) (order : Z) : result (list Q) :=
  ' (freqs, filter_type) <- _signal_filter_sanitize lowcut highcut sampling_rate ;;
  s <- butter_sos order freqs filter_type sampling_rate ;;
  sosfiltfilt s signal.

(** [_signal_filter_butterworth_ba] *)
Definition _signal_filter_butterworth_ba (signal : list Q) (sampling_rate : Q)
    (lowcut highcut : option pyreal) (order : Z) : result (list Q) :=
  ' (freqs, filter_type) <- _signal_filter_sanitize lowcut highcut sampling_rate ;;
  ' (b, a) <- butter_ba order freqs filter_type sampling_rate ;;
  catch_ValueError (filtfilt b a signal gust) (filtfilt b a signal pad).

(** [_signal_filter_bessel] *)
Definition _signal_filter_bessel (signal : list Q) (sampling_rate : Q)
    (lowcut highcut : option pyreal) (order : Z) : result (list Q) :=
  ' (freqs, filter_type) <- _signal_filter_sanitize lowcut highcut sampling_rate ;;
  s <- bessel_sos order freqs filter_type sampling_rate ;;
  sosfiltfilt s signal.

(** The numerator [b = np.ones(int(0.02 * sampling_rate)) / 50.] of
    [_signal_filter_powerline]. *)
Definition powerline_b (sampling_rate : Q) : result (list Q) :=
  ones <- np_ones (int_of_Q ((2 # 100) * sampling_rate)) ;;
  Ok (map (fun v => (v / 50)%Q) ones).

(** [_signal_filter_powerline] *)
Definition _signal_filter_powerline (signal : list Q) (sampling_rate : Q)
  : result (list Q) :=
  b <- powerline_b sampling_rate ;;
  let a := [1%Q] in
  filtfilt b a signal pad.

(** [signal_filter] *)
Definition signal_filter (signal : list Q) (sampling_rate : Q)
    (lowcut highcut : option pyreal) (method : string) (order : Z)
    (window_length : window_arg) : result (list Q) :=
  let method := lower method in
  (* Sanity checks *)
  if negb (String.eqb method "powerline")
     && (match lowcut, highcut with None, None => true | _, _ => false end)
  then Ok signal
  else if str_in method ["sg"; "savgol"; "savitzky-golay"]%string then
    _signal_filter_savgol signal sampling_rate order window_length
  else if str_in method ["butter"; "butterworth"]%string then
    _signal_filter_butterworth signal sampling_rate lowcut highcut order
  else if str_in method ["butter_ba"; "butterworth_ba"]%string then
    _signal_filter_butterworth_ba signal sampling_rate lowcut highcut order
  else if str_in method ["bessel"]%string then
    _signal_filter_bessel signal sampling_rate lowcut highcut order
  else if str_in method ["fir"]%string then
    _signal_filter_fir signal sampling_rate lowcut highcut window_length
  else if str_in method ["powerline"]%string then
    _signal_filter_powerline signal sampling_rate
  else Raise ValueError.

End SignalFilter.

(** The method names [signal_filter] knows. *)
Definition filter_methods : list string :=
  ["sg"; "savgol"; "savitzky-golay"; "butter"; "butterworth"; "butter_ba";
   "butterworth_ba"; "bessel"; "fir"; "powerline"]%string.

(** *** Stand-ins for the filters of scipy and mne

    Filters that return the signal as it is, with coefficients that carry
    no information; they serve where a concrete filter is needed. *)

Definition savgol_unchanged (signal : list Q) (window_length polyorder : Z)
  : result (list Q) := Ok signal.

Definition mne_unchanged (signal : list Q) (sfreq : Q)
    (l_freq h_freq : option pyreal) (filter_length : window_arg)
  : result (list Q) := Ok signal.

Definition sos_none (order : Z) (freqs : list pyreal) (btype : filter_type)
    (fs : Q) : result unit := Ok tt.

Definition sosfiltfilt_unchanged (s : unit) (signal : list Q) : result (list Q) :=
  Ok signal.

Definition ba_none (order : Z) (freqs : list pyreal) (btype : filter_type)
    (fs : Q) : result (list Q * list Q) := Ok ([1%Q], [1%Q]).

Definition filtfilt_unchanged (b a signal : list Q) (method : pad_method)
  : result (list Q) := Ok signal.

(* ===================================================================== *)
(** ** Properties *)
(* ===================================================================== *)

(** *** Arithmetic of truncation *)

Lemma int_of_Q_nonneg (q : Q) : (0 <= q)%Q -> int_of_Q q = Qfloor q.
Proof.
  intros H. unfold int_of_Q.
  destruct (Qle_bool 0 q) eqn:E; [reflexivity|].
  apply Qle_bool_iff in H. congruence.
Qed.

Lemma Qfloor_nonneg (q : Q) : (0 <= q)%Q -> 0 <= Qfloor q.
Proof.
  intros H. change 0 with (Qfloor 0). apply Qfloor_resp_le. exact H.
Qed.


(** *** Resampling there and back *)

Lemma resample_point_floor (a b : Q) (p : Z) :
  (0 < a)%Q -> (0 < b)%Q -> 0 <= p ->
  resample_point a b p = Qfloor (inject_Z p * b / a)
  /\ (0 <= inject_Z p * b / a)%Q.
Proof.
  intros Ha Hb Hp.
  assert (Hq : (0 <= inject_Z p * b / a)%Q).
  { apply Qle_shift_div_l; [exact Ha|].
    rewrite Qmult_0_l. apply Qmult_le_0_compat; [|lra].
    change 0%Q with (inject_Z 0). rewrite <- Zle_Qle. exact Hp. }
  split; [|exact Hq]. unfold resample_point. apply int_of_Q_nonneg. exact Hq.
Qed.


(** *** Exceptions *)

Lemma py_getitem_only_IndexError {A} (l : list A) (i : Z) :
  only_IndexError (py_getitem l i).
Proof.
  unfold py_getitem.
  destruct (_ || _); [exact I|].
  destruct (nth_error l _); exact I.
Qed.

Lemma bind_only_IndexError {A B} (c : result A) (k : A -> result B) :
  only_IndexError c -> (forall a, only_IndexError (k a)) ->
  only_IndexError (bind c k).
Proof.
  intros Hc Hk. destruct c as [a|e]; simpl; [apply Hk|exact Hc].
Qed.

Lemma catch_IndexError_total {A} (c : result A) (h : A) :
  only_IndexError c -> exists v, catch_IndexError c h = Ok v.
Proof.
  destruct c as [a|e]; simpl.
  - intros _. exists a. reflexivity.
  - destruct e; intros H; try contradiction. exists h. reflexivity.
Qed.

(** *** The DWT search for the onsets and offsets of P and T waves *)

(** An undefined peak: NaN goes to the onsets, and the pass ends there. *)
Lemma tp_body_nan (dwtmatr : list (list Q)) (degree d1 d2 : Z) (w1 w2 : Q)
    (on off : list pynum) :
  tp_onsets_offsets_body dwtmatr degree d1 d2 w1 w2 NanObj (on, off)
  = Ok (on ++ [NanObj], off).
Proof. reflexivity. Qed.

(** A defined peak: one entry goes to the onsets and one to the offsets. *)
Lemma tp_body_idx (dwtmatr : list (list Q)) (degree d1 d2 : Z) (w1 w2 : Q)
    (row : list Q) (z : Z) (on off : list pynum) :
  py_getitem dwtmatr (2 + degree) = Ok row ->
  exists o f,
    tp_onsets_offsets_body dwtmatr degree d1 d2 w1 w2 (Idx z) (on, off)
    = Ok (on ++ [o], off ++ [f]).
Proof.
  intros Hrow. unfold tp_onsets_offsets_body, matr_slice.
  cbn [pynum_sub pynum_add is_np_nan orb]. rewrite Hrow.
  cbn [bind py_slice_num].
  match goal with
  | |- context [catch_IndexError ?c NanObj] =>
      destruct (catch_IndexError_total c NanObj) as [o Ho]
  end.
  { repeat (apply bind_only_IndexError;
            [apply py_getitem_only_IndexError | intros ?]).
    exact I. }
  rewrite Ho. cbn [bind].
  match goal with
  | |- context [catch_IndexError ?c NanObj] =>
      destruct (catch_IndexError_total c NanObj) as [f Hf]
  end.
  { repeat (apply bind_only_IndexError;
            [apply py_getitem_only_IndexError | intros ?]).
    exact I. }
  rewrite Hf. cbn [bind]. exists o, f. reflexivity.
Qed.

Lemma tp_loop_slots (dwtmatr : list (list Q)) (degree d1 d2 : Z) (w1 w2 : Q)
    (row : list Q) (peaks : list pynum) :
  py_getitem dwtmatr (2 + degree) = Ok row ->
  Forall (fun x => x <> NanNew) peaks ->
  forall on off,
  exists on' off',
    for_loop (tp_onsets_offsets_body dwtmatr degree d1 d2 w1 w2) peaks (on, off)
    = Ok (on ++ on', off ++ off')
    /\ length on' = length peaks
    /\ length off' = length (filter (fun x => negb (isnan x)) peaks)
    /\ forall i, nth_error peaks i = Some NanObj ->
                 nth_error on' i = Some NanObj.
Proof.
  intros Hrow Hall. induction Hall as [|x peaks Hx Hall IH]; intros on off.
  - exists [], []. simpl. rewrite !app_nil_r. repeat split.
    intros i H. destruct i; discriminate.
  - destruct x as [z| |]; [| |congruence].
    + destruct (tp_body_idx dwtmatr degree d1 d2 w1 w2 row z on off Hrow)
        as (o & f & Hb).
      destruct (IH (on ++ [o]) (off ++ [f])) as (on' & off' & Hl & L1 & L2 & L3).
      exists (o :: on'), (f :: off'). cbn [for_loop]. rewrite Hb. cbn [bind].
      rewrite Hl, <- !app_assoc. simpl. repeat split; try congruence.
      intros i H. destruct i; simpl in *; [discriminate|auto].
    + destruct (IH (on ++ [NanObj]) off) as (on' & off' & Hl & L1 & L2 & L3).
      exists (NanObj :: on'), off'. cbn [for_loop]. rewrite tp_body_nan.
      cbn [bind]. rewrite Hl, <- !app_assoc. simpl. repeat split; try congruence.
      intros i H. destruct i; simpl in *; [reflexivity|auto].
Qed.

Lemma filter_isnan_split (peaks : list pynum) :
  (length (filter (fun x => negb (isnan x)) peaks)
   = length peaks - length (filter isnan peaks))%nat.
Proof.
  induction peaks as [|x peaks IH]; [reflexivity|].
  pose proof (filter_length_le isnan peaks) as H.
  cbn [filter length]. destruct (isnan x); cbn [negb length]; lia.
Qed.

(** C10: in [_dwt_delinate_tp_onsets_offsets], a peak list with [k]
    undefined entries (the [np.nan] object) gives an onsets array with one
    slot per peak, NaN at every undefined peak, and an offsets array with
    only [len(peaks) - k] entries: the pass of an undefined peak appends NaN
    to the onsets and leaves the offsets alone. *)
Theorem dwt_tp_offsets_lose_undefined_slots
    (peaks : list pynum) (dwtmatr : list (list Q)) (sampling_rate : Q)
    (duration duration_offset onset_weight offset_weight : Q)
    (degree : Z) (row : list Q) :
  Forall (fun x => x <> NanNew) peaks ->
  _dwt_compensate_degree sampling_rate = Ok degree ->
  py_getitem dwtmatr (2 + degree) = Ok row ->
  exists onsets offsets,
    _dwt_delinate_tp_onsets_offsets peaks dwtmatr sampling_rate
      duration duration_offset onset_weight offset_weight = Ok (onsets, offsets)
    /\ length onsets = length peaks
    /\ (forall i, nth_error peaks i = Some NanObj ->
                  nth_error onsets i = Some NanObj)
    /\ length offsets = (length peaks - length (filter isnan peaks))%nat.
Proof.
  intros Hall Hdeg Hrow. unfold _dwt_delinate_tp_onsets_offsets.
  rewrite Hdeg. simpl bind.
  destruct (tp_loop_slots dwtmatr degree
              (int_of_Q (duration * sampling_rate))
              (int_of_Q (duration_offset * sampling_rate))
              onset_weight offset_weight row peaks Hrow Hall [] [])
    as (on' & off' & Hl & L1 & L2 & L3).
  exists on', off'. simpl in Hl. rewrite Hl.
  repeat split; auto. rewrite L2. apply filter_isnan_split.
Qed.

(** *** Lengths of the lists built by the DWT searches *)

Lemma tp_body_grows (dwtmatr : list (list Q)) (degree d1 d2 : Z) (w1 w2 : Q)
    (x : pynum) (on off on' off' : list pynum) :
  tp_onsets_offsets_body dwtmatr degree d1 d2 w1 w2 x (on, off) = Ok (on', off') ->
  length on' = S (length on).
Proof.
  intros H. destruct x as [z| |].
  - destruct (py_getitem dwtmatr (2 + degree)) as [row|e] eqn:Hrow.
    + destruct (tp_body_idx dwtmatr degree d1 d2 w1 w2 row z on off Hrow)
        as (o & f & Hb).
      rewrite Hb in H. injection H as <- <-. rewrite length_app. simpl. lia.
    + unfold tp_onsets_offsets_body, matr_slice in H.
      cbn [pynum_sub pynum_add is_np_nan orb] in H. rewrite Hrow in H.
      discriminate H.
  - rewrite tp_body_nan in H. injection H as <- <-.
    rewrite length_app. simpl. lia.
  - unfold tp_onsets_offsets_body, matr_slice in H.
    cbn [pynum_sub pynum_add is_np_nan orb] in H.
    destruct (py_getitem dwtmatr (2 + degree)); discriminate H.
Qed.

Lemma tp_onsets_one_per_peak (peaks : list pynum) (dwtmatr : list (list Q))
    (sampling_rate d1 d2 w1 w2 : Q) (onsets offsets : list pynum) :
  _dwt_delinate_tp_onsets_offsets peaks dwtmatr sampling_rate d1 d2 w1 w2
    = Ok (onsets, offsets) ->
  length onsets = length peaks.
Proof.
  unfold _dwt_delinate_tp_onsets_offsets.
  destruct (_dwt_compensate_degree sampling_rate) as [degree|e]; [|discriminate].
  cbn [bind].
  set (body := tp_onsets_offsets_body _ _ _ _ _ _).
  assert (G : forall peaks on off on' off',
             for_loop body peaks (on, off) = Ok (on', off') ->
             length on' = (length on + length peaks)%nat).
  { clear. induction peaks as [|x peaks IH]; intros on off on' off' H.
    - injection H as <- <-. simpl. lia.
    - cbn [for_loop] in H.
      destruct (body x (on, off)) as [[on1 off1]|e] eqn:Hb; [|discriminate].
      apply tp_body_grows in Hb. cbn [bind] in H. apply IH in H.
      simpl. lia. }
  intros H. apply G in H. exact H.
Qed.

Lemma tp_peaks_body_grows (rpeaks : list Z) (dwtmatr : list (list Q))
    (sampling_rate : Q) (b d i : Z) (t p t' p' : list pynum) :
  tp_peaks_body rpeaks dwtmatr sampling_rate b d i (t, p) = Ok (t', p') ->
  length t' = S (length t) /\ length p' = S (length p).
Proof.
  unfold tp_peaks_body.
  repeat match goal with
         | |- bind ?c _ = _ -> _ => destruct c; cbn [bind]; [|discriminate]
         end.
  intros H. injection H as <- <-. rewrite !length_app. simpl. lia.
Qed.

Lemma tp_peaks_one_per_interval (rpeaks : list Z) (dwtmatr : list (list Q))
    (sampling_rate : Q) (tpeaks ppeaks : list pynum) :
  _dwt_delinate_tp_peaks rpeaks dwtmatr sampling_rate = Ok (tpeaks, ppeaks) ->
  length tpeaks = (length rpeaks - 1)%nat
  /\ length ppeaks = (length rpeaks - 1)%nat.
Proof.
  unfold _dwt_delinate_tp_peaks.
  destruct (_dwt_compensate_degree sampling_rate) as [degree|e]; [|discriminate].
  cbn [bind].
  set (body := tp_peaks_body _ _ _ _ _).
  assert (G : forall items t p t' p',
             for_loop body items (t, p) = Ok (t', p') ->
             length t' = (length t + length items)%nat
             /\ length p' = (length p + length items)%nat).
  { clear. induction items as [|i items IH]; intros t p t' p' H.
    - injection H as <- <-. simpl. lia.
    - cbn [for_loop] in H.
      destruct (body i (t, p)) as [[t1 p1]|e] eqn:Hb; [|discriminate].
      apply tp_peaks_body_grows in Hb. cbn [bind] in H. apply IH in H.
      simpl. lia. }
  intros H. apply G in H. unfold range, len in H.
  rewrite length_map, length_seq in H. simpl in H. lia.
Qed.

Lemma resample_points_length_le (l : list pynum) (a b : Q) :
  (length (_dwt_resample_points l a b) <= length l)%nat.
Proof.
  induction l as [|x l IH]; simpl; [lia|]. destruct x; simpl; lia.
Qed.

Lemma resample_points_length_idx (l : list Z) (a b : Q) :
  length (_dwt_resample_points (map Idx l) a b) = length l.
Proof. induction l as [|x l IH]; simpl; congruence. Qed.

(** *** The one-element trims *)

Lemma drop_last_removelast {A} (l : list A) : drop_last l = removelast l.
Proof.
  unfold drop_last, py_slice_to, py_slice, slice_bound.
  rewrite removelast_firstn_len. cbn [Z.ltb Z.compare].
  replace (Z.min 0 (Z.of_nat (length l))) with 0 by lia.
  cbn [Z.to_nat skipn]. f_equal. lia.
Qed.

Lemma drop_first_tl {A} (l : list A) : drop_first l = tl l.
Proof.
  unfold drop_first, py_slice_from, py_slice, slice_bound.
  destruct l as [|a l]; [reflexivity|].
  replace (Z.of_nat (length (a :: l)) <? 0) with false
    by (symmetry; apply Z.ltb_ge; lia).
  cbn [Z.ltb Z.compare].
  replace (Z.min 1 (Z.of_nat (length (a :: l)))) with 1 by (simpl length; lia).
  replace (Z.min (Z.of_nat (length (a :: l))) (Z.of_nat (length (a :: l))))
    with (Z.of_nat (length (a :: l))) by lia.
  cbn [Z.to_nat Pos.to_nat Pos.iter_op Nat.add skipn tl].
  apply firstn_all2. simpl length. lia.
Qed.

(** *** The undefined entries of the DWT peak lists are the [np.nan] object *)

Lemma tp_peak_search_entry (attr : attribute) (dwt_local : list Q)
    (height : threshold) (start : Z) (x : pynum) :
  tp_peak_search attr dwt_local height start = Ok x -> x <> NanNew.
Proof.
  unfold tp_peak_search. destruct dwt_local as [|d0 rest].
  - intros H. injection H as <-. discriminate.
  - destruct (py_max (d0 :: rest)); cbn [bind]; [|discriminate].
    destruct (morphology _ _) as [[|c0 cs]|e]; cbn [bind]; [| |discriminate].
    + intros H. injection H as <-. discriminate.
    + destruct attr; intros H; injection H as <-; discriminate.
Qed.

Lemma tp_peaks_entries (rpeaks : list Z) (dwtmatr : list (list Q))
    (sampling_rate : Q) (tpeaks ppeaks : list pynum) :
  _dwt_delinate_tp_peaks rpeaks dwtmatr sampling_rate = Ok (tpeaks, ppeaks) ->
  Forall (fun x => x <> NanNew) tpeaks /\ Forall (fun x => x <> NanNew) ppeaks.
Proof.
  unfold _dwt_delinate_tp_peaks.
  destruct (_dwt_compensate_degree sampling_rate) as [degree|e]; [|discriminate].
  cbn [bind].
  set (body := tp_peaks_body _ _ _ _ _).
  assert (G : forall items t p t' p',
             Forall (fun x => x <> NanNew) t -> Forall (fun x => x <> NanNew) p ->
             for_loop body items (t, p) = Ok (t', p') ->
             Forall (fun x => x <> NanNew) t' /\ Forall (fun x => x <> NanNew) p').
  { induction items as [|i items IH]; intros t p t' p' Ht Hp H.
    - injection H as <- <-. split; assumption.
    - cbn [for_loop] in H.
      destruct (body i (t, p)) as [[t1 p1]|e] eqn:Hb; [|discriminate].
      cbn [bind] in H. apply (IH t1 p1); [| |exact H]; clear H IH;
        revert Hb; unfold body, tp_peaks_body;
        repeat match goal with
               | |- bind ?c _ = _ -> _ =>
                   let E := fresh "E" in
                   destruct c eqn:E; cbn [bind]; [|discriminate]
               end;
        intros Hb; injection Hb as <- <-; apply Forall_app; split;
        try assumption; constructor; [|constructor| |constructor];
        eapply tp_peak_search_entry; eassumption. }
  intros H. apply (G _ [] [] _ _ ltac:(constructor) ltac:(constructor) H).
Qed.

(** *** The trims of [_dwt_ecg_delinator] *)

(** T-onsets: one slot per R-R interval, then the NaN are dropped, then the
    last element. *)
Lemma dwt_T_onsets_count (ecg : list Q) (rpeaks : list Z) (sampling_rate : Q)
    (w : waves8) :
  _dwt_ecg_delinator ecg rpeaks sampling_rate = Ok w ->
  (length (ECG_T_Onsets w) <= length rpeaks - 2)%nat.
Proof.
  unfold _dwt_ecg_delinator.
  destruct (_dwt_delinate_tp_peaks _ _ _) as [[tpeaks ppeaks]|e] eqn:Htp;
    [|discriminate].
  cbn [bind].
  destruct (_dwt_delinate_qrs_bounds _ _ _ _ _) as [[qon qoff]|e];
    [|discriminate].
  cbn [bind].
  destruct (_dwt_delinate_tp_onsets_offsets ppeaks _ _ _ _ _ _)
    as [[pon poff]|e]; [|discriminate].
  cbn [bind].
  destruct (_dwt_delinate_tp_onsets_offsets tpeaks _ _ _ _ _ _)
    as [[ton toff]|e] eqn:Hton; [|discriminate].
  cbn [bind]. intros H. injection H as <-. cbn [ECG_T_Onsets].
  apply tp_peaks_one_per_interval in Htp. destruct Htp as [Lt _].
  rewrite resample_points_length_idx in Lt.
  apply tp_onsets_one_per_peak in Hton.
  rewrite drop_last_removelast.
  pose proof (resample_points_length_le ton analysis_sampling_rate sampling_rate)
    as Hle.
  destruct (_dwt_resample_points ton analysis_sampling_rate sampling_rate)
    as [|x l] eqn:E.
  - simpl. lia.
  - rewrite removelast_firstn_len, length_firstn. cbn [length] in *. lia.
Qed.

(** C2, as amended: when [_dwt_ecg_delinator] returns, T-onsets are the
    resampled onsets without their last element, P-peaks, P-onsets and
    R-onsets are the resampled lists without their first element, and
    T-peaks, T-offsets, P-offsets and R-offsets are the resampled lists as
    they are; the resampled lists hold no NaN, so that with [n] R-peaks
    there are at most [n - 2] T-onsets (at most 6 for 8 R-peaks). *)
Theorem dwt_boundary_trims (ecg : list Q) (rpeaks : list Z) (sampling_rate : Q)
    (w : waves8) :
  _dwt_ecg_delinator ecg rpeaks sampling_rate = Ok w ->
  let ecg_a := signal_resample ecg sampling_rate analysis_sampling_rate in
  let dwtmatr := _dwt_compute_multiscales ecg_a 9 in
  let rpeaks_a :=
    _dwt_resample_points (map Idx rpeaks) sampling_rate analysis_sampling_rate in
  let back l := _dwt_resample_points l analysis_sampling_rate sampling_rate in
  exists tpeaks ppeaks qrs_onsets qrs_offsets ponsets poffsets tonsets toffsets,
    _dwt_delinate_tp_peaks rpeaks_a dwtmatr analysis_sampling_rate
      = Ok (tpeaks, ppeaks)
    /\ _dwt_delinate_qrs_bounds rpeaks_a dwtmatr ppeaks tpeaks
         analysis_sampling_rate = Ok (qrs_onsets, qrs_offsets)
    /\ _dwt_delinate_tp_onsets_offsets ppeaks dwtmatr analysis_sampling_rate
         (3 # 10) (3 # 10) (4 # 10) (4 # 10) = Ok (ponsets, poffsets)
    /\ _dwt_delinate_tp_onsets_offsets tpeaks dwtmatr analysis_sampling_rate
         (6 # 10) (3 # 10) (6 # 10) (4 # 10) = Ok (tonsets, toffsets)
    /\ ECG_T_Onsets w = removelast (back tonsets)
    /\ ECG_P_Peaks w = tl (back ppeaks)
    /\ ECG_P_Onsets w = tl (back ponsets)
    /\ ECG_R_Onsets w = tl (back qrs_onsets)
    /\ ECG_T_Peaks w = back tpeaks
    /\ ECG_T_Offsets w = back toffsets
    /\ ECG_P_Offsets w = back poffsets
    /\ ECG_R_Offsets w = back qrs_offsets
    /\ (length (ECG_T_Onsets w) <= length rpeaks - 2)%nat.
Proof.
  intros H. pose proof (dwt_T_onsets_count _ _ _ _ H) as Hcount.
  revert H. unfold _dwt_ecg_delinator. cbv zeta.
  destruct (_dwt_delinate_tp_peaks _ _ _) as [[tpeaks ppeaks]|e] eqn:E1;
    [|discriminate].
  cbn [bind].
  destruct (_dwt_delinate_qrs_bounds _ _ _ _ _) as [[qon qoff]|e] eqn:E2;
    [|discriminate].
  cbn [bind].
  destruct (_dwt_delinate_tp_onsets_offsets ppeaks _ _ _ _ _ _)
    as [[pon poff]|e] eqn:E3; [|discriminate].
  cbn [bind].
  destruct (_dwt_delinate_tp_onsets_offsets tpeaks _ _ _ _ _ _)
    as [[ton toff]|e] eqn:E4; [|discriminate].
  cbn [bind]. intros H. injection H as <-.
  exists tpeaks, ppeaks, qon, qoff, pon, poff, ton, toff.
  cbn [ECG_T_Onsets ECG_P_Peaks ECG_P_Onsets ECG_R_Onsets ECG_T_Peaks
       ECG_T_Offsets ECG_P_Offsets ECG_R_Offsets] in *.
  rewrite <- drop_last_removelast, <- !drop_first_tl.
  repeat split; try reflexivity; assumption.
Qed.

(** *** Sequences *)

Lemma Qlt_bool_iff (a b : Q) : Qlt_bool a b = true <-> (a < b)%Q.
Proof.
  unfold Qlt_bool. rewrite negb_true_iff. split.
  - intros H. apply Qnot_le_lt. intros L. apply Qle_bool_iff in L. congruence.
  - intros H. destruct (Qle_bool b a) eqn:E; [|reflexivity].
    apply Qle_bool_iff in E. apply Qlt_not_le in H. contradiction.
Qed.

Lemma py_getitem_nth (l : list Q) (i : Z) :
  0 <= i < len l -> py_getitem l i = Ok (atQ l i).
Proof.
  intros H. unfold py_getitem, atQ, nthQ, len in *.
  replace (i <? 0) with false by (symmetry; apply Z.ltb_ge; lia).
  replace (i <? 0) with false by (symmetry; apply Z.ltb_ge; lia).
  replace (Z.of_nat (length l) <=? i) with false
    by (symmetry; apply Z.leb_gt; lia).
  cbn [orb].
  destruct (nth_error l (Z.to_nat i)) as [a|] eqn:E.
  - rewrite (nth_error_nth l _ 0%Q E). reflexivity.
  - apply nth_error_None in E. lia.
Qed.

Lemma py_getitem_last {A} (l : list A) (a : A) :
  py_getitem (l ++ [a]) (-1) = Ok a.
Proof.
  unfold py_getitem. cbn [Z.ltb Z.compare].
  rewrite length_app. cbn [length].
  replace (-1 + Z.of_nat (length l + 1)) with (Z.of_nat (length l)) by lia.
  replace (Z.of_nat (length l) <? 0) with false
    by (symmetry; apply Z.ltb_ge; lia).
  replace (Z.of_nat (length l + 1) <=? Z.of_nat (length l)) with false
    by (symmetry; apply Z.leb_gt; lia).
  cbn [orb]. rewrite Nat2Z.id, nth_error_app2, Nat.sub_diag by lia.
  reflexivity.
Qed.

Lemma py_getitem_In {A} (l : list A) (i : Z) (a : A) :
  py_getitem l i = Ok a -> In a l.
Proof.
  unfold py_getitem. destruct (_ || _); [discriminate|].
  destruct (nth_error l _) eqn:E; [|discriminate].
  intros H. injection H as <-. eapply nth_error_In. exact E.
Qed.

Lemma py_slice_to_firstn {A} (l : list A) (k : Z) :
  0 <= k <= len l -> py_slice_to l k = firstn (Z.to_nat k) l.
Proof.
  intros H. unfold py_slice_to, py_slice, slice_bound, len in *.
  replace (k <? 0) with false by (symmetry; apply Z.ltb_ge; lia).
  cbn [Z.ltb Z.compare].
  replace (Z.min 0 (Z.of_nat (length l))) with 0 by lia.
  replace (Z.min k (Z.of_nat (length l))) with k by lia.
  cbn [Z.to_nat skipn]. f_equal. lia.
Qed.

Lemma where_from_app {A} (cond : A -> bool) (l1 l2 : list A) (i : Z) :
  where_from cond (l1 ++ l2) i
  = where_from cond l1 i ++ where_from cond l2 (i + len l1).
Proof.
  revert i. induction l1 as [|a l1 IH]; intros i.
  - simpl. f_equal. unfold len. simpl. lia.
  - cbn [app where_from]. rewrite IH.
    replace (i + 1 + len l1) with (i + len (a :: l1))
      by (unfold len; cbn [length]; lia).
    destruct (cond a); reflexivity.
Qed.

(** The last position [np.where] reports is the right-most position at
    which the condition holds. *)
Lemma np_where_last (cond : Q -> bool) (l : list Q) :
  (exists j, 0 <= j < len l /\ cond (atQ l j) = true) ->
  exists c, py_getitem (np_where cond l) (-1) = Ok c
            /\ 0 <= c < len l
            /\ cond (atQ l c) = true
            /\ forall j, c < j < len l -> cond (atQ l j) = false.
Proof.
  unfold np_where.
  induction l as [|a l IH] using rev_ind; intros (j & Hj & Hc).
  - unfold len in Hj. simpl in Hj. lia.
  - rewrite where_from_app. cbn [where_from]. unfold len in *.
    rewrite length_app in *. cbn [length] in *.
    assert (Ea : atQ (l ++ [a]) (Z.of_nat (length l)) = a).
    { unfold atQ, nthQ. rewrite Nat2Z.id, app_nth2, Nat.sub_diag by lia.
      reflexivity. }
    assert (El : forall k, 0 <= k < Z.of_nat (length l) ->
                           atQ (l ++ [a]) k = atQ l k).
    { intros k Hk. unfold atQ, nthQ. apply app_nth1. lia. }
    destruct (cond a) eqn:Ca.
    + exists (Z.of_nat (length l)). rewrite py_getitem_last, Ea.
      repeat split; try lia; try assumption.
    + rewrite app_nil_r.
      assert (Hj' : 0 <= j < Z.of_nat (length l)).
      { destruct (Z.eq_dec j (Z.of_nat (length l))) as [->|]; [|lia].
        rewrite Ea in Hc. congruence. }
      destruct IH as (c & G1 & G2 & G3 & G4).
      { exists j. split; [exact Hj'|]. rewrite <- El by exact Hj'. exact Hc. }
      exists c. rewrite El by lia. repeat split; try lia; try assumption.
      intros k Hk.
      destruct (Z.eq_dec k (Z.of_nat (length l))) as [->|].
      * rewrite Ea. exact Ca.
      * rewrite El by lia. apply G4. lia.
Qed.

(** *** Local maxima lie inside the array *)

Lemma plateau_end_bounds (fuel : nat) (x : list Q) (v : Q) (i_ahead i_max : nat) :
  (i_ahead <= i_max)%nat ->
  (i_ahead <= plateau_end fuel x v i_ahead i_max <= i_max)%nat.
Proof.
  revert i_ahead. induction fuel as [|fuel IH]; intros i_ahead H; simpl; [lia|].
  destruct (i_ahead <? i_max)%nat eqn:E; cbn [andb]; [|lia].
  apply Nat.ltb_lt in E.
  destruct (Qeq_bool _ _); [|lia].
  specialize (IH (S i_ahead) ltac:(lia)). lia.
Qed.

Lemma local_maxima_loop_bound (fuel : nat) (x : list Q) (i i_max : nat) :
  Forall (fun p => (p < i_max)%nat) (local_maxima_loop fuel x i i_max).
Proof.
  revert i. induction fuel as [|fuel IH]; intros i; cbn [local_maxima_loop];
    [constructor|].
  destruct (i <? i_max)%nat eqn:E; [|constructor].
  apply Nat.ltb_lt in E.
  destruct (Qlt_bool _ _); [|apply IH].
  destruct (Qlt_bool _ _); [|apply IH].
  constructor; [|apply IH].
  pose proof (plateau_end_bounds (length x) x (nthQ x i) (i + 1) i_max
                ltac:(lia)) as B.
  apply Nat.Div0.div_lt_upper_bound. lia.
Qed.

Lemma find_peaks_plain_index (x : list Q) (p : Z) :
  In p (map pk_index (find_peaks x None None)) -> 0 <= p < len x - 1.
Proof.
  unfold find_peaks, _local_maxima_1d. rewrite map_map. cbn [pk_index peak_at].
  intros H. apply in_map_iff in H. destruct H as (n & <- & Hn).
  pose proof (local_maxima_loop_bound (length x) x 1 (length x - 1)) as B.
  rewrite Forall_forall in B. apply B in Hn. unfold len. lia.
Qed.

(** *** The DWT search for the QRS onset *)

(** The search on a window [d], once the last local maximum [pk] of the
    negated window is known and some earlier sample lies below half of it. *)
Lemma qrs_onset_search_spec (d : list Q) (pk : Z) :
  py_getitem (map pk_index (find_peaks (map Qopp d) None None)) (-1) = Ok pk ->
  (exists j, 0 <= j < pk /\ (- atQ d j < (1 # 2) * - atQ d pk)%Q) ->
  exists c, qrs_onset_search d = Ok c
            /\ 0 <= c < pk
            /\ (- atQ d c < (1 # 2) * - atQ d pk)%Q
            /\ forall j, c < j < pk -> ~ (- atQ d j < (1 # 2) * - atQ d pk)%Q.
Proof.
  intros Hpk (j & Hj & Hbelow).
  pose proof (find_peaks_plain_index _ _ (py_getitem_In _ _ _ Hpk)) as B.
  unfold len in B. rewrite length_map in B. fold (len d) in B.
  unfold qrs_onset_search. rewrite Hpk. cbn [bind].
  rewrite py_getitem_nth by lia. cbn [bind].
  rewrite py_slice_to_firstn by lia.
  set (eps := ((1 # 2) * - atQ d pk)%Q) in *.
  assert (Lf : len (firstn (Z.to_nat pk) d) = pk).
  { unfold len in *. rewrite length_firstn. lia. }
  assert (Ef : forall k, 0 <= k < pk -> atQ (firstn (Z.to_nat pk) d) k = atQ d k).
  { intros k Hk. unfold atQ, nthQ. rewrite nth_firstn.
    replace (Z.to_nat k <? Z.to_nat pk)%nat with true; [reflexivity|].
    symmetry. apply Nat.ltb_lt. lia. }
  destruct (np_where_last (fun v => Qlt_bool (- v) eps) (firstn (Z.to_nat pk) d))
    as (c & G1 & G2 & G3 & G4).
  { exists j. rewrite Lf, Ef by lia. split; [lia|].
    apply Qlt_bool_iff. exact Hbelow. }
  rewrite Lf in *. exists c. split; [exact G1|]. split; [lia|].
  rewrite Ef in G3 by lia. apply Qlt_bool_iff in G3. split; [exact G3|].
  intros k Hk Hlt. specialize (G4 k Hk). rewrite Ef in G4 by lia.
  apply Qlt_bool_iff in Hlt. congruence.
Qed.

(** C6, as amended: in an R-R interval with a defined P-peak [p], the pass
    of [_dwt_delinate_qrs_bounds] takes the window [[p, r)] of the detail
    signal at degree 2 plus the rate compensation, finds the local maxima
    of its negation, sets the threshold at half of the last of them, and
    appends as onset the last sample before that maximum whose negated value
    is below the threshold (not above it). *)
Theorem dwt_qrs_onset_last_below_half_max
    (dwtmatr : list (list Q)) (degree : Z) (rpeaks : list Z)
    (ppeaks tpeaks : list pynum) (i p r : Z) (d : list Q) (pk : Z) :
  py_getitem ppeaks i = Ok (Idx p) ->
  py_getitem rpeaks i = Ok r ->
  matr_slice dwtmatr (2 + degree) (Idx p) (Idx r) = Ok d ->
  py_getitem (map pk_index (find_peaks (map Qopp d) None None)) (-1) = Ok pk ->
  (exists j, 0 <= j < pk /\ (- atQ d j < (1 # 2) * - atQ d pk)%Q) ->
  exists c,
    0 <= c < pk
    /\ (- atQ d c < (1 # 2) * - atQ d pk)%Q
    /\ (forall j, c < j < pk -> ~ (- atQ d j < (1 # 2) * - atQ d pk)%Q)
    /\ qrs_onset_search d = Ok c
    /\ forall on off st',
         qrs_bounds_body dwtmatr degree rpeaks ppeaks tpeaks i (on, off) = Ok st' ->
         fst st' = on ++ [Idx (p + c)].
Proof.
  intros Hp Hr Hd Hpk Hex.
  destruct (qrs_onset_search_spec d pk Hpk Hex) as (c & G1 & G2 & G3 & G4).
  exists c. repeat split; try lia; try assumption.
  intros on off st'. unfold qrs_bounds_body.
  rewrite Hp, Hr. cbn [bind is_np_nan]. rewrite Hd. cbn [bind].
  rewrite G1. cbn [bind pynum_add].
  destruct (py_getitem tpeaks i) as [t|e]; cbn [bind]; [|discriminate].
  destruct (is_np_nan t).
  - intros H. injection H as <-. reflexivity.
  - destruct (matr_slice dwtmatr (2 + degree) (Idx r) t); cbn [bind];
      [|discriminate].
    destruct (qrs_offset_search _); cbn [bind]; [|discriminate].
    intros H. injection H as <-. reflexivity.
Qed.

(** *** The CWT search for onsets and offsets *)

Lemma rev_nil_inv {A} (l : list A) : rev l = [] -> l = [].
Proof.
  intros H. apply (f_equal (@rev A)) in H. rewrite rev_involutive in H.
  exact H.
Qed.




(** *** All-zero signals *)

Lemma nthQ_zeros (k i : nat) : nthQ (zeros k) i = 0%Q.
Proof. unfold nthQ, zeros. apply nth_repeat. Qed.

Lemma local_maxima_loop_zeros (fuel k i i_max : nat) :
  local_maxima_loop fuel (zeros k) i i_max = [].
Proof.
  revert i. induction fuel as [|fuel IH]; intros i; cbn [local_maxima_loop];
    [reflexivity|].
  destruct (i <? i_max)%nat; [|reflexivity].
  rewrite !nthQ_zeros. cbn [Qlt_bool Qle_bool Qnum Qden Z.mul Z.leb Z.compare negb].
  apply IH.
Qed.

Lemma find_peaks_zeros (k : nat) (h : option threshold) (p : option Q) :
  find_peaks (zeros k) h p = [].
Proof.
  unfold find_peaks, _local_maxima_1d. rewrite local_maxima_loop_zeros.
  destruct h, p; reflexivity.
Qed.

Lemma In_firstn_skipn {A} (x : A) (i j : nat) (l : list A) :
  In x (firstn i (skipn j l)) -> In x l.
Proof.
  intros H. rewrite <- (firstn_skipn j l). apply in_or_app. right.
  rewrite <- (firstn_skipn i (skipn j l)). apply in_or_app. left. exact H.
Qed.

Lemma py_slice_zeros (n : nat) (a b : Z) :
  exists k, py_slice (zeros n) a b = zeros k.
Proof.
  unfold py_slice. eexists. apply Forall_eq_repeat.
  apply Forall_forall. intros x Hx. apply In_firstn_skipn in Hx.
  unfold zeros in Hx. apply repeat_spec in Hx. congruence.
Qed.

Lemma map_Qabs_zeros (k : nat) : map Qabs (zeros k) = zeros k.
Proof. unfold zeros. rewrite map_repeat. reflexivity. Qed.

Lemma py_max_zeros (k : nat) : py_max (zeros (S k)) = Ok 0%Q.
Proof.
  cbn [zeros repeat py_max]. f_equal.
  induction k as [|k IH]; [reflexivity|]. cbn [repeat fold_left]. exact IH.
Qed.

(** *** The CWT search for T and P peaks on too little data *)

(** On an all-zero signal, whose transform is zero, a pass of the loop of
    [_peaks_delineator] either raises ([IndexError] on a missing R-peak,
    [ValueError] on an empty window) or adds an empty group. *)
Lemma peaks_body_of_zero_signal (n : nat) (rpeaks : list Z)
    (sampling_rate : Q) (search_boundary i : Z) (groups : list (list Z)) :
  pywt_installed = true ->
  peaks_delineator_body (zeros n) rpeaks sampling_rate (repeat (zeros n) 5)
    search_boundary i groups = Ok (groups ++ [[]])
  \/ peaks_delineator_body (zeros n) rpeaks sampling_rate (repeat (zeros n) 5)
       search_boundary i groups = Raise IndexError
  \/ peaks_delineator_body (zeros n) rpeaks sampling_rate (repeat (zeros n) 5)
       search_boundary i groups = Raise ValueError.
Proof.
  intros Hpywt. unfold peaks_delineator_body.
  pose proof (py_getitem_only_IndexError rpeaks i) as O1.
  destruct (py_getitem rpeaks i) as [r_i|e1]; cbn [bind];
    [|destruct e1; try contradiction; auto].
  pose proof (py_getitem_only_IndexError rpeaks (i + 1)) as O2.
  destruct (py_getitem rpeaks (i + 1)) as [r_nxt|e1]; cbn [bind];
    [|destruct e1; try contradiction; auto].
  unfold matr_slice.
  change (py_getitem (repeat (zeros n) 5) 4) with (Ok (zeros n)).
  cbn [bind py_slice_num].
  destruct (py_slice_zeros n (r_i + search_boundary) (r_nxt - search_boundary))
    as [k Hk].
  rewrite Hk, map_Qabs_zeros, find_peaks_zeros.
  destruct k as [|k].
  - cbn [zeros repeat py_max bind]. auto.
  - rewrite py_max_zeros. cbn [bind filter map].
    unfold _find_tppeaks, import_pywt. rewrite Hpywt.
    cbn [bind consecutive_pairs for_loop]. auto.
Qed.

Lemma peaks_loop_of_zero_signal (n : nat) (rpeaks : list Z)
    (sampling_rate : Q) (search_boundary : Z) (items : list Z) :
  pywt_installed = true ->
  forall groups,
  Forall (fun g => g = []) groups ->
  match for_loop (peaks_delineator_body (zeros n) rpeaks sampling_rate
                    (repeat (zeros n) 5) search_boundary) items groups with
  | Ok groups' => Forall (fun g => g = []) groups'
  | Raise e => e = IndexError \/ e = ValueError
  end.
Proof.
  intros Hpywt. induction items as [|i items IH]; intros groups Hg.
  - exact Hg.
  - cbn [for_loop].
    destruct (peaks_body_of_zero_signal n rpeaks sampling_rate search_boundary
                i groups Hpywt) as [E|[E|E]]; rewrite E; cbn [bind]; auto.
    apply IH. apply Forall_app. split; [exact Hg|].
    constructor; [reflexivity|constructor].
Qed.

Lemma peaks_delineator_zero_signal_raises (n : nat) (rpeaks : list Z)
    (sampling_rate : Q) :
  cwt (zeros n) sampling_rate = repeat (zeros n) 5 ->
  exists e, _peaks_delineator (zeros n) rpeaks sampling_rate = Raise e
            /\ (e = ImportError \/ e = IndexError \/ e = ValueError).
Proof.
  intros Hcwt. unfold _peaks_delineator.
  destruct pywt_installed eqn:Hpywt; unfold import_pywt; rewrite Hpywt;
    cbn [bind]; [|exists ImportError; auto].
  rewrite Hcwt.
  match goal with
  | |- context [for_loop ?body ?items ?init] =>
      pose proof (peaks_loop_of_zero_signal n rpeaks sampling_rate
                    (int_of_Q ((9 # 10) * (1 # 10) * sampling_rate / 2))
                    items Hpywt [] ltac:(constructor)) as Hl;
      destruct (for_loop body items init) as [groups|e]
  end; cbn [bind].
  - destruct groups as [|g groups].
    + exists ValueError. auto.
    + inversion Hl as [|? ? Hg _]. subst g. exists IndexError. auto.
  - exists e. split; [reflexivity|]. destruct Hl; auto.
Qed.

(** *** The dispatcher *)

Lemma ecg_delineate_cwt (ecg : list Q) (rpeaks : list Z) (sampling_rate : Q) :
  ecg_delineate ecg (RpeaksList rpeaks) sampling_rate "cwt"
  = (w <- _ecg_delinator_cwt ecg rpeaks sampling_rate ;;
     let waves := map (fun kv => (fst kv, remove_nan (snd kv))) (dict_of_cwt w) in
     Ok (signal_formatpeaks waves (len ecg), waves)).
Proof.
  unfold ecg_delineate. cbn [bind].
  change (str_in (lower "cwt") ["derivative"; "gradient"]%string) with false.
  change (str_in (lower "cwt") ["cwt"; "continuous wavelet transform"]%string)
    with true.
  change (str_in (lower "cwt") ["dwt"; "discrete wavelet transform"]%string)
    with false.
  cbn [bind]. destruct (_ecg_delinator_cwt ecg rpeaks sampling_rate); reflexivity.
Qed.

Lemma ecg_delineate_dwt (ecg : list Q) (rpeaks : list Z) (sampling_rate : Q) :
  ecg_delineate ecg (RpeaksList rpeaks) sampling_rate "dwt"
  = (w <- _dwt_ecg_delinator ecg rpeaks sampling_rate ;;
     let waves := map (fun kv => (fst kv, remove_nan (snd kv))) (dict_of_dwt w) in
     Ok (signal_formatpeaks waves (len ecg), waves)).
Proof.
  unfold ecg_delineate. cbn [bind].
  change (str_in (lower "dwt") ["derivative"; "gradient"]%string) with false.
  change (str_in (lower "dwt") ["cwt"; "continuous wavelet transform"]%string)
    with false.
  change (str_in (lower "dwt") ["dwt"; "discrete wavelet transform"]%string)
    with true.
  cbn [bind]. destruct (_dwt_ecg_delinator ecg rpeaks sampling_rate); reflexivity.
Qed.

Lemma str_in_false (s : string) (l : list string) :
  ~ In s l -> str_in s l = false.
Proof.
  intros H. unfold str_in. destruct (existsb (String.eqb s) l) eqn:E;
    [|reflexivity].
  apply existsb_exists in E. destruct E as (x & Hx & Heq).
  apply String.eqb_eq in Heq. subst x. contradiction.
Qed.

(** C3: the CWT method does not recover from insufficient data.  On an
    all-zero signal, whose wavelet transform is zero, [ecg_delineate] with
    the method "cwt" raises for every list of R-peaks: no R-R interval
    leaves nothing to unpack, an empty search window has no maximum, and a
    window without a significant peak gives an empty group, whose first
    element is then read.  In the DWT method, the QRS search on a flat
    window reads the last element of an empty list of maxima. *)
Theorem cwt_raises_on_all_zero_signal (n : nat) (rpeaks : list Z)
    (sampling_rate : Q) :
  cwt (zeros n) sampling_rate = repeat (zeros n) 5 ->
  (exists e,
     ecg_delineate (zeros n) (RpeaksList rpeaks) sampling_rate "cwt" = Raise e
     /\ (e = ImportError \/ e = IndexError \/ e = ValueError))
  /\ forall k, qrs_onset_search (zeros k) = Raise IndexError.
Proof.
  intros Hcwt. split.
  - destruct (peaks_delineator_zero_signal_raises n rpeaks sampling_rate Hcwt)
      as (e & He & Hk).
    exists e. split; [|exact Hk].
    rewrite ecg_delineate_cwt. unfold _ecg_delinator_cwt. rewrite He. reflexivity.
  - intros k. unfold qrs_onset_search.
    replace (map Qopp (zeros k)) with (zeros k)
      by (unfold zeros; rewrite map_repeat; reflexivity).
    rewrite find_peaks_zeros. reflexivity.
Qed.

(** C4: with a single R-peak the DWT method returns eight empty lists, but
    the CWT method raises: its loop over R-R intervals builds no group, and
    unpacking the transposition of an empty list into [tpeaks, ppeaks]
    fails with [ValueError]. *)
Theorem single_rpeak_dwt_empty_cwt_raises (ecg : list Q) (r : Z)
    (sampling_rate : Q) :
  _dwt_ecg_delinator ecg [r] sampling_rate
  = Ok {| ECG_T_Peaks := []; ECG_T_Onsets := []; ECG_T_Offsets := [];
          ECG_P_Peaks := []; ECG_P_Onsets := []; ECG_P_Offsets := [];
          ECG_R_Onsets := []; ECG_R_Offsets := [] |}
  /\ _ecg_delinator_cwt ecg [r] sampling_rate
     = Raise (if pywt_installed then ValueError else ImportError)
  /\ ecg_delineate ecg (RpeaksList [r]) sampling_rate "cwt"
     = Raise (if pywt_installed then ValueError else ImportError).
Proof.
  assert (C : _ecg_delinator_cwt ecg [r] sampling_rate
              = Raise (if pywt_installed then ValueError else ImportError)).
  { unfold _ecg_delinator_cwt, _peaks_delineator, import_pywt.
    destruct pywt_installed; reflexivity. }
  split; [|split; [exact C|]].
  - unfold _dwt_ecg_delinator. cbv zeta.
    cbn [map _dwt_resample_points].
    unfold _dwt_delinate_tp_peaks, _dwt_delinate_qrs_bounds,
      _dwt_delinate_tp_onsets_offsets.
    change (_dwt_compensate_degree analysis_sampling_rate) with (Ok 3).
    cbn [bind]. unfold range, len. cbn [length Z.of_nat Z.sub Z.add Z.opp
      Pos.of_succ_nat Z.pos_sub Z.to_nat seq map for_loop bind
      _dwt_resample_points].
    reflexivity.
  - rewrite ecg_delineate_cwt, C. reflexivity.
Qed.

(** C8: what [ecg_delineate] does with a method name that, once in lower
    case, is none of the accepted names.  None of the three tests on the
    name selects a delineator, so no delineation is computed; but no error
    about the method is reported either: the tests have no [else] branch,
    and the call fails at the first use of [waves], which only they assign,
    with Python's error for an unassigned local variable.  When the R-peaks
    come in a dictionary without the key "ECG_R_Peaks", the look-up fails
    first. *)
Theorem invalid_method_fails_before_delineation
    (ecg_cleaned : list Q) (rpeaks : rpeaks_arg) (sampling_rate : Q)
    (method : string) :
  ~ In (lower method) accepted_methods ->
  (exists e, ecg_delineate ecg_cleaned rpeaks sampling_rate method = Raise e
             /\ (e = UnboundLocalError "waves" \/ e = KeyError))
  /\ (forall l, rpeaks = RpeaksList l ->
        ecg_delineate ecg_cleaned rpeaks sampling_rate method
        = Raise (UnboundLocalError "waves")).
Proof.
  intros H. unfold accepted_methods in H.
  assert (E1 : str_in (lower method) ["derivative"; "gradient"]%string = false).
  { apply str_in_false. intros K. apply H. simpl in K |- *. tauto. }
  assert (E2 : str_in (lower method)
                 ["cwt"; "continuous wavelet transform"]%string = false).
  { apply str_in_false. intros K. apply H. simpl in K |- *. tauto. }
  assert (E3 : str_in (lower method)
                 ["dwt"; "discrete wavelet transform"]%string = false).
  { apply str_in_false. intros K. apply H. simpl in K |- *. tauto. }
  assert (G : forall l, ecg_delineate ecg_cleaned (RpeaksList l) sampling_rate method
                        = Raise (UnboundLocalError "waves")).
  { intros l. unfold ecg_delineate. cbn [bind]. rewrite E1, E2, E3. reflexivity. }
  split.
  - destruct rpeaks as [l|d].
    + exists (UnboundLocalError "waves"). split; [apply G|auto].
    + unfold ecg_delineate.
      destruct (dict_get d "ECG_R_Peaks") as [l|e] eqn:Ed; cbn [bind].
      * rewrite E1, E2, E3. cbn [bind].
        exists (UnboundLocalError "waves"). auto.
      * exists e. split; [reflexivity|]. right.
        clear - Ed. induction d as [|[k v] d IH]; cbn [dict_get] in Ed.
        -- congruence.
        -- destruct (String.eqb k "ECG_R_Peaks"); [discriminate|auto].
  - intros l ->. apply G.
Qed.

(** *** The derivative method: epochs *)

Lemma fold_min_In (l : list Q) (a : Q) : In (fold_left Qmin_b l a) (a :: l).
Proof.
  revert a. induction l as [|v l IH]; intros a; [left; reflexivity|].
  cbn [fold_left]. destruct (IH (Qmin_b a v)) as [E|E].
  - unfold Qmin_b in E at 1. destruct (Qlt_bool v a).
    + right. left. exact E.
    + left. exact E.
  - right. right. exact E.
Qed.

Lemma py_min_In (l : list Q) (m : Q) : py_min l = Ok m -> In m l.
Proof.
  destruct l as [|a l]; [discriminate|]. cbn [py_min].
  intros H. injection H as <-. apply fold_min_In.
Qed.

Lemma fold_min_stays (l : list Q) (t : Q) :
  Forall (Qlt t) l -> fold_left Qmin_b l t = t.
Proof.
  induction 1 as [|v l Hv _ IH]; [reflexivity|].
  cbn [fold_left]. unfold Qmin_b at 2.
  destruct (Qlt_bool v t) eqn:E; [|exact IH].
  apply Qlt_bool_iff in E. lra.
Qed.

(** On an increasing time index, the position of the first positive label
    is the number of labels that are at most zero. *)
Lemma first_positive_position (index : list Q) (i R : Z) (m : Q) :
  StronglySorted Qlt index ->
  py_min (filter (fun t => Qlt_bool 0 t) index) = Ok m ->
  get_loc index m i = Ok R ->
  R = i + Z.of_nat (length (filter (fun t => Qle_bool t 0) index)).
Proof.
  intros Hs. revert i. induction Hs as [|t rest Hs IH Ht]; intros i Hm Hloc.
  - discriminate Hm.
  - cbn [filter] in Hm |- *. destruct (Qlt_bool 0 t) eqn:Epos.
    + apply Qlt_bool_iff in Epos.
      assert (Hall : Forall (Qlt t) (filter (fun t0 => Qlt_bool 0 t0) rest)).
      { apply Forall_forall. intros x Hx. apply filter_In in Hx.
        rewrite Forall_forall in Ht. apply Ht. exact (proj1 Hx). }
      cbn [py_min] in Hm. rewrite (fold_min_stays _ _ Hall) in Hm.
      injection Hm as <-. cbn [get_loc] in Hloc.
      replace (Qeq_bool t t) with true in Hloc
        by (symmetry; apply Qeq_bool_iff; reflexivity).
      injection Hloc as <-.
      replace (Qle_bool t 0) with false.
      2:{ symmetry. destruct (Qle_bool t 0) eqn:E; [|reflexivity].
          apply Qle_bool_iff in E. lra. }
      replace (filter (fun t0 => Qle_bool t0 0) rest) with (@nil Q);
        [simpl; lia|].
      symmetry. clear - Ht Epos. induction Ht as [|x l Hx _ IHl]; [reflexivity|].
      cbn [filter]. destruct (Qle_bool x 0) eqn:E; [|exact IHl].
      apply Qle_bool_iff in E. lra.
    + assert (Hle : (t <= 0)%Q).
      { apply Qnot_lt_le. intros L. apply Qlt_bool_iff in L. congruence. }
      assert (Hmpos : (0 < m)%Q).
      { apply py_min_In, filter_In in Hm. apply Qlt_bool_iff. exact (proj2 Hm). }
      cbn [get_loc] in Hloc.
      replace (Qeq_bool t m) with false in Hloc.
      2:{ symmetry. destruct (Qeq_bool t m) eqn:E; [|reflexivity].
          apply Qeq_bool_iff in E. lra. }
      apply (IH (i + 1) Hm) in Hloc.
      replace (Qle_bool t 0) with true
        by (symmetry; apply Qle_bool_iff; exact Hle).
      cbn [length]. lia.
Qed.

Lemma rows_to_label_0_before_R (hb : heartbeat) (R : Z) :
  StronglySorted Qlt (hb_index hb) ->
  heartbeat_R hb = Ok R ->
  rows_to_label_0 hb = firstn (Z.to_nat R) (hb_signal hb).
Proof.
  intros Hs HR. unfold heartbeat_R in HR.
  destruct (py_min _) as [m|e] eqn:Hm; cbn [bind] in HR; [|discriminate].
  pose proof (first_positive_position _ _ _ _ Hs Hm HR) as E.
  unfold rows_to_label_0. f_equal. lia.
Qed.

(** *** The derivative method: the loop over the beats *)

Lemma derivative_beat_Q_P (heartbeats : list heartbeat) (i : nat) (rpeak : Z)
    (hb : heartbeat) (R : Z) (Pi Qi Si Ti Po To : pynum) :
  nth_error heartbeats i = Some hb ->
  heartbeat_R hb = Ok R ->
  derivative_beat heartbeats i rpeak = Ok (Pi, Qi, Si, Ti, Po, To) ->
  Qi = fst (_ecg_delineator_derivative_Q rpeak hb R)
  /\ Pi = fst (_ecg_delineator_derivative_P rpeak hb R
                 (snd (_ecg_delineator_derivative_Q rpeak hb R))).
Proof.
  intros Hhb HR. unfold derivative_beat. rewrite Hhb. cbn [bind].
  rewrite HR. cbn [bind].
  destruct (_ecg_delineator_derivative_Q rpeak hb R) as [Qx Qp]. cbn [fst snd].
  destruct (_ecg_delineator_derivative_P rpeak hb R Qp) as [Px Pp]. cbn [fst].
  destruct (_ecg_delineator_derivative_S rpeak hb R) as [Sx Sp].
  destruct (_ecg_delineator_derivative_T rpeak hb R Sp) as [Tx Tp].
  destruct (_ecg_delineator_derivative_P_onset _ _ _ _); cbn [bind];
    [|discriminate].
  destruct (_ecg_delineator_derivative_T_offset _ _ _ _); cbn [bind];
    [|discriminate].
  intros H. injection H as <- <- _ _ _ _. split; reflexivity.
Qed.

Lemma derivative_loop_entries (heartbeats : list heartbeat) (rpeaks : list Z) :
  forall (i : nat) (out w : waves6),
  derivative_loop heartbeats i rpeaks out = Ok w ->
  exists sq sp,
    Q_list w = Q_list out ++ sq /\ P_list w = P_list out ++ sp
    /\ forall k rpeak, nth_error rpeaks k = Some rpeak ->
         exists Pi Qi Si Ti Po To,
           derivative_beat heartbeats (i + k) rpeak = Ok (Pi, Qi, Si, Ti, Po, To)
           /\ nth_error sq k = Some Qi /\ nth_error sp k = Some Pi.
Proof.
  induction rpeaks as [|r rpeaks IH]; intros i out w H.
  - injection H as <-. exists [], []. rewrite !app_nil_r.
    repeat split. intros k rpeak Hk. destruct k; discriminate.
  - cbn [derivative_loop] in H.
    destruct (derivative_beat heartbeats i r)
      as [[[[[[Pi Qi] Si] Ti] Po] To]|e] eqn:Hb; cbn [bind] in H; [|discriminate].
    apply IH in H. destruct H as (sq & sp & EQ & EP & Hk).
    cbn [Q_list P_list] in EQ, EP.
    exists (Qi :: sq), (Pi :: sp). rewrite EQ, EP, <- !app_assoc.
    repeat split. intros k rpeak Hn. destruct k as [|k].
    + injection Hn as <-. rewrite Nat.add_0_r.
      exists Pi, Qi, Si, Ti, Po, To. repeat split. exact Hb.
    + cbn [nth_error] in Hn. destruct (Hk k rpeak Hn)
        as (Pi' & Qi' & Si' & Ti' & Po' & To' & Hb' & Hq & Hp).
      exists Pi', Qi', Si', Ti', Po', To'.
      replace (i + S k)%nat with (S i + k)%nat by lia. repeat split; assumption.
Qed.

End Delineation.

(* ===================================================================== *)
(** ** The derivative method: which peaks become Q and P *)
(* ===================================================================== *)

Lemma fold_max_spec (l : list Q) (a : Q) :
  In (fold_left Qmax_b l a) (a :: l)
  /\ forall v, In v (a :: l) -> (v <= fold_left Qmax_b l a)%Q.
Proof.
  revert a. induction l as [|x l IH]; intros a.
  - cbn [fold_left]. split; [left; reflexivity|].
    intros v [<-|[]]. apply Qle_refl.
  - cbn [fold_left]. destruct (IH (Qmax_b a x)) as [Hin Hle].
    assert (Ha : (a <= Qmax_b a x)%Q /\ (x <= Qmax_b a x)%Q
                 /\ (Qmax_b a x = a \/ Qmax_b a x = x)).
    { unfold Qmax_b. destruct (Qlt_bool a x) eqn:E.
      - apply Qlt_bool_iff in E. repeat split; [lra|apply Qle_refl|right; reflexivity].
      - assert (~ (a < x)%Q) by (intros K; apply Qlt_bool_iff in K; congruence).
        repeat split; [apply Qle_refl|lra|left; reflexivity]. }
    destruct Ha as (La & Lx & Hc). split.
    + destruct Hin as [E|Hin].
      * rewrite <- E. destruct Hc as [Hc|Hc]; rewrite Hc.
        -- left. reflexivity.
        -- right. left. reflexivity.
      * right. right. exact Hin.
    + intros v [<-|[<-|Hv]].
      * eapply Qle_trans; [exact La|]. apply Hle. left. reflexivity.
      * eapply Qle_trans; [exact Lx|]. apply Hle. left. reflexivity.
      * apply Hle. right. exact Hv.
Qed.

Lemma fold_min_spec (l : list Q) (a : Q) :
  forall v, In v (a :: l) -> (fold_left Qmin_b l a <= v)%Q.
Proof.
  revert a. induction l as [|x l IH]; intros a.
  - cbn [fold_left]. intros v [<-|[]]. apply Qle_refl.
  - cbn [fold_left].
    assert (Ha : (Qmin_b a x <= a)%Q /\ (Qmin_b a x <= x)%Q).
    { unfold Qmin_b. destruct (Qlt_bool x a) eqn:E.
      - apply Qlt_bool_iff in E. split; [lra|apply Qle_refl].
      - assert (~ (x < a)%Q) by (intros K; apply Qlt_bool_iff in K; congruence).
        split; [apply Qle_refl|lra]. }
    destruct Ha as (La & Lx).
    intros v [<-|[<-|Hv]].
    + eapply Qle_trans; [|exact La]. apply IH. left. reflexivity.
    + eapply Qle_trans; [|exact Lx]. apply IH. left. reflexivity.
    + apply IH. right. exact Hv.
Qed.

Lemma py_max_is_maximum (l : list Q) (m : Q) : py_max l = Ok m -> is_maximum l m.
Proof.
  destruct l as [|a l]; [discriminate|]. cbn [py_max]. intros H.
  injection H as <-. apply fold_max_spec.
Qed.

Lemma py_min_is_minimum (l : list Q) (m : Q) : py_min l = Ok m -> is_minimum l m.
Proof.
  intros H. split; [apply py_min_In; exact H|].
  destruct l as [|a l]; [discriminate|]. cbn [py_min] in H.
  injection H as <-. apply fold_min_spec.
Qed.

Lemma is_maximum_unique (l : list Q) (a b : Q) :
  is_maximum l a -> is_maximum l b -> (a == b)%Q.
Proof.
  intros [Ia La] [Ib Lb]. apply Qle_antisym; [apply Lb|apply La]; assumption.
Qed.

Lemma is_minimum_unique (l : list Q) (a b : Q) :
  is_minimum l a -> is_minimum l b -> (a == b)%Q.
Proof.
  intros [Ia La] [Ib Lb]. apply Qle_antisym; [apply La|apply Lb]; assumption.
Qed.

(** The 5% floor the code computes is 5% of the range of the segment. *)
Lemma height_floor_range (segment : list Q) :
  match height_floor segment with
  | Some h => exists hi lo, is_maximum segment hi /\ is_minimum segment lo
                            /\ h = ((5 # 100) * (hi - lo))%Q
  | None => segment = []
  end.
Proof.
  unfold height_floor. destruct segment as [|a l]; [reflexivity|].
  destruct (py_max (a :: l)) as [hi|e] eqn:Hhi; [|discriminate].
  destruct (py_min (a :: l)) as [lo|e] eqn:Hlo; [|discriminate].
  exists hi, lo. split; [apply py_max_is_maximum; exact Hhi|].
  split; [apply py_min_is_minimum; exact Hlo|reflexivity].
Qed.

Lemma sorted_app_lt (l1 l2 : list Z) :
  StronglySorted Z.lt (l1 ++ l2) ->
  forall x y, In x l1 -> In y l2 -> x < y.
Proof.
  induction l1 as [|a l1 IH]; intros Hs x y Hx Hy; [contradiction|].
  cbn [app] in Hs. inversion Hs as [|a' l' Hs' Hall]; subst.
  destruct Hx as [<-|Hx].
  - rewrite Forall_forall in Hall. apply Hall. apply in_or_app. right. exact Hy.
  - apply (IH Hs' x y Hx Hy).
Qed.

Lemma sorted_last_is_greatest (l rest : list Z) (q : Z) :
  StronglySorted Z.lt l -> rev l = q :: rest ->
  forall p, In p l -> p <= q.
Proof.
  intros Hs Hr p Hp.
  assert (E : l = rev rest ++ [q]).
  { rewrite <- (rev_involutive l), Hr. reflexivity. }
  rewrite E in Hs, Hp. apply in_app_or in Hp. destruct Hp as [Hp|[<-|[]]].
  - pose proof (sorted_app_lt _ _ Hs p q Hp (or_introl eq_refl)). lia.
  - lia.
Qed.

(** With a detector as section 4.3 describes it, the peaks reported for a
    segment with the floor the code computes are exactly the candidates. *)
Lemma detector_reports_candidates
    (finder : list Q -> option Q -> list Z) (height_of : list Q -> Z -> Q)
    (segment searched : list Q) (p : Z) :
  local_maxima_detector finder height_of ->
  length searched = length segment ->
  (In p (finder searched (height_floor segment))
   <-> qualifies height_of segment searched p).
Proof.
  intros (_ & Hloc & Hiff) Hlen.
  pose proof (height_floor_range segment) as Hf.
  destruct (height_floor segment) as [h|].
  - destruct Hf as (hi & lo & Hhi & Hlo & ->). rewrite Hiff. unfold qualifies.
    split.
    + intros [Hm Hh]. split; [exact Hm|]. exists hi, lo.
      split; [exact Hhi|]. split; [exact Hlo|exact Hh].
    + intros [Hm (hi' & lo' & Hhi' & Hlo' & Hh)]. split; [exact Hm|].
      pose proof (is_maximum_unique _ _ _ Hhi Hhi') as E1.
      pose proof (is_minimum_unique _ _ _ Hlo Hlo') as E2.
      rewrite E1, E2. exact Hh.
  - subst segment. cbn [length] in Hlen. split.
    + intros Hin. apply Hloc in Hin. destruct Hin as (H0 & H1 & _).
      unfold len in H1. rewrite Hlen in H1. cbn in H1. lia.
    + intros [(H0 & H1 & _) _]. unfold len in H1. rewrite Hlen in H1.
      cbn in H1. lia.
Qed.

(** The last reported peak is the right-most candidate, and there is none
    exactly when nothing is reported. *)
Lemma detector_last_is_rightmost
    (finder : list Q -> option Q -> list Z) (height_of : list Q -> Z -> Q)
    (segment searched : list Q) :
  local_maxima_detector finder height_of ->
  length searched = length segment ->
  match rev (finder searched (height_floor segment)) with
  | [] => forall p, ~ qualifies height_of segment searched p
  | q :: _ => rightmost_qualifying height_of segment searched q
  end.
Proof.
  intros Hd Hlen.
  pose proof (fun p => detector_reports_candidates finder height_of segment
                         searched p Hd Hlen) as Hrep.
  destruct (rev (finder searched (height_floor segment))) as [|q rest] eqn:Er.
  - intros p Hq. apply Hrep in Hq. apply rev_nil_inv in Er. rewrite Er in Hq.
    contradiction.
  - split.
    + apply Hrep. apply in_rev. rewrite Er. left. reflexivity.
    + intros p' Hq. apply Hrep in Hq.
      apply (sorted_last_is_greatest _ _ _ (proj1 Hd _ _) Er p' Hq).
Qed.

Lemma rightmost_qualifying_unique (height_of : list Q -> Z -> Q)
    (segment searched : list Q) (p q : Z) :
  rightmost_qualifying height_of segment searched p ->
  rightmost_qualifying height_of segment searched q -> p = q.
Proof.
  intros [Hp Mp] [Hq Mq]. pose proof (Mp q Hq). pose proof (Mq p Hp). lia.
Qed.

(** C7: in the derivative method, with a peak finder that does what
    section 4.3 asks of the local-maxima detector, and for the beat [i]
    with its epoch [hb] (time index increasing) and the position [R] of the
    R-peak in it: the candidates for Q are the strict local maxima of the
    negated samples strictly before position [R] whose height reaches 5%
    of the peak-to-peak amplitude of these samples.  Without a candidate,
    Q and P of the beat are undefined.  Otherwise Q is the right-most
    candidate [q], reported as the sample [rpeak - (R - q)]; the candidates
    for P are the strict local maxima of the samples strictly before [q]
    whose height reaches 5% of the peak-to-peak amplitude of those samples,
    and P is the right-most of them, undefined when there is none.  Only
    the epoch of the beat enters. *)
Theorem derivative_Q_and_P_are_rightmost_candidates
    (epochs_create : list Q -> list Z -> Q -> list heartbeat)
    (signal_findpeaks : list Q -> option Q -> list Z)
    (signal_smooth : list Q -> Q -> list Q)
    (height_of : list Q -> Z -> Q)
    (ecg : list Q) (rpeaks : list Z) (sampling_rate : Q) (w : waves6)
    (i : nat) (rpeak : Z) (hb : heartbeat) (R : Z) :
  local_maxima_detector signal_findpeaks height_of ->
  _ecg_delineator_derivative epochs_create signal_findpeaks signal_smooth
    ecg rpeaks sampling_rate = Ok w ->
  nth_error rpeaks i = Some rpeak ->
  nth_error (epochs_create ecg rpeaks sampling_rate) i = Some hb ->
  StronglySorted Qlt (hb_index hb) ->
  heartbeat_R hb = Ok R ->
  let before_R := firstn (Z.to_nat R) (hb_signal hb) in
  let negated := map (fun v => (-1 * v)%Q) before_R in
  ((forall q, ~ qualifies height_of before_R negated q) ->
     nth_error (Q_list w) i = Some NanObj /\ nth_error (P_list w) i = Some NanObj)
  /\ (forall q, rightmost_qualifying height_of before_R negated q ->
        0 < q < R
        /\ nth_error (Q_list w) i = Some (Idx (rpeak - (R - q)))
        /\ let before_Q := firstn (Z.to_nat q) (hb_signal hb) in
           ((forall p, ~ qualifies height_of before_Q before_Q p) ->
              nth_error (P_list w) i = Some NanObj)
           /\ (forall p, rightmost_qualifying height_of before_Q before_Q p ->
                 0 < p < q
                 /\ nth_error (P_list w) i = Some (Idx (rpeak - (R - p))))).
Proof.
  intros Hd Hw Hr Hhb Hs HR before_R negated.
  unfold _ecg_delineator_derivative in Hw.
  apply derivative_loop_entries in Hw.
  destruct Hw as (sq & sp & EQ & EP & Hk). cbn [Q_list P_list app] in EQ, EP.
  destruct (Hk i rpeak Hr) as (Pi & Qi & Si & Ti & Po & To & Hb & Hq & Hp).
  cbn [Nat.add] in Hb.
  destruct (derivative_beat_Q_P _ _ _ _ _ _ _ _ _ _ _ _ _ Hhb HR Hb) as [EQi EPi].
  rewrite EQ, EP, Hq, Hp, EQi, EPi. clear EQi EPi Hb Hq Hp EQ EP Hk.
  unfold _ecg_delineator_derivative_Q.
  rewrite (rows_to_label_0_before_R hb R Hs HR).
  fold before_R. cbv zeta. fold negated.
  assert (Ln : length negated = length before_R)
    by (unfold negated; apply length_map).
  pose proof (detector_last_is_rightmost signal_findpeaks height_of before_R
                negated Hd Ln) as HQ.
  destruct (rev (signal_findpeaks negated (height_floor before_R)))
    as [|q0 restq]; cbn [fst snd].
  - split.
    + intros _. split; reflexivity.
    + intros q Hq. exfalso. apply (HQ q). exact (proj1 Hq).
  - split.
    + intros Hnone. exfalso. apply (Hnone q0). exact (proj1 HQ).
    + intros q Hq.
      assert (E : q = q0) by (eapply rightmost_qualifying_unique; eassumption).
      subst q0. clear HQ.
      assert (Bq : 0 < q < R).
      { destruct Hq as [[(H0 & H1 & _) _] _]. unfold len in H1.
        rewrite Ln in H1. unfold before_R in H1. rewrite length_firstn in H1.
        lia. }
      split; [exact Bq|]. split; [reflexivity|].
      unfold _ecg_delineator_derivative_P. cbv zeta.
      assert (Lq : q <= len (hb_signal hb)).
      { destruct Hq as [[(H0 & H1 & _) _] _]. unfold len in H1 |- *.
        rewrite Ln in H1. unfold before_R in H1. rewrite length_firstn in H1.
        lia. }
      rewrite py_slice_to_firstn by lia.
      set (before_Q := firstn (Z.to_nat q) (hb_signal hb)).
      pose proof (detector_last_is_rightmost signal_findpeaks height_of before_Q
                    before_Q Hd eq_refl) as HP.
      destruct (rev (signal_findpeaks before_Q (height_floor before_Q)))
        as [|p0 restp]; cbn [fst].
      * split; [intros _; reflexivity|].
        intros p Hp. exfalso. apply (HP p). exact (proj1 Hp).
      * split.
        -- intros Hnone. exfalso. apply (Hnone p0). exact (proj1 HP).
        -- intros p Hp.
           assert (E : p = p0) by (eapply rightmost_qualifying_unique; eassumption).
           subst p0. split; [|reflexivity].
           destruct Hp as [[(H0 & H1 & _) _] _]. unfold len in H1.
           unfold before_Q in H1. rewrite length_firstn in H1. lia.
Qed.

(** *** The strict local maxima with a minimum sample height are such a
    detector *)

Lemma strict_maxima_from_spec (x : list Q) :
  forall (i k : nat),
  In k (strict_maxima_from x i)
  <-> exists j, k = (i + S j)%nat /\ (S (S j) < length x)%nat
                /\ (nthQ x j < nthQ x (S j))%Q
                /\ (nthQ x (S (S j)) < nthQ x (S j))%Q.
Proof.
  induction x as [|a rest IH]; intros i k.
  - cbn [strict_maxima_from]. split; [contradiction|].
    intros (j & _ & H & _). cbn [length] in H. lia.
  - cbn [strict_maxima_from]. destruct rest as [|b [|c rest']].
    + split; [contradiction|]. intros (j & _ & H & _). cbn [length] in H. lia.
    + split; [contradiction|]. intros (j & _ & H & _). cbn [length] in H. lia.
    + specialize (IH (i + 1)%nat k).
      assert (Hhead : (Qlt_bool a b && Qlt_bool c b = true)
                      <-> (a < b)%Q /\ (c < b)%Q).
      { rewrite andb_true_iff, !Qlt_bool_iff. reflexivity. }
      assert (Hshift : In k (strict_maxima_from (b :: c :: rest') (i + 1))
                       <-> exists j, k = (i + S (S j))%nat
                             /\ (S (S (S j)) < length (a :: b :: c :: rest'))%nat
                             /\ (nthQ (a :: b :: c :: rest') (S j)
                                 < nthQ (a :: b :: c :: rest') (S (S j)))%Q
                             /\ (nthQ (a :: b :: c :: rest') (S (S (S j)))
                                 < nthQ (a :: b :: c :: rest') (S (S j)))%Q).
      { rewrite IH. split; intros (j & E & L & H1 & H2); exists j;
          (split; [lia|]); (split; [cbn [length] in L |- *; lia|]);
          split; assumption. }
      split.
      * intros Hin.
        assert (Hc : (k = (i + 1)%nat /\ (a < b)%Q /\ (c < b)%Q)
                     \/ In k (strict_maxima_from (b :: c :: rest') (i + 1))).
        { destruct (Qlt_bool a b && Qlt_bool c b) eqn:E.
          - destruct Hin as [<-|Hin]; [left|right; exact Hin].
            split; [reflexivity|]. apply Hhead. reflexivity.
          - right. exact Hin. }
        destruct Hc as [(-> & H1 & H2)|Hc].
        -- exists 0%nat. split; [lia|]. split; [cbn [length]; lia|].
           split; assumption.
        -- apply Hshift in Hc. destruct Hc as (j & E & L & H1 & H2).
           exists (S j). repeat split; assumption.
      * intros (j & E & L & H1 & H2). destruct j as [|j].
        -- assert (Eb : Qlt_bool a b && Qlt_bool c b = true)
             by (apply Hhead; split; assumption).
           rewrite Eb. left. lia.
        -- assert (Hin : In k (strict_maxima_from (b :: c :: rest') (i + 1))).
           { apply Hshift. exists j. repeat split; assumption. }
           destruct (Qlt_bool a b && Qlt_bool c b); [right|]; exact Hin.
Qed.

Lemma strict_maxima_from_sorted (x : list Q) :
  forall i, StronglySorted lt (strict_maxima_from x i).
Proof.
  induction x as [|a rest IH]; intros i; [constructor|].
  cbn [strict_maxima_from]. destruct rest as [|b [|c rest']]; try constructor.
  destruct (Qlt_bool a b && Qlt_bool c b); [|apply IH].
  constructor; [apply IH|]. apply Forall_forall. intros k Hk.
  apply strict_maxima_from_spec in Hk. destruct Hk as (j & -> & _). lia.
Qed.

Lemma strict_local_maximum_nat (x : list Q) (k : nat) :
  strict_local_maximum x (Z.of_nat k)
  <-> exists j, k = (0 + S j)%nat /\ (S (S j) < length x)%nat
                /\ (nthQ x j < nthQ x (S j))%Q
                /\ (nthQ x (S (S j)) < nthQ x (S j))%Q.
Proof.
  unfold strict_local_maximum, atQ, len. split.
  - intros (H0 & H1 & H2 & H3). destruct k as [|j]; [lia|]. exists j.
    replace (Z.to_nat (Z.of_nat (S j) - 1)) with j in H2 by lia.
    replace (Z.to_nat (Z.of_nat (S j) + 1)) with (S (S j)) in H3 by lia.
    rewrite Nat2Z.id in H2, H3.
    split; [reflexivity|]. split; [lia|]. split; assumption.
  - intros (j & -> & L & H2 & H3). cbn [Nat.add].
    replace (Z.to_nat (Z.of_nat (S j) - 1)) with j by lia.
    replace (Z.to_nat (Z.of_nat (S j) + 1)) with (S (S j)) by lia.
    rewrite Nat2Z.id. split; [lia|]. split; [lia|]. split; assumption.
Qed.

Lemma findpeaks_strict_is_detector :
  local_maxima_detector findpeaks_strict sample_height.
Proof.
  unfold local_maxima_detector, findpeaks_strict, spec_findpeaks. split; [|split].
  - intros x h.
    assert (G : forall l, StronglySorted lt l -> StronglySorted Z.lt (map Z.of_nat l)).
    { induction 1 as [|a l Hs IH Ha]; cbn [map]; constructor; [exact IH|].
      apply Forall_map. eapply Forall_impl; [|exact Ha]. cbv beta.
      intros b Hb. lia. }
    apply G. destruct h as [h|]; [|constructor].
    assert (F : forall (f : nat -> bool) l, StronglySorted lt l ->
                  StronglySorted lt (filter f l)).
    { intros f l. induction 1 as [|a l Hs IH Ha]; cbn [filter]; [constructor|].
      destruct (f a); [|exact IH]. constructor; [exact IH|].
      apply Forall_forall. intros b Hb. apply filter_In in Hb.
      rewrite Forall_forall in Ha. apply Ha. exact (proj1 Hb). }
    apply F, strict_maxima_from_sorted.
  - intros x h p Hin. apply in_map_iff in Hin. destruct Hin as (k & <- & Hk).
    destruct h as [h|]; [|contradiction].
    apply filter_In in Hk. destruct Hk as [Hk _].
    apply strict_local_maximum_nat, strict_maxima_from_spec. exact Hk.
  - intros x h p. split.
    + intros Hin. apply in_map_iff in Hin. destruct Hin as (k & <- & Hk).
      apply filter_In in Hk. destruct Hk as [Hk Hh]. split.
      * apply strict_local_maximum_nat, strict_maxima_from_spec. exact Hk.
      * unfold sample_height, atQ. rewrite Nat2Z.id.
        apply Qle_bool_iff. exact Hh.
    + intros [Hm Hh].
      assert (Hp : 0 <= p) by (destruct Hm as (H0 & _); lia).
      rewrite <- (Z2Nat.id p Hp) in Hm |- *. apply in_map. apply filter_In. split.
      * apply strict_maxima_from_spec, strict_local_maximum_nat. exact Hm.
      * apply Qle_bool_iff. unfold sample_height, atQ in Hh.
        exact Hh.
Qed.

(* ===================================================================== *)
(** ** Concrete runs *)
(* ===================================================================== *)

(** The DWT method on a signal of 900 samples at 2000 Hz with impulses at
    the samples 20, 290, 620 and 720, and R-peaks at 100, 200, 700, 800 and
    899. *)
Lemma dwt_run_on_impulses :
  _dwt_ecg_delinator resample_same_rate (impulse_train 900 [20; 290; 620; 720]%nat)
    [100; 200; 700; 800; 899] 2000
  = Ok {| ECG_T_Peaks := [290; 290]; ECG_T_Onsets := [-656];
          ECG_T_Offsets := [331; 331];
          ECG_P_Peaks := [-280; -180]; ECG_P_Onsets := [-221];
          ECG_P_Offsets := [-839];
          ECG_R_Onsets := [-275; -175]; ECG_R_Offsets := [284] |}.
Proof. vm_compute. reflexivity. Qed.

(** C1: [ecg_delineate] returns sample indices outside the signal.  On a
    signal of 900 samples at 2000 Hz (impulses at 20, 290, 620 and 720;
    R-peaks at 100, 200, 700, 800 and 899) the DWT method returns eight
    non-empty lists in which every P-peak, every onset and the P-offset is
    negative.  The P-peak window of the R-peak at 700 starts at
    [700 - 1000 = -300]; the slice silently wraps this bound to 600, the
    zero crossing is found 20 samples into the window, and the code adds it
    to the unwrapped start: [20 + (-300) = -280]. *)
Theorem dwt_reports_negative_indices :
  forall (pywt_installed : bool) (cwt : list Q -> Q -> list (list Q))
         (epochs_create : list Q -> list Z -> Q -> list heartbeat)
         (signal_findpeaks : list Q -> option Q -> list Z)
         (signal_smooth : list Q -> Q -> list Q) (signals_table : Type)
         (signal_formatpeaks : list (string * list Z) -> Z -> signals_table),
  let ecg := impulse_train 900 [20; 290; 620; 720]%nat in
  let waves :=
    [("ECG_T_Peaks", [290; 290]); ("ECG_T_Onsets", [-656]);
     ("ECG_T_Offsets", [331; 331]);
     ("ECG_P_Peaks", [-280; -180]); ("ECG_P_Onsets", [-221]);
     ("ECG_P_Offsets", [-839]);
     ("ECG_R_Onsets", [-275; -175]); ("ECG_R_Offsets", [284])]%string in
  len ecg = 900
  /\ ecg_delineate resample_same_rate pywt_installed cwt epochs_create
       signal_findpeaks signal_smooth signals_table signal_formatpeaks
       ecg (RpeaksList [100; 200; 700; 800; 899]) 2000 "dwt"
     = Ok (signal_formatpeaks waves 900, waves)
  /\ exists name indices index,
       In (name, indices) waves /\ In index indices
       /\ ~ (0 <= index < len ecg).
Proof.
  intros. split; [vm_compute; reflexivity|]. split.
  - rewrite ecg_delineate_dwt. unfold ecg. rewrite dwt_run_on_impulses.
    cbn [bind]. reflexivity.
  - exists "ECG_P_Peaks"%string, [-280; -180], (-280).
    split; [simpl; tauto|]. split; [simpl; tauto|].
    replace (len ecg) with 900 by (vm_compute; reflexivity). lia.
Qed.

(** C2, the claim as stated fails: with eight R-peaks there are seven R-R
    intervals, hence at most seven T-onsets before the trim and never seven
    after it, whatever the signal and the resampler. *)
Lemma dwt_eight_rpeaks_never_seven_T_onsets :
  ~ exists (signal_resample : list Q -> Q -> Q -> list Q) (ecg : list Q)
           (w : waves8),
      length ecg = 2500%nat
      /\ _dwt_ecg_delinator signal_resample ecg eight_rpeaks 250 = Ok w
      /\ length (ECG_T_Onsets w) = 7%nat.
Proof.
  intros (signal_resample & ecg & w & _ & Hrun & Hlen).
  apply dwt_T_onsets_count in Hrun. cbn [eight_rpeaks length] in Hrun. lia.
Qed.

Lemma dwt_boundary_trims_witness :
  exists w,
    _dwt_ecg_delinator resample_same_rate (impulse_train 180 [20]%nat)
      [100; 140; 170] 2000 = Ok w
    /\ ECG_P_Peaks w = [-840]
    /\ (length (ECG_T_Onsets w) <= length [100; 140; 170] - 2)%nat.
Proof.
  eexists. split; [vm_compute; reflexivity|]. split; [reflexivity|].
  destruct (dwt_boundary_trims resample_same_rate (impulse_train 180 [20]%nat)
              [100; 140; 170] 2000 _ ltac:(vm_compute; reflexivity))
    as (tp & pp & qon & qoff & pon & poff & ton & toff & H).
  apply H.
Defined.

Lemma cwt_raises_on_all_zero_signal_witness :
  cwt_zero_rows (zeros 1000) 1000 = repeat (zeros 1000) 5
  /\ exists e,
       ecg_delineate resample_same_rate true cwt_zero_rows epochs_pqrs_then_flat
         findpeaks_strict smooth_none _ format_as_lists
         (zeros 1000) (RpeaksList [200; 700]) 1000 "cwt" = Raise e.
Proof.
  split; [vm_compute; reflexivity|].
  destruct (cwt_raises_on_all_zero_signal resample_same_rate true cwt_zero_rows
              epochs_pqrs_then_flat findpeaks_strict smooth_none _ format_as_lists
              1000 [200; 700] 1000 ltac:(vm_compute; reflexivity))
    as [(e & He & _) _].
  exists e. exact He.
Defined.


(** C6, the claim as stated fails: on a window whose negation rises through
    1 and 6 to a maximum of 10, the threshold is 5 and the code returns
    position 1, the last sample below it; the search as specified returns
    position 2, the last sample above it. *)
Lemma qrs_onset_is_not_last_above_threshold :
  qrs_onset_search trough_window = Ok 1
  /\ qrs_onset_as_specified trough_window = Ok 2
  /\ qrs_onset_search trough_window <> qrs_onset_as_specified trough_window.
Proof. repeat split; try (vm_compute; reflexivity). vm_compute. discriminate. Qed.

Lemma dwt_qrs_onset_last_below_half_max_witness :
  py_getitem [Idx 0] 0 = Ok (Idx 0)
  /\ py_getitem [5; 9] 0 = Ok 5
  /\ matr_slice trough_matr (2 + 3) (Idx 0) (Idx 5) = Ok trough_window
  /\ exists c, 0 <= c < 3 /\ qrs_onset_search trough_window = Ok c.
Proof.
  split; [reflexivity|]. split; [reflexivity|]. split; [reflexivity|].
  destruct (dwt_qrs_onset_last_below_half_max trough_matr 3 [5; 9] [Idx 0]
              [NanObj] 0 0 5 trough_window 3
              ltac:(reflexivity) ltac:(reflexivity) ltac:(reflexivity)
              ltac:(vm_compute; reflexivity)
              ltac:(exists 1; split; [lia | vm_compute; reflexivity]))
    as (c & Hc & _ & _ & Hs & _).
  exists c. split; assumption.
Defined.

Lemma derivative_Q_and_P_are_rightmost_candidates_witness :
  local_maxima_detector findpeaks_strict sample_height
  /\ heartbeat_R {| hb_index := spaced_labels; hb_signal := pqrst_samples |}
     = Ok 11
  /\ rightmost_qualifying sample_height
       [0; 1; 0; 3; 1; 2; 1; 0; -1; -2; 1]%Q
       (map (fun v => (-1 * v)%Q) [0; 1; 0; 3; 1; 2; 1; 0; -1; -2; 1]%Q) 9
  /\ rightmost_qualifying sample_height
       [0; 1; 0; 3; 1; 2; 1; 0; -1]%Q [0; 1; 0; 3; 1; 2; 1; 0; -1]%Q 5
  /\ exists w,
       _ecg_delineator_derivative epoch_pqrst findpeaks_strict smooth_none
         pqrst_samples [11] 30 = Ok w
       /\ nth_error (Q_list w) 0 = Some (Idx (11 - (11 - 9)))
       /\ nth_error (P_list w) 0 = Some (Idx (11 - (11 - 5))).
Proof.
  pose proof findpeaks_strict_is_detector as Hd.
  assert (HQ : rightmost_qualifying sample_height
                 [0; 1; 0; 3; 1; 2; 1; 0; -1; -2; 1]%Q
                 (map (fun v => (-1 * v)%Q)
                      [0; 1; 0; 3; 1; 2; 1; 0; -1; -2; 1]%Q) 9).
  { pose proof (detector_last_is_rightmost findpeaks_strict sample_height
                  [0; 1; 0; 3; 1; 2; 1; 0; -1; -2; 1]%Q
                  (map (fun v => (-1 * v)%Q)
                       [0; 1; 0; 3; 1; 2; 1; 0; -1; -2; 1]%Q)
                  Hd eq_refl) as H.
    assert (E : rev (findpeaks_strict
                       (map (fun v => (-1 * v)%Q)
                            [0; 1; 0; 3; 1; 2; 1; 0; -1; -2; 1]%Q)
                       (height_floor [0; 1; 0; 3; 1; 2; 1; 0; -1; -2; 1]%Q))
                = [9])
      by (vm_compute; reflexivity).
    rewrite E in H. exact H. }
  assert (HP : rightmost_qualifying sample_height
                 [0; 1; 0; 3; 1; 2; 1; 0; -1]%Q
                 [0; 1; 0; 3; 1; 2; 1; 0; -1]%Q 5).
  { pose proof (detector_last_is_rightmost findpeaks_strict sample_height
                  [0; 1; 0; 3; 1; 2; 1; 0; -1]%Q
                  [0; 1; 0; 3; 1; 2; 1; 0; -1]%Q Hd eq_refl) as H.
    assert (E : rev (findpeaks_strict [0; 1; 0; 3; 1; 2; 1; 0; -1]%Q
                       (height_floor [0; 1; 0; 3; 1; 2; 1; 0; -1]%Q))
                = [5; 3; 1])
      by (vm_compute; reflexivity).
    rewrite E in H. exact H. }
  split; [exact Hd|]. split; [vm_compute; reflexivity|].
  split; [exact HQ|]. split; [exact HP|].
  assert (Hs : StronglySorted Qlt spaced_labels).
  { unfold spaced_labels. cbn [map seq].
    repeat (constructor; [|repeat (constructor; [reflexivity|]); constructor]).
    constructor. }
  exists {| P_list := [Idx 5]; Q_list := [Idx 9]; S_list := [Idx 13];
            T_list := [Idx 17]; P_onsets := [Idx 2]; T_offsets := [Idx 17] |}.
  assert (Hw : _ecg_delineator_derivative epoch_pqrst findpeaks_strict
                 smooth_none pqrst_samples [11] 30
               = Ok {| P_list := [Idx 5]; Q_list := [Idx 9];
                       S_list := [Idx 13]; T_list := [Idx 17];
                       P_onsets := [Idx 2]; T_offsets := [Idx 17] |})
    by (vm_compute; reflexivity).
  split; [exact Hw|].
  pose proof (derivative_Q_and_P_are_rightmost_candidates epoch_pqrst
       findpeaks_strict smooth_none sample_height pqrst_samples [11] 30 _
       0%nat 11 {| hb_index := spaced_labels; hb_signal := pqrst_samples |} 11
       Hd Hw ltac:(reflexivity) ltac:(reflexivity)
       Hs ltac:(vm_compute; reflexivity)) as T.
  cbv zeta in T. destruct T as [_ T].
  destruct (T 9 HQ) as (_ & EQ & _ & TP).
  destruct (TP 5 HP) as (_ & EP).
  split; [exact EQ|exact EP].
Defined.

Lemma invalid_method_fails_before_delineation_witness :
  ~ In (lower "Wavelet") accepted_methods
  /\ ecg_delineate resample_same_rate true cwt_zero_rows epochs_pqrs_then_flat
       findpeaks_strict smooth_none _ format_as_lists
       epoch_pqrs_samples (RpeaksList [8]) 10 "Wavelet"
     = Raise (UnboundLocalError "waves").
Proof.
  assert (H : ~ In (lower "Wavelet") accepted_methods).
  { vm_compute. intros K. repeat (destruct K as [K|K]; [discriminate K|]).
    exact K. }
  split; [exact H|].
  apply (proj2 (invalid_method_fails_before_delineation resample_same_rate true
                  cwt_zero_rows epochs_pqrs_then_flat findpeaks_strict
                  smooth_none _ format_as_lists epoch_pqrs_samples
                  (RpeaksList [8]) 10 "Wavelet" H) [8] eq_refl).
Defined.



Lemma dwt_tp_offsets_lose_undefined_slots_witness :
  exists onsets offsets,
    _dwt_delinate_tp_onsets_offsets [Idx 3; NanObj; Idx 5] trough_matr 2000
      (3 # 10) (3 # 10) (4 # 10) (4 # 10) = Ok (onsets, offsets)
    /\ length onsets = 3%nat
    /\ (forall i, nth_error [Idx 3; NanObj; Idx 5] i = Some NanObj ->
                  nth_error onsets i = Some NanObj)
    /\ length offsets = (3 - 1)%nat.
Proof.
  apply (dwt_tp_offsets_lose_undefined_slots [Idx 3; NanObj; Idx 5] trough_matr
           2000 (3 # 10) (3 # 10) (4 # 10) (4 # 10) 3 trough_window).
  - repeat constructor; discriminate.
  - reflexivity.
  - reflexivity.
Defined.
(* ===================================================================== *)
(** ** Further properties of the delineation code *)
(* ===================================================================== *)

(** *** Slices, indexing and loops *)

(** A slice is never longer than the distance between its bounds, unless
    the start is non-negative and the stop negative (the two bounds then
    count from different ends). *)
Lemma py_slice_length_le {A} (l : list A) (a b : Z) :
  (b < 0 -> a < 0) -> len (py_slice l a b) <= Z.max 0 (b - a).
Proof.
  intros H. unfold len, py_slice, slice_bound.
  rewrite length_firstn, length_skipn.
  destruct (a <? 0) eqn:Ea; destruct (b <? 0) eqn:Eb;
    try apply Z.ltb_lt in Ea; try apply Z.ltb_ge in Ea;
    try apply Z.ltb_lt in Eb; try apply Z.ltb_ge in Eb; lia.
Qed.

Lemma py_getitem_nat {A} (l : list A) (k : nat) (x : A) :
  py_getitem l (Z.of_nat k) = Ok x -> nth_error l k = Some x.
Proof.
  unfold py_getitem.
  replace (Z.of_nat k <? 0) with false by (symmetry; apply Z.ltb_ge; lia).
  destruct (_ || _); [discriminate|]. rewrite Nat2Z.id.
  destruct (nth_error l k); [|discriminate]. congruence.
Qed.

Lemma py_getitem_of_nth_error {A} (l : list A) (k : nat) (x : A) :
  nth_error l k = Some x -> py_getitem l (Z.of_nat k) = Ok x.
Proof.
  intros Hx. unfold py_getitem. cbv zeta.
  assert (E : (Z.of_nat k <? 0) = false) by (apply Z.ltb_ge; lia).
  rewrite E. cbv iota. rewrite E.
  assert (k < length l)%nat by (apply nth_error_Some; congruence).
  replace (Z.of_nat (length l) <=? Z.of_nat k) with false
    by (symmetry; apply Z.leb_gt; lia).
  cbn [orb]. rewrite Nat2Z.id, Hx. reflexivity.
Qed.

Lemma py_getitem_bounds {A} (l : list A) (i : Z) (x : A) :
  0 <= i -> py_getitem l i = Ok x -> i < len l.
Proof.
  intros Hi. unfold py_getitem, len.
  replace (i <? 0) with false by (symmetry; apply Z.ltb_ge; lia).
  destruct (Z.of_nat (length l) <=? i) eqn:E.
  - rewrite orb_true_r. discriminate.
  - apply Z.leb_gt in E. intros _. exact E.
Qed.

Lemma skipn_nth_error {A} (l : list A) (k : nat) (x : A) :
  nth_error l k = Some x -> skipn k l = x :: skipn (S k) l.
Proof.
  revert l. induction k as [|k IH]; intros [|a l] H; try discriminate.
  - injection H as <-. reflexivity.
  - cbn [nth_error] in H. cbn [skipn]. rewrite (IH l H). reflexivity.
Qed.

Lemma for_loop_app {I S} (body : I -> S -> result S) (l1 l2 : list I) (s : S) :
  for_loop body (l1 ++ l2) s = (s' <- for_loop body l1 s ;; for_loop body l2 s').
Proof.
  revert s. induction l1 as [|i l1 IH]; intros s; [reflexivity|].
  cbn [app for_loop]. destruct (body i s); cbn [bind]; [apply IH|reflexivity].
Qed.

(** A pass that raises whatever the state makes the whole loop raise. *)
Lemma for_loop_raises {I S} (body : I -> S -> result S) (items : list I) (i : I) :
  In i items ->
  (forall s, exists e, body i s = Raise e) ->
  forall s, exists e, for_loop body items s = Raise e.
Proof.
  intros Hin Hraise. induction items as [|j items IH]; [contradiction|].
  intros s. cbn [for_loop]. destruct Hin as [->|Hin].
  - destruct (Hraise s) as [e He]. rewrite He. exists e. reflexivity.
  - destruct (body j s) as [s'|e]; cbn [bind]; [apply (IH Hin)|].
    exists e. reflexivity.
Qed.

Lemma nth_error_app_new {A} (l l1 : list A) (i : nat) (x : A) :
  nth_error (l ++ l1) (length l + i) = Some x -> nth_error l1 i = Some x.
Proof.
  rewrite nth_error_app2 by lia. replace (length l + i - length l)%nat with i by lia.
  exact (fun H => H).
Qed.

(** The first position [np.where] reports. *)
Lemma where_from_range {A} (cond : A -> bool) (l : list A) (i : Z) :
  Forall (fun c => i <= c < i + len l) (where_from cond l i).
Proof.
  revert i. induction l as [|a l IH]; intros i; [constructor|].
  cbn [where_from]. specialize (IH (i + 1)).
  assert (Forall (fun c => i <= c < i + len (a :: l)) (where_from cond l (i + 1))).
  { eapply Forall_impl; [|exact IH]. unfold len. cbn [length]. intros c Hc. lia. }
  destruct (cond a); [constructor|]; try assumption.
  unfold len. cbn [length]. lia.
Qed.

Lemma np_where_range {A} (cond : A -> bool) (l : list A) (c : Z) :
  In c (np_where cond l) -> 0 <= c < len l.
Proof.
  intros H. pose proof (where_from_range cond l 0) as F.
  rewrite Forall_forall in F. apply F in H. lia.
Qed.

(** *** The QRS bounds of the DWT method *)

Lemma qrs_onset_search_range (d : list Q) (c : Z) :
  qrs_onset_search d = Ok c -> 0 <= c < len d.
Proof.
  unfold qrs_onset_search.
  destruct (py_getitem (map pk_index (find_peaks (map Qopp d) None None)) (-1))
    as [pk|e] eqn:Hpk; cbn [bind]; [|discriminate].
  apply py_getitem_In, find_peaks_plain_index in Hpk.
  unfold len in Hpk. rewrite length_map in Hpk. fold (len d) in Hpk.
  destruct (py_getitem d pk) as [dl|e]; cbn [bind]; [|discriminate].
  intros H. apply py_getitem_In, np_where_range in H.
  pose proof (py_slice_length_le d 0 pk ltac:(lia)) as L.
  unfold py_slice_to in H. lia.
Qed.

Lemma qrs_offset_search_range (d : list Q) (c : Z) :
  qrs_offset_search d = Ok c -> 0 <= c < len d.
Proof.
  unfold qrs_offset_search.
  destruct (py_getitem (map pk_index (find_peaks d None None)) 0)
    as [pk|e] eqn:Hpk; cbn [bind]; [|discriminate].
  apply py_getitem_In, find_peaks_plain_index in Hpk.
  destruct (py_getitem d pk) as [dl|e]; cbn [bind]; [|discriminate].
  intros H. apply py_getitem_In, in_map_iff in H. destruct H as (c' & <- & H).
  apply np_where_range in H.
  pose proof (py_slice_length_le d pk (len d) ltac:(unfold len; lia)) as L.
  unfold py_slice_from in H. fold (len d) in H. lia.
Qed.

Lemma matr_slice_length (matr : list (list Q)) (row a b : Z) (d : list Q) :
  matr_slice matr row (Idx a) (Idx b) = Ok d ->
  (b < 0 -> a < 0) -> len d <= Z.max 0 (b - a).
Proof.
  unfold matr_slice. destruct (py_getitem matr row) as [r|e]; cbn [bind];
    [|discriminate].
  intros H. injection H as <-. apply py_slice_length_le.
Qed.

Lemma matr_slice_nan_new (matr : list (list Q)) (row : Z) (x : pynum) :
  (exists e, matr_slice matr row NanNew x = Raise e)
  /\ (exists e, matr_slice matr row x NanNew = Raise e).
Proof.
  unfold matr_slice. destruct (py_getitem matr row) as [r|e]; cbn [bind].
  - split; [exists TypeError; reflexivity|]. exists TypeError.
    destruct x; reflexivity.
  - split; exists e; reflexivity.
Qed.

(** What one pass of the loop of [_dwt_delinate_qrs_bounds] appends. *)
Lemma qrs_bounds_body_cases (dwtmatr : list (list Q)) (degree : Z)
    (rpeaks : list Z) (ppeaks tpeaks : list pynum) (k : nat)
    (on off on' off' : list pynum) :
  qrs_bounds_body dwtmatr degree rpeaks ppeaks tpeaks (Z.of_nat k) (on, off)
  = Ok (on', off') ->
  exists pp r,
    nth_error ppeaks k = Some pp /\ nth_error rpeaks k = Some r
    /\ ((pp = NanObj /\ on' = on ++ [NanObj] /\ off' = off)
        \/ exists p v tt x,
             pp = Idx p /\ on' = on ++ [Idx v]
             /\ ((r < 0 -> p < 0) -> p <= v < r)
             /\ nth_error tpeaks k = Some tt /\ off' = off ++ [x]
             /\ ((tt = NanObj /\ x = NanObj)
                 \/ exists t u, tt = Idx t /\ x = Idx u
                                /\ ((t < 0 -> r < 0) -> r <= u < t))).
Proof.
  unfold qrs_bounds_body.
  destruct (py_getitem ppeaks (Z.of_nat k)) as [pp|e] eqn:Hpp; cbn [bind];
    [|discriminate].
  destruct (py_getitem rpeaks (Z.of_nat k)) as [r|e] eqn:Hr; cbn [bind];
    [|discriminate].
  apply py_getitem_nat in Hpp. apply py_getitem_nat in Hr.
  intros H. exists pp, r. split; [exact Hpp|]. split; [exact Hr|].
  destruct pp as [p| |]; cbn [is_np_nan] in H.
  - right.
    destruct (matr_slice dwtmatr (2 + degree) (Idx p) (Idx r)) as [d|e] eqn:Hd;
      cbn [bind] in H; [|discriminate].
    destruct (qrs_onset_search d) as [c|e] eqn:Hc; cbn [bind] in H; [|discriminate].
    destruct (py_getitem tpeaks (Z.of_nat k)) as [tt|e] eqn:Htt; cbn [bind] in H;
      [|discriminate].
    apply py_getitem_nat in Htt. apply qrs_onset_search_range in Hc.
    assert (Hon : (r < 0 -> p < 0) -> p <= p + c < r).
    { intros Hs. pose proof (matr_slice_length _ _ _ _ _ Hd Hs). lia. }
    destruct tt as [t| |]; cbn [is_np_nan] in H.
    + destruct (matr_slice dwtmatr (2 + degree) (Idx r) (Idx t)) as [d'|e] eqn:Hd';
        cbn [bind] in H; [|discriminate].
      destruct (qrs_offset_search d') as [c'|e] eqn:Hc'; cbn [bind] in H;
        [|discriminate].
      injection H as <- <-. apply qrs_offset_search_range in Hc'.
      exists p, (p + c), (Idx t), (Idx (c' + r)). cbn [pynum_add].
      repeat split; try assumption; try apply Hon; try assumption.
      right. exists t, (c' + r). repeat split;
        pose proof (matr_slice_length _ _ _ _ _ Hd' H); lia.
    + injection H as <- <-.
      exists p, (p + c), NanObj, NanObj. cbn [pynum_add].
      repeat split; try assumption; try apply Hon; try assumption.
      left. split; reflexivity.
    + destruct (proj2 (matr_slice_nan_new dwtmatr (2 + degree) (Idx r))) as [e He].
      rewrite He in H. discriminate.
  - left. injection H as <- <-. repeat split.
  - destruct (proj1 (matr_slice_nan_new dwtmatr (2 + degree) (Idx r))) as [e He].
    rewrite He in H. discriminate.
Qed.

(** The loop of [_dwt_delinate_qrs_bounds] from the interval [k] on, over
    [m] intervals. *)
Lemma qrs_bounds_loop (dwtmatr : list (list Q)) (degree : Z)
    (rpeaks : list Z) (ppeaks tpeaks : list pynum) (m : nat) :
  forall (k : nat) (on off on' off' : list pynum),
  for_loop (qrs_bounds_body dwtmatr degree rpeaks ppeaks tpeaks)
    (map Z.of_nat (seq k m)) (on, off) = Ok (on', off') ->
  exists on1 off1,
    on' = on ++ on1 /\ off' = off ++ off1
    /\ length on1 = m
    /\ length off1
       = length (filter (fun x => negb (is_np_nan x)) (firstn m (skipn k ppeaks)))
    /\ (forall j x, nth_error on1 j = Some x ->
          exists pp r,
            nth_error ppeaks (k + j) = Some pp /\ nth_error rpeaks (k + j) = Some r
            /\ match pp with
               | Idx p => exists v, x = Idx v /\ ((r < 0 -> p < 0) -> p <= v < r)
               | _ => x = NanObj
               end)
    /\ Forall (fun x =>
                 x = NanObj
                 \/ exists i r t u,
                      x = Idx u /\ nth_error rpeaks i = Some r
                      /\ nth_error tpeaks i = Some (Idx t)
                      /\ ((t < 0 -> r < 0) -> r <= u < t)) off1.
Proof.
  induction m as [|m IH]; intros k on off on' off' H.
  - injection H as <- <-. exists [], []. rewrite !app_nil_r.
    repeat split; try constructor. intros [|j] x Hx; discriminate.
  - cbn [seq map for_loop] in H.
    destruct (qrs_bounds_body dwtmatr degree rpeaks ppeaks tpeaks (Z.of_nat k) (on, off))
      as [[on2 off2]|e] eqn:Hb; cbn [bind] in H; [|discriminate].
    apply qrs_bounds_body_cases in Hb.
    destruct Hb as (pp & r & Hpp & Hr & Hcase).
    apply IH in H.
    destruct H as (on1 & off1 & -> & -> & Hlen & Hoff & Hent & Hall).
    rewrite (skipn_nth_error _ _ _ Hpp). cbn [firstn filter].
    destruct Hcase as [(-> & -> & ->)
                      |(p & v & tt & x & -> & -> & Hv & Htt & -> & Hx)].
    + exists (NanObj :: on1), off1. rewrite <- app_assoc. cbn [app is_np_nan negb].
      repeat split; try assumption; [cbn [length]; lia|].
      intros [|j] y Hy.
      * injection Hy as <-. rewrite Nat.add_0_r. exists NanObj, r.
        repeat split; assumption.
      * cbn [nth_error] in Hy. replace (k + S j)%nat with (S k + j)%nat by lia.
        apply (Hent j y Hy).
    + exists (Idx v :: on1), (x :: off1). rewrite <- !app_assoc.
      cbn [app is_np_nan negb length].
      repeat split; try assumption; try lia.
      * intros [|j] y Hy.
        -- injection Hy as <-. rewrite Nat.add_0_r. exists (Idx p), r.
           repeat split; try assumption. exists v. split; [reflexivity|exact Hv].
        -- cbn [nth_error] in Hy. replace (k + S j)%nat with (S k + j)%nat by lia.
           apply (Hent j y Hy).
      * constructor; [|exact Hall].
        destruct Hx as [[_ ->]|(t & u & -> & -> & Hu)]; [left; reflexivity|].
        right. exists k, r, t, u. repeat split; try assumption;
          apply Hu; assumption.
Qed.

Lemma qrs_bounds_run (rpeaks : list Z) (dwtmatr : list (list Q))
    (ppeaks tpeaks : list pynum) (sampling_rate : Q) (onsets offsets : list pynum) :
  _dwt_delinate_qrs_bounds rpeaks dwtmatr ppeaks tpeaks sampling_rate
  = Ok (onsets, offsets) ->
  exists degree,
    for_loop (qrs_bounds_body dwtmatr degree rpeaks ppeaks tpeaks)
      (map Z.of_nat (seq 0 (length rpeaks - 1))) ([], []) = Ok (onsets, offsets).
Proof.
  unfold _dwt_delinate_qrs_bounds.
  destruct (_dwt_compensate_degree sampling_rate) as [degree|e]; cbn [bind];
    [|discriminate].
  intros H. exists degree. unfold range, len in H.
  replace (Z.to_nat (Z.of_nat (length rpeaks) - 1)) with (length rpeaks - 1)%nat
    in H by lia.
  exact H.
Qed.

(** X1: when [_dwt_delinate_qrs_bounds] returns, the onsets hold one slot
    per R-R interval, NaN where the P-peak of the interval is undefined,
    while the offsets hold a slot only for the intervals whose P-peak is
    defined: an undefined P-peak ends the pass before the offset search
    ([continue]). *)
Theorem dwt_qrs_offsets_skip_undefined_P
    (rpeaks : list Z) (dwtmatr : list (list Q)) (ppeaks tpeaks : list pynum)
    (sampling_rate : Q) (onsets offsets : list pynum) :
  _dwt_delinate_qrs_bounds rpeaks dwtmatr ppeaks tpeaks sampling_rate
  = Ok (onsets, offsets) ->
  length onsets = (length rpeaks - 1)%nat
  /\ length offsets
     = length (filter (fun x => negb (is_np_nan x))
                      (firstn (length rpeaks - 1) ppeaks))
  /\ forall i, (i < length rpeaks - 1)%nat ->
       nth_error ppeaks i = Some NanObj -> nth_error onsets i = Some NanObj.
Proof.
  intros H. apply qrs_bounds_run in H. destruct H as [degree H].
  apply qrs_bounds_loop in H.
  destruct H as (on1 & off1 & -> & -> & Hlen & Hoff & Hent & _).
  cbn [app skipn] in *. split; [exact Hlen|]. split; [exact Hoff|].
  intros i Hi Hnan.
  destruct (nth_error on1 i) as [x|] eqn:Hx.
  - destruct (Hent i x Hx) as (pp & r & Hpp & _ & Hm). cbn [Nat.add] in Hpp.
    rewrite Hnan in Hpp. injection Hpp as <-. rewrite Hm. reflexivity.
  - apply nth_error_None in Hx. lia.
Qed.

(** X2: the QRS bounds of the DWT method lie between the peaks that frame
    them.  A defined onset of interval [i] is at or after the P-peak
    [ppeaks[i]] and before the R-peak [rpeaks[i]]; a defined offset is at
    or after an R-peak and before the T-peak of the same interval.  (When
    the end of a window is negative and its start is not, the slice counts
    the two from different ends and the bound does not apply.) *)
Theorem dwt_qrs_bounds_between_peaks
    (rpeaks : list Z) (dwtmatr : list (list Q)) (ppeaks tpeaks : list pynum)
    (sampling_rate : Q) (onsets offsets : list pynum) :
  _dwt_delinate_qrs_bounds rpeaks dwtmatr ppeaks tpeaks sampling_rate
  = Ok (onsets, offsets) ->
  (forall i v, nth_error onsets i = Some (Idx v) ->
     exists p r,
       nth_error ppeaks i = Some (Idx p) /\ nth_error rpeaks i = Some r
       /\ ((r < 0 -> p < 0) -> p <= v < r))
  /\ (forall u, In (Idx u) offsets ->
        exists i r t,
          nth_error rpeaks i = Some r /\ nth_error tpeaks i = Some (Idx t)
          /\ ((t < 0 -> r < 0) -> r <= u < t)).
Proof.
  intros H. apply qrs_bounds_run in H. destruct H as [degree H].
  apply qrs_bounds_loop in H.
  destruct H as (on1 & off1 & -> & -> & _ & _ & Hent & Hall).
  cbn [app] in *. split.
  - intros i v Hv. destruct (Hent i _ Hv) as (pp & r & Hpp & Hr & Hm).
    cbn [Nat.add] in Hpp, Hr. destruct pp as [p| |]; try discriminate.
    destruct Hm as (v' & E & Hb). injection E as <-.
    exists p, r. repeat split; try assumption; apply Hb; assumption.
  - intros u Hu. rewrite Forall_forall in Hall.
    destruct (Hall _ Hu) as [E|(i & r & t & u' & E & Hr & Ht & Hb)];
      [discriminate|].
    injection E as <-. exists i, r, t. repeat split; try assumption;
      apply Hb; assumption.
Qed.

(** X3: [_dwt_delinate_qrs_bounds] has no guard around its searches: if in
    one R-R interval the P-peak is defined and the window between it and
    the R-peak holds no local minimum of the detail signal (a flat or
    monotone window, or an empty one), the whole call raises, whatever the
    other intervals hold. *)
Theorem dwt_qrs_bounds_raise_without_local_minimum
    (rpeaks : list Z) (dwtmatr : list (list Q)) (ppeaks tpeaks : list pynum)
    (sampling_rate : Q) (degree : Z) (i : nat) (p r : Z) (d : list Q) :
  _dwt_compensate_degree sampling_rate = Ok degree ->
  (i < length rpeaks - 1)%nat ->
  nth_error ppeaks i = Some (Idx p) ->
  nth_error rpeaks i = Some r ->
  matr_slice dwtmatr (2 + degree) (Idx p) (Idx r) = Ok d ->
  find_peaks (map Qopp d) None None = [] ->
  exists e,
    _dwt_delinate_qrs_bounds rpeaks dwtmatr ppeaks tpeaks sampling_rate = Raise e.
Proof.
  intros Hdeg Hi Hp Hr Hd Hflat. unfold _dwt_delinate_qrs_bounds.
  rewrite Hdeg. cbn [bind].
  apply (for_loop_raises _ _ (Z.of_nat i)).
  - unfold range, len. apply in_map, in_seq. lia.
  - intros [on off]. unfold qrs_bounds_body.
    rewrite (py_getitem_of_nth_error _ _ _ Hp), (py_getitem_of_nth_error _ _ _ Hr). cbn [bind is_np_nan]. rewrite Hd.
    cbn [bind]. unfold qrs_onset_search. rewrite Hflat.
    exists IndexError. reflexivity.
Qed.

(** *** The onsets and offsets of the P and T waves of the DWT method *)

Lemma catch_IndexError_Ok {A} (c : result A) (h x : A) :
  catch_IndexError c h = Ok x -> c = Ok x \/ x = h.
Proof.
  destruct c as [a|[]]; cbn [catch_IndexError]; intros H;
    try discriminate; injection H as <-; auto.
Qed.

(** What one pass of the loop of [_dwt_delinate_tp_onsets_offsets] appends
    for a defined peak [p]: an onset in the window before the peak and an
    offset in the window after it, each possibly NaN. *)
Lemma tp_body_bounds (dwtmatr : list (list Q)) (degree d1 d2 : Z) (w1 w2 : Q)
    (p : Z) (on off on' off' : list pynum) :
  0 <= d1 -> 0 <= d2 ->
  tp_onsets_offsets_body dwtmatr degree d1 d2 w1 w2 (Idx p) (on, off)
  = Ok (on', off') ->
  exists o f,
    on' = on ++ [o] /\ off' = off ++ [f]
    /\ (o = NanObj \/ exists v, o = Idx v /\ p - d1 <= v < p)
    /\ (f = NanObj \/ exists u, f = Idx u /\ p <= u < p + d2).
Proof.
  intros H1 H2. unfold tp_onsets_offsets_body.
  cbn [pynum_sub pynum_add is_np_nan orb].
  destruct (matr_slice dwtmatr (2 + degree) (Idx (p - d1)) (Idx p)) as [d|e] eqn:Hd;
    cbn [bind]; [|discriminate].
  match goal with
  | |- context [catch_IndexError ?c NanObj] => destruct (catch_IndexError c NanObj)
      as [o|e] eqn:Ho; cbn [bind]; [|discriminate]
  end.
  destruct (matr_slice dwtmatr (2 + degree) (Idx p) (Idx (p + d2))) as [d'|e] eqn:Hd';
    cbn [bind]; [|discriminate].
  match goal with
  | |- context [catch_IndexError ?c NanObj] => destruct (catch_IndexError c NanObj)
      as [f|e] eqn:Hf; cbn [bind]; [|discriminate]
  end.
  intros H. injection H as <- <-. exists o, f.
  split; [reflexivity|]. split; [reflexivity|]. split.
  - apply catch_IndexError_Ok in Ho. destruct Ho as [Ho|Ho]; [|left; exact Ho].
    right.
    destruct (py_getitem (map pk_index (find_peaks d None None)) (-1))
      as [pk|e] eqn:Hpk; cbn [bind] in Ho; [|discriminate].
    apply py_getitem_In, find_peaks_plain_index in Hpk.
    destruct (py_getitem d pk) as [dl|e]; cbn [bind] in Ho; [|discriminate].
    match type of Ho with
    | bind (py_getitem ?l _) _ = _ => destruct (py_getitem l (-1)) as [c|e] eqn:Hc;
        cbn [bind] in Ho; [|discriminate]
    end.
    injection Ho as <-. exists (p - d1 + c). split; [reflexivity|].
    apply py_getitem_In, np_where_range in Hc.
    pose proof (py_slice_length_le d 0 pk ltac:(lia)) as L.
    unfold py_slice_to in Hc.
    pose proof (matr_slice_length _ _ _ _ _ Hd ltac:(lia)). lia.
  - apply catch_IndexError_Ok in Hf. destruct Hf as [Hf|Hf]; [|left; exact Hf].
    right.
    destruct (py_getitem (map pk_index (find_peaks (map Qopp d') None None)) 0)
      as [pk|e] eqn:Hpk; cbn [bind] in Hf; [|discriminate].
    apply py_getitem_In, find_peaks_plain_index in Hpk.
    unfold len in Hpk. rewrite length_map in Hpk. fold (len d') in Hpk.
    destruct (py_getitem d' pk) as [dl|e]; cbn [bind] in Hf; [|discriminate].
    match type of Hf with
    | bind (py_getitem ?l _) _ = _ => destruct (py_getitem l 0) as [c|e] eqn:Hc;
        cbn [bind] in Hf; [|discriminate]
    end.
    injection Hf as <-. exists (p + c). split; [reflexivity|].
    apply py_getitem_In, in_map_iff in Hc. destruct Hc as (c' & <- & Hc).
    apply np_where_range in Hc.
    pose proof (py_slice_length_le d' pk (len d') ltac:(unfold len; lia)) as L.
    unfold py_slice_from in Hc. fold (len d') in Hc.
    pose proof (matr_slice_length _ _ _ _ _ Hd' ltac:(lia)). lia.
Qed.

Lemma tp_body_nan_new (dwtmatr : list (list Q)) (degree d1 d2 : Z) (w1 w2 : Q)
    (st : list pynum * list pynum) :
  exists e, tp_onsets_offsets_body dwtmatr degree d1 d2 w1 w2 NanNew st = Raise e.
Proof.
  destruct st as [on off]. unfold tp_onsets_offsets_body.
  cbn [pynum_sub is_np_nan orb].
  destruct (proj1 (matr_slice_nan_new dwtmatr (2 + degree) NanNew)) as [e He].
  rewrite He. exists e. reflexivity.
Qed.

Lemma tp_bounds_loop (dwtmatr : list (list Q)) (degree d1 d2 : Z) (w1 w2 : Q)
    (peaks : list pynum) :
  0 <= d1 -> 0 <= d2 ->
  forall on off on' off',
  for_loop (tp_onsets_offsets_body dwtmatr degree d1 d2 w1 w2) peaks (on, off)
  = Ok (on', off') ->
  exists on1 off1,
    on' = on ++ on1 /\ off' = off ++ off1
    /\ (forall i v, nth_error on1 i = Some (Idx v) ->
          exists p, nth_error peaks i = Some (Idx p) /\ p - d1 <= v < p)
    /\ (forall u, In (Idx u) off1 ->
          exists p, In (Idx p) peaks /\ p <= u < p + d2).
Proof.
  intros H1 H2. induction peaks as [|x peaks IH]; intros on off on' off' H.
  - injection H as <- <-. exists [], []. rewrite !app_nil_r.
    repeat split; try contradiction. intros [|i] v Hv; discriminate.
  - cbn [for_loop] in H.
    destruct (tp_onsets_offsets_body dwtmatr degree d1 d2 w1 w2 x (on, off))
      as [[on2 off2]|e] eqn:Hb; cbn [bind] in H; [|discriminate].
    apply IH in H. destruct H as (on1 & off1 & -> & -> & Hon & Hoff).
    destruct x as [p| |].
    + apply (tp_body_bounds _ _ _ _ _ _ _ _ _ _ _ H1 H2) in Hb.
      destruct Hb as (o & f & -> & -> & Ho & Hf).
      exists (o :: on1), (f :: off1). rewrite <- !app_assoc. cbn [app].
      repeat split.
      * intros [|i] v Hv.
        -- injection Hv as ->. destruct Ho as [Ho|(v' & E & Hb)]; [discriminate|].
           injection E as <-. exists p. split; [reflexivity|exact Hb].
        -- cbn [nth_error] in Hv |- *. apply (Hon i v Hv).
      * intros u [E|Hu].
        -- subst f. destruct Hf as [Hf|(u' & E & Hb)]; [discriminate|].
           injection E as <-. exists p. split; [left; reflexivity|exact Hb].
        -- destruct (Hoff u Hu) as (p' & Hin & Hb'). exists p'.
           split; [right; exact Hin|exact Hb'].
    + rewrite tp_body_nan in Hb. injection Hb as <- <-.
      exists (NanObj :: on1), off1. rewrite <- !app_assoc. cbn [app].
      repeat split.
      * intros [|i] v Hv; [discriminate|]. cbn [nth_error] in Hv |- *.
        apply (Hon i v Hv).
      * intros u Hu. destruct (Hoff u Hu) as (p' & Hin & Hb'). exists p'.
        split; [right; exact Hin|exact Hb'].
    + destruct (tp_body_nan_new dwtmatr degree d1 d2 w1 w2 (on, off)) as [e He].
      rewrite He in Hb. discriminate.
Qed.

(** X4: in [_dwt_delinate_tp_onsets_offsets], every defined onset lies in
    the search window before its peak, [peak - duration*rate <= onset <
    peak], and every defined offset in the window after a peak,
    [peak <= offset < peak + duration_offset*rate] (for durations that are
    not negative). *)
Theorem dwt_tp_onsets_offsets_around_peak
    (peaks : list pynum) (dwtmatr : list (list Q)) (sampling_rate : Q)
    (duration duration_offset onset_weight offset_weight : Q)
    (onsets offsets : list pynum) :
  0 <= int_of_Q (duration * sampling_rate) ->
  0 <= int_of_Q (duration_offset * sampling_rate) ->
  _dwt_delinate_tp_onsets_offsets peaks dwtmatr sampling_rate
    duration duration_offset onset_weight offset_weight = Ok (onsets, offsets) ->
  (forall i v, nth_error onsets i = Some (Idx v) ->
     exists p, nth_error peaks i = Some (Idx p)
               /\ p - int_of_Q (duration * sampling_rate) <= v < p)
  /\ (forall u, In (Idx u) offsets ->
        exists p, In (Idx p) peaks
                  /\ p <= u < p + int_of_Q (duration_offset * sampling_rate)).
Proof.
  intros H1 H2. unfold _dwt_delinate_tp_onsets_offsets.
  destruct (_dwt_compensate_degree sampling_rate) as [degree|e]; cbn [bind];
    [|discriminate].
  intros H. apply (tp_bounds_loop _ _ _ _ _ _ _ H1 H2) in H.
  destruct H as (on1 & off1 & -> & -> & Hon & Hoff). cbn [app].
  split; assumption.
Qed.

(** *** The T and P peaks of the DWT method *)

Lemma zerocrossings_range (x : list Q) (i : Z) :
  Forall (fun z => i < z < i + len x) (zerocrossings_from x i).
Proof.
  revert i. induction x as [|a rest IH]; intros i; [constructor|].
  cbn [zerocrossings_from]. destruct rest as [|b rest']; [constructor|].
  specialize (IH (i + 1)).
  assert (F : Forall (fun z => i < z < i + len (a :: b :: rest'))
                     (zerocrossings_from (b :: rest') (i + 1))).
  { eapply Forall_impl; [|exact IH]. unfold len. cbn [length]. intros z Hz. lia. }
  destruct (sign_change a b); [constructor|]; try exact F.
  unfold len. cbn [length]. lia.
Qed.

Lemma consecutive_pairs_In {A} (l : list A) (a b : A) :
  In (a, b) (consecutive_pairs l) -> In a l /\ In b l.
Proof.
  induction l as [|x rest IH]; [contradiction|].
  cbn [consecutive_pairs]. destruct rest as [|y rest']; [contradiction|].
  intros [E|H].
  - injection E as <- <-. split; [left; reflexivity|right; left; reflexivity].
  - destruct (IH H) as [Ha Hb]. split; right; assumption.
Qed.

(** The candidates of the morphology step lie inside the window. *)
Lemma morphology_range (d : list Q) (pairs : list (Z * Z)) (cs : list Z) :
  (forall a b, In (a, b) pairs -> 0 <= a /\ 0 <= b < len d) ->
  morphology d pairs = Ok cs ->
  Forall (fun c => 0 <= c < len d) cs.
Proof.
  revert cs. induction pairs as [|[a b] pairs IH]; intros cs Hp H.
  - injection H as <-. constructor.
  - cbn [morphology] in H.
    assert (Hp' : forall a0 b0, In (a0, b0) pairs -> 0 <= a0 /\ 0 <= b0 < len d).
    { intros a0 b0 Hin. apply Hp. right. exact Hin. }
    destruct (_ && _); [|apply (IH cs Hp' H)].
    destruct (py_getitem (signal_zerocrossings (py_slice d a b)) 0) as [zc|e] eqn:Hzc;
      cbn [bind] in H; [|discriminate].
    destruct (morphology d pairs) as [more|e]; cbn [bind] in H; [|discriminate].
    injection H as <-. constructor; [|apply (IH more Hp' eq_refl)].
    apply py_getitem_In in Hzc. unfold signal_zerocrossings in Hzc.
    pose proof (zerocrossings_range (py_slice d a b) 0) as F.
    rewrite Forall_forall in F. apply F in Hzc.
    destruct (Hp a b (or_introl eq_refl)) as [Ha Hb].
    pose proof (py_slice_length_le d a b ltac:(lia)). lia.
Qed.

Lemma find_peaks_filtered_index (x : list Q) (h : option threshold)
    (pr : option Q) (p : peak) :
  In p (find_peaks x h pr) -> 0 <= pk_index p < len x - 1.
Proof.
  intros H. apply find_peaks_plain_index. apply in_map.
  unfold find_peaks in *. destruct pr; [apply filter_In in H; destruct H as [H _]|];
    (destruct h; [apply filter_In in H; destruct H as [H _]|]); exact H.
Qed.

(** The entry [tp_peak_search] returns is NaN or lies inside the window. *)
Lemma tp_peak_search_range (attr : attribute) (d : list Q) (height : threshold)
    (start : Z) (x : pynum) :
  tp_peak_search attr d height start = Ok x ->
  x = NanObj \/ exists v, x = Idx v /\ start <= v < start + len d.
Proof.
  unfold tp_peak_search. destruct d as [|d0 rest] eqn:Ed.
  - intros H. injection H as <-. left. reflexivity.
  - rewrite <- Ed. destruct (py_max d) as [mx|e]; cbn [bind]; [|discriminate].
    match goal with
    | |- context [morphology d (consecutive_pairs ?l)] =>
        set (peaks := l);
        destruct (morphology d (consecutive_pairs peaks)) as [cs|e] eqn:Hm;
        cbn [bind]; [|discriminate]
    end.
    assert (Hpeaks : forall a, In a peaks -> 0 <= a < len d).
    { intros a Ha. assert (Hd : 0 < len d) by (rewrite Ed; unfold len; cbn [length]; lia).
      assert (Hf : forall a, In a (filter
                     (fun p => Qlt_bool ((25 # 1000) * mx) (Qabs (atQ d p)))
                     (map pk_index (find_peaks (map Qabs d) (Some height) None))) ->
                   0 <= a < len d).
      { intros a' Ha'. apply filter_In in Ha'. destruct Ha' as [Ha' _].
        apply in_map_iff in Ha'. destruct Ha' as (p & <- & Hp).
        apply find_peaks_filtered_index in Hp. unfold len in Hp.
        rewrite length_map in Hp. fold (len d) in Hp. lia. }
      unfold peaks in Ha. destruct (Qlt_bool 0 d0).
      - destruct Ha as [<-|Ha]; [lia|apply Hf; exact Ha].
      - apply Hf; exact Ha. }
    apply morphology_range in Hm.
    2:{ intros a b Hab. apply consecutive_pairs_In in Hab. destruct Hab as [Ha Hb].
        apply Hpeaks in Ha. apply Hpeaks in Hb. lia. }
    destruct cs as [|c0 cs']; intros H.
    + injection H as <-. left. reflexivity.
    + right. rewrite Forall_forall in Hm. destruct attr; injection H as <-.
      * exists (c0 + start). split; [reflexivity|].
        specialize (Hm c0 (or_introl eq_refl)). lia.
      * exists (last (c0 :: cs') c0 + start). split; [reflexivity|].
        assert (Hl : In (last (c0 :: cs') c0) (c0 :: cs')).
        { destruct (exists_last (l := c0 :: cs') ltac:(discriminate)) as (l' & a & E).
          rewrite E, last_last. apply in_or_app. right. left. reflexivity. }
        specialize (Hm _ Hl). lia.
Qed.

Lemma tp_peaks_body_windows (rpeaks : list Z) (dwtmatr : list (list Q))
    (sampling_rate : Q) (b degree_add : Z) (k : nat) (t p t' p' : list pynum) :
  tp_peaks_body rpeaks dwtmatr sampling_rate b degree_add (Z.of_nat k) (t, p)
  = Ok (t', p') ->
  exists r r' x y,
    nth_error rpeaks k = Some r /\ nth_error rpeaks (S k) = Some r'
    /\ t' = t ++ [x] /\ p' = p ++ [y]
    /\ (x = NanObj
        \/ exists v, x = Idx v
                     /\ ((r' - b * 8 < 0 -> r + b < 0) -> r + b <= v < r' - b * 8))
    /\ (y = NanObj
        \/ exists v, y = Idx v
                     /\ ((r - b < 0 -> r - int_of_Q ((5 # 10) * sampling_rate) < 0) ->
                         r - int_of_Q ((5 # 10) * sampling_rate) <= v < r - b)).
Proof.
  unfold tp_peaks_body.
  destruct (py_getitem rpeaks (Z.of_nat k)) as [r|e] eqn:Hr; cbn [bind];
    [|discriminate].
  destruct (py_getitem rpeaks (Z.of_nat k + 1)) as [r'|e] eqn:Hr'; cbn [bind];
    [|discriminate].
  apply py_getitem_nat in Hr.
  replace (Z.of_nat k + 1) with (Z.of_nat (S k)) in Hr' by lia.
  apply py_getitem_nat in Hr'.
  destruct (matr_slice dwtmatr (3 + degree_add) (Idx (r + b)) (Idx (r' - b * 8)))
    as [d|e] eqn:Hd; cbn [bind]; [|discriminate].
  destruct (tp_peak_search tpeak d (rms_height (25 # 100) d) (r + b))
    as [x|e] eqn:Hx; cbn [bind]; [|discriminate].
  destruct (matr_slice dwtmatr (2 + degree_add)
              (Idx (r - int_of_Q ((5 # 10) * sampling_rate))) (Idx (r - b)))
    as [d'|e] eqn:Hd'; cbn [bind]; [|discriminate].
  destruct (tp_peak_search ppeak d' (rms_height (2 # 100) d')
              (r - int_of_Q ((5 # 10) * sampling_rate)))
    as [y|e] eqn:Hy; cbn [bind]; [|discriminate].
  intros H. injection H as <- <-. exists r, r', x, y.
  repeat split; try assumption.
  - apply tp_peak_search_range in Hx. destruct Hx as [Hx|(v & Hv & Hb)];
      [left; exact Hx|right].
    exists v. split; [exact Hv|]. intros Hs.
    pose proof (matr_slice_length _ _ _ _ _ Hd Hs). lia.
  - apply tp_peak_search_range in Hy. destruct Hy as [Hy|(v & Hv & Hb)];
      [left; exact Hy|right].
    exists v. split; [exact Hv|]. intros Hs.
    pose proof (matr_slice_length _ _ _ _ _ Hd' Hs). lia.
Qed.

Lemma tp_peaks_loop_windows (rpeaks : list Z) (dwtmatr : list (list Q))
    (sampling_rate : Q) (b degree_add : Z) (m : nat) :
  forall (k : nat) (t p t' p' : list pynum),
  for_loop (tp_peaks_body rpeaks dwtmatr sampling_rate b degree_add)
    (map Z.of_nat (seq k m)) (t, p) = Ok (t', p') ->
  exists t1 p1,
    t' = t ++ t1 /\ p' = p ++ p1 /\ length t1 = m /\ length p1 = m
    /\ forall j,
         (forall v, nth_error t1 j = Some (Idx v) ->
            exists r r', nth_error rpeaks (k + j) = Some r
                         /\ nth_error rpeaks (S (k + j)) = Some r'
                         /\ ((r' - b * 8 < 0 -> r + b < 0) ->
                             r + b <= v < r' - b * 8))
         /\ (forall v, nth_error p1 j = Some (Idx v) ->
               exists r, nth_error rpeaks (k + j) = Some r
                         /\ ((r - b < 0 ->
                              r - int_of_Q ((5 # 10) * sampling_rate) < 0) ->
                             r - int_of_Q ((5 # 10) * sampling_rate) <= v < r - b)).
Proof.
  induction m as [|m IH]; intros k t p t' p' H.
  - injection H as <- <-. exists [], []. rewrite !app_nil_r.
    repeat split; intros v Hv; destruct j; discriminate.
  - cbn [seq map for_loop] in H.
    destruct (tp_peaks_body rpeaks dwtmatr sampling_rate b degree_add (Z.of_nat k) (t, p))
      as [[t2 p2]|e] eqn:Hb; cbn [bind] in H; [|discriminate].
    apply tp_peaks_body_windows in Hb.
    destruct Hb as (r & r' & x & y & Hr & Hr' & -> & -> & Hx & Hy).
    apply IH in H. destruct H as (t1 & p1 & -> & -> & Lt & Lp & Hent).
    exists (x :: t1), (y :: p1). rewrite <- !app_assoc. cbn [app length].
    repeat split; try lia.
    + intros v Hv. destruct j as [|j].
      * injection Hv as ->. rewrite Nat.add_0_r.
        destruct Hx as [Hx|(v' & E & Hb)]; [discriminate|]. injection E as <-.
        exists r, r'. repeat split; try assumption; apply Hb; assumption.
      * cbn [nth_error] in Hv. replace (k + S j)%nat with (S k + j)%nat by lia.
        apply (proj1 (Hent j) v Hv).
    + intros v Hv. destruct j as [|j].
      * injection Hv as ->. rewrite Nat.add_0_r.
        destruct Hy as [Hy|(v' & E & Hb)]; [discriminate|]. injection E as <-.
        exists r. repeat split; try assumption; apply Hb; assumption.
      * cbn [nth_error] in Hv. replace (k + S j)%nat with (S k + j)%nat by lia.
        apply (proj2 (Hent j) v Hv).
Qed.

(** X5: when [_dwt_delinate_tp_peaks] returns, both lists hold one entry
    per R-R interval.  A defined T-peak of interval [i] lies in the window
    that starts [b] samples after the R-peak [rpeaks[i]] and ends [8 b]
    samples before the next one, [b] being 90% of half the QRS duration,
    unless that window has a start at or after sample 0 and an end before
    sample 0: the slice then counts the end from the end of the row, and
    the T-peak is not bounded by the next R-peak.  A defined P-peak of the
    same pass lies before [rpeaks[i]], between half a second and [b]
    samples ahead of it. *)
Theorem dwt_tp_peaks_inside_search_windows
    (rpeaks : list Z) (dwtmatr : list (list Q)) (sampling_rate : Q)
    (tpeaks ppeaks : list pynum) :
  (0 <= sampling_rate)%Q ->
  _dwt_delinate_tp_peaks rpeaks dwtmatr sampling_rate = Ok (tpeaks, ppeaks) ->
  let b := int_of_Q ((9 # 10) * (5 # 100) * sampling_rate / 2) in
  let half_second := int_of_Q ((5 # 10) * sampling_rate) in
  length tpeaks = (length rpeaks - 1)%nat
  /\ length ppeaks = (length rpeaks - 1)%nat
  /\ (forall i v, nth_error tpeaks i = Some (Idx v) ->
        exists r r', nth_error rpeaks i = Some r
                     /\ nth_error rpeaks (S i) = Some r'
                     /\ ((r' - b * 8 < 0 -> r + b < 0) -> r + b <= v < r' - b * 8))
  /\ (forall i v, nth_error ppeaks i = Some (Idx v) ->
        exists r, nth_error rpeaks i = Some r /\ r - half_second <= v < r - b).
Proof.
  intros Hsr H b half_second. unfold _dwt_delinate_tp_peaks in H. fold b in H.
  destruct (_dwt_compensate_degree sampling_rate) as [degree|e]; cbn [bind] in H;
    [|discriminate].
  unfold range, len in H.
  replace (Z.to_nat (Z.of_nat (length rpeaks) - 1)) with (length rpeaks - 1)%nat
    in H by lia.
  apply tp_peaks_loop_windows in H.
  destruct H as (t1 & p1 & -> & -> & Lt & Lp & Hent). cbn [app].
  split; [exact Lt|]. split; [exact Lp|]. split.
  - intros i v Hv. apply (proj1 (Hent i) v Hv).
  - intros i v Hv. destruct (proj2 (Hent i) v Hv) as (r & Hr & Hb).
    exists r. split; [exact Hr|]. apply Hb. fold half_second.
    assert (b <= half_second); [|lia].
    unfold b, half_second.
    assert (E : ((9 # 10) * (5 # 100) * sampling_rate / 2
                 == (9 # 400) * sampling_rate)%Q) by field.
    assert (0 <= (9 # 400) * sampling_rate)%Q by lra.
    assert (0 <= (5 # 10) * sampling_rate)%Q by lra.
    rewrite !int_of_Q_nonneg by (rewrite ?E; assumption).
    rewrite E. apply Qfloor_resp_le. lra.
Qed.

(** *** The multiscale decomposition *)

Lemma vadd_length (a b : list Q) :
  length (vadd a b) = Nat.max (length a) (length b).
Proof.
  revert b. induction a as [|u a IH]; intros [|v b]; cbn [vadd length];
    try reflexivity.
  rewrite IH. reflexivity.
Qed.

Lemma zeros_length (n : nat) : length (zeros n) = n.
Proof. apply repeat_length. Qed.

(** [mode='full']: the convolution of [n >= 1] samples with [k >= 1] taps
    has [n + k - 1] samples. *)
Lemma convolve_length (x h : list Q) :
  x <> [] -> h <> [] -> length (convolve x h) = (length x + length h - 1)%nat.
Proof.
  intros Hx. induction h as [|hk h IH]; [congruence|]. intros _.
  cbn [convolve]. rewrite vadd_length, length_app, length_map, zeros_length.
  cbn [length]. destruct h as [|hk' h'].
  - cbn [convolve length]. destruct x; [congruence|cbn [length]; lia].
  - rewrite IH by discriminate. cbn [length]. lia.
Qed.

Lemma py_slice_from_length {A} (l : list A) (k : Z) :
  0 <= k <= len l -> len (py_slice_from l k) = len l - k.
Proof.
  intros H. unfold py_slice_from, py_slice, slice_bound, len in *.
  replace (k <? 0) with false by (symmetry; apply Z.ltb_ge; lia).
  replace (Z.of_nat (length l) <? 0) with false by (symmetry; apply Z.ltb_ge; lia).
  rewrite length_firstn, length_skipn. lia.
Qed.

Lemma py_slice_from_neg_length {A} (l : list A) (k : Z) :
  0 < k <= len l -> len (py_slice_from l (- k)) = k.
Proof.
  intros H. unfold py_slice_from, py_slice, slice_bound, len in *.
  replace (- k <? 0) with true by (symmetry; apply Z.ltb_lt; lia).
  replace (Z.of_nat (length l) <? 0) with false by (symmetry; apply Z.ltb_ge; lia).
  rewrite length_firstn, length_skipn. lia.
Qed.

(** The time shift keeps the length. *)
Lemma timeshift_length (f : list Q) (timedelay : Z) :
  0 < timedelay <= len f -> len (timeshift f timedelay) = len f.
Proof.
  intros H. unfold timeshift, len at 1. rewrite length_app, Nat2Z.inj_add.
  fold (len (py_slice_from f timedelay)). fold (len (py_slice_from f (- timedelay))).
  rewrite py_slice_from_length, py_slice_from_neg_length by lia. lia.
Qed.

Lemma pow2_pos (p : nat) : (1 <= 2 ^ p)%nat.
Proof. induction p as [|p IH]; cbn [Nat.pow]; lia. Qed.

Lemma apply_G_filter_length (x : list Q) (power : nat) :
  x <> [] -> length (_apply_G_filter x power) = (length x + 2 ^ power)%nat.
Proof.
  intros Hx. unfold _apply_G_filter. cbv zeta.
  pose proof (pow2_pos power) as P.
  assert (L : length (convolve x ([2%Q] ++ zeros (2 ^ power - 1) ++ [(-2)%Q]))
              = (length x + 2 ^ power)%nat).
  { rewrite convolve_length; [|exact Hx|discriminate].
    rewrite !length_app, zeros_length. cbn [length]. lia. }
  apply Nat2Z.inj. fold (len (timeshift
    (convolve x ([2%Q] ++ zeros (2 ^ power - 1) ++ [(-2)%Q])) (Z.of_nat (2 ^ power)))).
  rewrite timeshift_length; unfold len; rewrite L; lia.
Qed.

Lemma apply_H_filter_length (x : list Q) (power : nat) :
  x <> [] -> length (_apply_H_filter x power) = (length x + 3 * 2 ^ power)%nat.
Proof.
  intros Hx. unfold _apply_H_filter. cbv zeta.
  pose proof (pow2_pos power) as P.
  set (banks := [(1 # 8)%Q] ++ zeros (2 ^ power - 1) ++ [(3 # 8)%Q]
                ++ zeros (2 ^ power - 1) ++ [(3 # 8)%Q]
                ++ zeros (2 ^ power - 1) ++ [(1 # 8)%Q]).
  assert (L : length (convolve x banks) = (length x + 3 * 2 ^ power)%nat).
  { rewrite convolve_length; [|exact Hx|discriminate].
    unfold banks. rewrite !length_app, !zeros_length. cbn [length]. lia. }
  apply Nat2Z.inj. fold (len (timeshift (convolve x banks) (Z.of_nat (2 ^ power)))).
  rewrite timeshift_length; unfold len; rewrite L; lia.
Qed.

Lemma multiscales_loop_rows (n : nat) :
  forall (deg : nat) (x : list Q),
  x <> [] ->
  length (multiscales_loop n deg x) = n
  /\ Forall (fun row => (length x <= length row)%nat) (multiscales_loop n deg x).
Proof.
  induction n as [|n IH]; intros deg x Hx; cbn [multiscales_loop length].
  - split; [reflexivity|constructor].
  - assert (HT : _apply_H_filter x deg <> []).
    { intros E. pose proof (apply_H_filter_length x deg Hx) as L.
      rewrite E in L. cbn [length] in L. pose proof (pow2_pos deg). lia. }
    destruct (IH (S deg) _ HT) as [Ln Hrows]. split; [lia|].
    constructor.
    + rewrite apply_G_filter_length by exact Hx. lia.
    + eapply Forall_impl; [|exact Hrows]. cbv beta. intros row Hrow.
      rewrite apply_H_filter_length in Hrow by exact Hx. lia.
Qed.

(** X6: the decomposition of a non-empty signal is a matrix with one row
    per degree, each row cut to the length of the signal: the samples the
    convolutions add at the end never show. *)
Theorem dwt_multiscales_shape (ecg : list Q) (max_degree : nat) :
  ecg <> [] ->
  length (_dwt_compute_multiscales ecg max_degree) = max_degree
  /\ Forall (fun row => length row = length ecg)
            (_dwt_compute_multiscales ecg max_degree).
Proof.
  intros Hx. unfold _dwt_compute_multiscales.
  destruct (multiscales_loop_rows max_degree 0 ecg Hx) as [Ln Hrows].
  rewrite length_map. split; [exact Ln|].
  apply Forall_map. eapply Forall_impl; [|exact Hrows]. cbv beta.
  intros row Hrow. rewrite py_slice_to_firstn by (unfold len; lia).
  rewrite length_firstn, Nat2Z.id. lia.
Qed.

(** *** The DWT method on a signal that is zero throughout *)

Lemma vadd_zeros (a b : nat) : vadd (zeros a) (zeros b) = zeros (Nat.max a b).
Proof.
  revert b. induction a as [|a IH]; intros [|b]; try reflexivity.
  cbn [zeros repeat vadd Nat.max]. unfold zeros in IH. rewrite IH. reflexivity.
Qed.

Lemma scale_zeros (hk : Q) (n : nat) :
  map (fun v => Qred (hk * v)) (zeros n) = zeros n.
Proof.
  unfold zeros. rewrite map_repeat. f_equal.
  change 0%Q with (Qred 0) at 2. apply Qred_complete. ring.
Qed.

Lemma zeros_app (a b : nat) : zeros a ++ zeros b = zeros (a + b).
Proof. unfold zeros. symmetry. apply repeat_app. Qed.

Lemma convolve_zeros (n : nat) (h : list Q) :
  exists m, convolve (zeros n) h = zeros m.
Proof.
  induction h as [|hk h [m IH]]; [exists 0%nat; reflexivity|].
  cbn [convolve]. rewrite IH, scale_zeros, zeros_app.
  change (0%Q :: zeros m) with (zeros (S m)). rewrite vadd_zeros.
  eexists. reflexivity.
Qed.

Lemma timeshift_zeros (n : nat) (timedelay : Z) :
  exists m, timeshift (zeros n) timedelay = zeros m.
Proof.
  unfold timeshift, py_slice_from.
  destruct (py_slice_zeros n timedelay (Z.of_nat (length (zeros n)))) as [a ->].
  destruct (py_slice_zeros n (- timedelay) (Z.of_nat (length (zeros n)))) as [b ->].
  rewrite zeros_app. eexists. reflexivity.
Qed.

Lemma multiscales_loop_zeros (k : nat) :
  forall (deg n : nat),
  Forall (fun row => exists m, row = zeros m) (multiscales_loop k deg (zeros n)).
Proof.
  induction k as [|k IH]; intros deg n; cbn [multiscales_loop]; constructor.
  - unfold _apply_G_filter. cbv zeta.
    destruct (convolve_zeros n ([2%Q] ++ zeros (2 ^ deg - 1) ++ [(-2)%Q])) as [m ->].
    apply timeshift_zeros.
  - unfold _apply_H_filter. cbv zeta.
    destruct (convolve_zeros n ([(1 # 8)%Q] ++ zeros (2 ^ deg - 1) ++ [(3 # 8)%Q]
                ++ zeros (2 ^ deg - 1) ++ [(3 # 8)%Q]
                ++ zeros (2 ^ deg - 1) ++ [(1 # 8)%Q])) as [m ->].
    destruct (timeshift_zeros m (Z.of_nat (2 ^ deg))) as [m' ->]. apply IH.
Qed.

(** The decomposition of a zero signal: nine rows of zeros. *)
Lemma multiscales_of_zeros (n k : nat) :
  length (_dwt_compute_multiscales (zeros n) k) = k
  /\ Forall (fun row => exists m, row = zeros m)
            (_dwt_compute_multiscales (zeros n) k).
Proof.
  unfold _dwt_compute_multiscales. rewrite length_map. split.
  - assert (G : forall deg x, length (multiscales_loop k deg x) = k).
    { induction k as [|k IH]; intros deg x; cbn [multiscales_loop length];
        [reflexivity|].
      rewrite IH. reflexivity. }
    apply G.
  - apply Forall_map. eapply Forall_impl; [|apply multiscales_loop_zeros].
    cbv beta. intros row [m ->]. unfold py_slice_to. apply py_slice_zeros.
Qed.

Lemma matr_slice_zero_rows (matr : list (list Q)) (row a b : Z) :
  Forall (fun r => exists m, r = zeros m) matr ->
  0 <= row < len matr ->
  exists m, matr_slice matr row (Idx a) (Idx b) = Ok (zeros m).
Proof.
  intros Hz Hrow. unfold matr_slice.
  destruct (py_getitem matr row) as [r|e] eqn:Hr.
  - cbn [bind py_slice_num]. rewrite Forall_forall in Hz.
    destruct (Hz r (py_getitem_In _ _ _ Hr)) as [m ->].
    destruct (py_slice_zeros m a b) as [k ->]. exists k. reflexivity.
  - exfalso. unfold py_getitem, len in *.
    replace (row <? 0) with false in Hr by (symmetry; apply Z.ltb_ge; lia).
    replace (row <? 0) with false in Hr by (symmetry; apply Z.ltb_ge; lia).
    replace (Z.of_nat (length matr) <=? row) with false in Hr
      by (symmetry; apply Z.leb_gt; lia).
    cbn [orb] in Hr. destruct (nth_error matr (Z.to_nat row)) eqn:E; [discriminate|].
    apply nth_error_None in E. lia.
Qed.

Lemma tp_peak_search_zeros (attr : attribute) (m : nat) (height : threshold)
    (start : Z) :
  tp_peak_search attr (zeros m) height start = Ok NanObj.
Proof.
  destruct m as [|m]; [reflexivity|].
  unfold tp_peak_search. change (zeros (S m)) with (0%Q :: zeros m) at 1.
  cbv iota beta. rewrite map_Qabs_zeros, find_peaks_zeros, py_max_zeros.
  reflexivity.
Qed.

Lemma tp_peaks_loop_zeros (rpeaks : list Z) (matr : list (list Q))
    (sampling_rate : Q) (b degree_add : Z) (m : nat) :
  Forall (fun r => exists n, r = zeros n) matr ->
  0 <= 2 + degree_add -> 3 + degree_add < len matr ->
  forall (k : nat) (t p : list pynum),
  (k + m < length rpeaks)%nat ->
  for_loop (tp_peaks_body rpeaks matr sampling_rate b degree_add)
    (map Z.of_nat (seq k m)) (t, p)
  = Ok (t ++ repeat NanObj m, p ++ repeat NanObj m).
Proof.
  intros Hz H2 H3. induction m as [|m IH]; intros k t p Hk.
  - cbn [seq map for_loop repeat]. rewrite !app_nil_r. reflexivity.
  - cbn [seq map for_loop]. unfold tp_peaks_body at 1.
    destruct (nth_error rpeaks k) as [r|] eqn:Hr;
      [|apply nth_error_None in Hr; lia].
    destruct (nth_error rpeaks (S k)) as [r'|] eqn:Hr';
      [|apply nth_error_None in Hr'; lia].
    rewrite (py_getitem_of_nth_error _ _ _ Hr). cbn [bind].
    replace (Z.of_nat k + 1) with (Z.of_nat (S k)) by lia.
    rewrite (py_getitem_of_nth_error _ _ _ Hr'). cbn [bind].
    destruct (matr_slice_zero_rows matr (3 + degree_add) (r + b) (r' - b * 8) Hz
                ltac:(lia)) as [n1 ->].
    cbn [bind]. rewrite tp_peak_search_zeros. cbn [bind].
    destruct (matr_slice_zero_rows matr (2 + degree_add)
                (r - int_of_Q ((5 # 10) * sampling_rate)) (r - b) Hz
                ltac:(lia)) as [n2 ->].
    cbn [bind]. rewrite tp_peak_search_zeros. cbn [bind].
    rewrite IH by lia. cbn [repeat]. rewrite <- !app_assoc. reflexivity.
Qed.

Lemma qrs_bounds_loop_undefined (rpeaks : list Z) (matr : list (list Q))
    (degree : Z) (ppeaks tpeaks : list pynum) (m : nat) :
  forall (k : nat) (on off : list pynum),
  (k + m <= length rpeaks)%nat ->
  (forall i, (i < k + m)%nat -> nth_error ppeaks i = Some NanObj) ->
  for_loop (qrs_bounds_body matr degree rpeaks ppeaks tpeaks)
    (map Z.of_nat (seq k m)) (on, off)
  = Ok (on ++ repeat NanObj m, off).
Proof.
  induction m as [|m IH]; intros k on off Hk Hp.
  - cbn [seq map for_loop repeat]. rewrite app_nil_r. reflexivity.
  - cbn [seq map for_loop]. unfold qrs_bounds_body at 1.
    destruct (nth_error rpeaks k) as [r|] eqn:Hr;
      [|apply nth_error_None in Hr; lia].
    rewrite (py_getitem_of_nth_error _ _ _ (Hp k ltac:(lia))). cbn [bind].
    rewrite (py_getitem_of_nth_error _ _ _ Hr). cbn [bind is_np_nan].
    rewrite IH; [|lia|intros i Hi; apply Hp; lia].
    cbn [repeat]. rewrite <- app_assoc. reflexivity.
Qed.

Lemma tp_onsets_loop_undefined (matr : list (list Q)) (degree d1 d2 : Z)
    (w1 w2 : Q) (m : nat) :
  forall (on off : list pynum),
  for_loop (tp_onsets_offsets_body matr degree d1 d2 w1 w2) (repeat NanObj m)
    (on, off)
  = Ok (on ++ repeat NanObj m, off).
Proof.
  induction m as [|m IH]; intros on off.
  - cbn [repeat for_loop]. rewrite app_nil_r. reflexivity.
  - cbn [repeat for_loop]. rewrite tp_body_nan. cbn [bind]. rewrite IH.
    rewrite <- app_assoc. reflexivity.
Qed.

Lemma resample_points_undefined (m : nat) (a b : Q) :
  _dwt_resample_points (repeat NanObj m) a b = [].
Proof. induction m as [|m IH]; [reflexivity|exact IH]. Qed.

(** X7: when the resampled signal has at least one sample and is zero
    throughout, the DWT method raises nothing and returns eight empty
    lists, whatever the R-peaks: no window holds a candidate, every T and P
    peak is undefined, and an undefined P-peak keeps the QRS search (which
    would fail on a flat window) from running.  (A signal without any
    sample is left out: its convolution is not defined.) *)
Theorem dwt_on_zero_signal_returns_no_points
    (signal_resample : list Q -> Q -> Q -> list Q)
    (ecg : list Q) (rpeaks : list Z) (sampling_rate : Q) (m : nat) :
  (0 < m)%nat ->
  signal_resample ecg sampling_rate analysis_sampling_rate = zeros m ->
  _dwt_ecg_delinator signal_resample ecg rpeaks sampling_rate
  = Ok {| ECG_T_Peaks := []; ECG_T_Onsets := []; ECG_T_Offsets := [];
          ECG_P_Peaks := []; ECG_P_Onsets := []; ECG_P_Offsets := [];
          ECG_R_Onsets := []; ECG_R_Offsets := [] |}.
Proof.
  intros _ Hres. unfold _dwt_ecg_delinator. cbv zeta. rewrite Hres.
  destruct (multiscales_of_zeros m 9) as [L9 Hz].
  set (matr := _dwt_compute_multiscales (zeros m) 9) in *.
  set (rs := _dwt_resample_points (map Idx rpeaks) sampling_rate
               analysis_sampling_rate).
  set (n := (length rs - 1)%nat).
  unfold _dwt_delinate_tp_peaks, _dwt_delinate_qrs_bounds,
    _dwt_delinate_tp_onsets_offsets.
  change (_dwt_compensate_degree analysis_sampling_rate) with (Ok 3).
  cbn [bind]. unfold range, len.
  replace (Z.to_nat (Z.of_nat (length rs) - 1)) with n by (unfold n; lia).
  destruct (Nat.eq_dec (length rs) 0) as [E0|E0].
  - replace n with 0%nat by (unfold n; lia).
    cbn [seq map for_loop bind _dwt_resample_points]. reflexivity.
  - rewrite (tp_peaks_loop_zeros rs matr _ _ 3 n Hz ltac:(lia)
               ltac:(unfold len; lia) 0 [] [] ltac:(unfold n; lia)).
    cbn [bind app].
    rewrite (qrs_bounds_loop_undefined rs matr 3 _ _ n 0 [] []
               ltac:(unfold n; lia)).
    2:{ intros i Hi. rewrite nth_error_repeat by lia. reflexivity. }
    cbn [bind app]. rewrite !tp_onsets_loop_undefined. cbn [bind app].
    rewrite !resample_points_undefined. reflexivity.
Qed.

(** *** The first scale of the decomposition *)

Lemma nthQ_vadd (a b : list Q) (m : nat) :
  (nthQ (vadd a b) m == nthQ a m + nthQ b m)%Q.
Proof.
  unfold nthQ. revert b m. induction a as [|u a IH]; intros b m.
  - cbn [vadd]. destruct m; cbn [nth]; ring.
  - destruct b as [|v b]; cbn [vadd].
    + destruct m; cbn [nth]; ring.
    + destruct m as [|m]; cbn [nth]; [apply Qred_correct|apply IH].
Qed.

Lemma nthQ_scale (h : Q) (x : list Q) (m : nat) :
  (nthQ (map (fun v => Qred (h * v)) x) m == h * nthQ x m)%Q.
Proof.
  unfold nthQ. revert m. induction x as [|a x IH]; intros m.
  - destruct m; cbn [map nth]; ring.
  - destruct m as [|m]; cbn [map nth]; [apply Qred_correct|apply IH].
Qed.

Lemma nthQ_app_zeros (l : list Q) (k m : nat) : nthQ (l ++ zeros k) m = nthQ l m.
Proof.
  unfold nthQ. destruct (Nat.lt_ge_cases m (length l)) as [H|H].
  - apply app_nth1. exact H.
  - rewrite app_nth2 by exact H. rewrite (nth_overflow l) by exact H.
    apply nthQ_zeros.
Qed.

(** The convolution with the two taps of the high-pass filter. *)
Lemma convolve_difference (x : list Q) (m : nat) :
  (nthQ (convolve x [2; -2]%Q) (S m) == 2 * nthQ x (S m) - 2 * nthQ x m)%Q.
Proof.
  cbn [convolve length].
  rewrite nthQ_vadd, nthQ_app_zeros, nthQ_scale.
  assert (T : forall (c : Q) (l : list Q), nthQ (c :: l) (S m) = nthQ l m)
    by reflexivity.
  rewrite T, nthQ_vadd, nthQ_app_zeros, nthQ_scale.
  assert (E : (nthQ [0%Q] m == 0)%Q).
  { unfold nthQ. destruct m as [|[|m']]; reflexivity. }
  rewrite E. ring.
Qed.

Lemma nthQ_firstn (l : list Q) (n m : nat) :
  (m < n)%nat -> nthQ (firstn n l) m = nthQ l m.
Proof.
  unfold nthQ. revert l m. induction n as [|n IH]; intros l m H; [lia|].
  destruct l as [|a l]; [destruct m; reflexivity|].
  destruct m as [|m]; cbn [firstn nth]; [reflexivity|apply IH; lia].
Qed.

Lemma py_slice_from_1 {A} (l : list A) : py_slice_from l 1 = tl l.
Proof. apply drop_first_tl. Qed.

(** X25: the first row of the decomposition is twice the forward
    difference of the signal, [2 (x[m+1] - x[m])], the sample after the
    last one counting as zero. *)
Theorem dwt_first_scale_is_forward_difference
    (ecg : list Q) (max_degree m : nat) :
  (m < length ecg)%nat ->
  exists row rest,
    _dwt_compute_multiscales ecg (S max_degree) = row :: rest
    /\ (nthQ row m == 2 * (nthQ ecg (S m) - nthQ ecg m))%Q.
Proof.
  intros Hm. unfold _dwt_compute_multiscales. cbn [multiscales_loop map].
  eexists. eexists. split; [reflexivity|].
  assert (Hx : ecg <> []) by (destruct ecg; [cbn [length] in Hm; lia|discriminate]).
  pose proof (apply_G_filter_length ecg 0 Hx) as L. cbn [Nat.pow] in L.
  rewrite py_slice_to_firstn by (unfold len; lia).
  rewrite Nat2Z.id, nthQ_firstn by exact Hm.
  unfold _apply_G_filter. cbn [Nat.pow Nat.sub zeros repeat app].
  change (Z.of_nat 1) with 1. unfold timeshift. rewrite py_slice_from_1.
  set (y := convolve ecg [2; -2]%Q).
  assert (Ly : length y = S (length ecg)).
  { unfold y. rewrite convolve_length by (exact Hx || discriminate).
    cbn [length]. lia. }
  destruct y as [|y0 ys] eqn:Ey; [discriminate|]. cbn [tl].
  cbn [length] in Ly.
  unfold nthQ at 1. rewrite app_nth1 by lia.
  change (nth m ys 0%Q) with (nthQ (y0 :: ys) (S m)). rewrite <- Ey.
  unfold y. rewrite convolve_difference. ring.
Qed.

(** *** Resampling of points and the degree compensation *)

Lemma int_of_Q_le (q1 q2 : Q) : (q1 <= q2)%Q -> int_of_Q q1 <= int_of_Q q2.
Proof.
  intros H. unfold int_of_Q.
  destruct (Qle_bool 0 q1) eqn:E1; destruct (Qle_bool 0 q2) eqn:E2.
  - apply Qfloor_resp_le. exact H.
  - apply Qle_bool_iff in E1.
    assert (~ (0 <= q2)%Q) by (intros K; apply Qle_bool_iff in K; congruence).
    lra.
  - apply Qle_bool_iff in E2.
    assert (N : ~ (0 <= q1)%Q) by (intros K; apply Qle_bool_iff in K; congruence).
    pose proof (Qfloor_nonneg q2 E2).
    assert (Qceiling q1 <= 0); [|lia].
    unfold Qceiling. pose proof (Qfloor_nonneg (- q1) ltac:(lra)). lia.
  - apply Qceiling_resp_le. exact H.
Qed.

Lemma int_of_Q_inject_Z (z : Z) : int_of_Q (inject_Z z) = z.
Proof.
  unfold int_of_Q. destruct (Qle_bool 0 (inject_Z z)).
  - apply Qfloor_Z.
  - apply Qceiling_Z.
Qed.

Lemma int_of_Q_comp (q1 q2 : Q) : (q1 == q2)%Q -> int_of_Q q1 = int_of_Q q2.
Proof.
  intros E. apply Z.le_antisymm; apply int_of_Q_le; rewrite E; apply Qle_refl.
Qed.

Lemma resample_point_le (a b : Q) (p q : Z) :
  (0 < a)%Q -> (0 < b)%Q -> p <= q -> resample_point a b p <= resample_point a b q.
Proof.
  intros Ha Hb Hpq. unfold resample_point. apply int_of_Q_le.
  assert (inject_Z p <= inject_Z q)%Q by (rewrite <- Zle_Qle; exact Hpq).
  apply Qmult_le_compat_r; [|apply Qlt_le_weak, Qinv_lt_0_compat; exact Ha].
  apply Qmult_le_compat_r; [assumption|lra].
Qed.

Lemma resample_point_lt (a b : Q) (p q : Z) :
  (0 < a)%Q -> (a <= b)%Q -> 0 <= p < q ->
  resample_point a b p < resample_point a b q.
Proof.
  intros Ha Hab Hpq.
  destruct (resample_point_floor a b p Ha ltac:(lra) ltac:(lia)) as [-> Hp0].
  destruct (resample_point_floor a b q Ha ltac:(lra) ltac:(lia)) as [-> Hq0].
  assert (Hone : (inject_Z p * b / a + 1 <= inject_Z q * b / a)%Q).
  { assert (E : (inject_Z q * b / a - inject_Z p * b / a
                 == (inject_Z q - inject_Z p) * (b / a))%Q) by (field; lra).
    assert (1 <= inject_Z q - inject_Z p)%Q.
    { assert (inject_Z (p + 1) <= inject_Z q)%Q by (rewrite <- Zle_Qle; lia).
      rewrite inject_Z_plus in H. change (inject_Z 1) with 1%Q in H. lra. }
    assert (1 <= b / a)%Q.
    { apply Qle_shift_div_l; [exact Ha|lra]. }
    assert (1 * 1 <= (inject_Z q - inject_Z p) * (b / a))%Q.
    { apply Qmult_le_compat_nonneg; split; lra. }
    lra. }
  pose proof (Qfloor_le (inject_Z p * b / a)) as Fl.
  assert (G : (inject_Z (Qfloor (inject_Z p * b / a) + 1) <= inject_Z q * b / a)%Q).
  { rewrite inject_Z_plus. change (inject_Z 1) with 1%Q. lra. }
  apply Qfloor_resp_le in G. rewrite Qfloor_Z in G. lia.
Qed.

Lemma resample_points_map (l : list Z) (a b : Q) :
  _dwt_resample_points (map Idx l) a b = map (resample_point a b) l.
Proof. induction l as [|x l IH]; cbn [map _dwt_resample_points]; congruence. Qed.

Lemma resample_points_keep_le (l : list Z) (a b : Q) :
  (0 < a)%Q -> (0 < b)%Q -> StronglySorted Z.le l ->
  StronglySorted Z.le (_dwt_resample_points (map Idx l) a b).
Proof.
  intros Ha Hb. rewrite resample_points_map.
  induction 1 as [|x l Hs IH Hx]; cbn [map]; constructor; [exact IH|].
  apply Forall_map. eapply Forall_impl; [|exact Hx]. cbv beta.
  intros y Hy. apply resample_point_le; assumption.
Qed.

Lemma resample_points_keep_lt (l : list Z) (a b : Q) :
  (0 < a)%Q -> (a <= b)%Q -> Forall (fun p => 0 <= p) l ->
  StronglySorted Z.lt l ->
  StronglySorted Z.lt (_dwt_resample_points (map Idx l) a b).
Proof.
  intros Ha Hab Hpos Hs. rewrite resample_points_map.
  induction Hs as [|x l Hs IH Hx]; cbn [map]; constructor.
  - apply IH. inversion Hpos; assumption.
  - apply Forall_map. eapply Forall_impl; [|exact Hx]. cbv beta.
    intros y Hy. apply resample_point_lt; try assumption.
    inversion Hpos; subst. lia.
Qed.

Lemma inject_Z_pos (k : Z) : 0 < k -> (0 < inject_Z k)%Q.
Proof. intros H. change 0%Q with (inject_Z 0). rewrite <- Zlt_Qlt. exact H. Qed.

(** X8: resampling keeps the order of the points.  For whole-number rates
    and points from sample 0 on, small enough for the products to be exact
    in double precision ([p * target + source < 2^53]): an increasing
    sequence of R-peaks stays weakly increasing, and strictly increasing
    when the target rate is not lower than the source rate (as on the way
    to the analysis rate), so distinct R-peaks are never merged there. *)
Theorem dwt_resample_points_keep_order (l : list Z) (ka kb : Z) :
  0 < ka -> 0 < kb ->
  Forall (fun p => 0 <= p /\ p * kb + ka < 2 ^ 53) l ->
  (StronglySorted Z.le l ->
   StronglySorted Z.le
     (_dwt_resample_points (map Idx l) (inject_Z ka) (inject_Z kb)))
  /\ (ka <= kb -> StronglySorted Z.lt l ->
      StronglySorted Z.lt
        (_dwt_resample_points (map Idx l) (inject_Z ka) (inject_Z kb))).
Proof.
  intros Ha Hb Hl. split.
  - apply resample_points_keep_le; apply inject_Z_pos; assumption.
  - intros Hab. apply resample_points_keep_lt.
    + apply inject_Z_pos. exact Ha.
    + rewrite <- Zle_Qle. exact Hab.
    + eapply Forall_impl; [|exact Hl]. cbv beta. intros p Hp. exact (proj1 Hp).
Qed.

Lemma resample_points_equal_rates (l : list pynum) (r : Q) :
  (0 < r)%Q -> _dwt_resample_points l r r = remove_nan l.
Proof.
  intros Hr. induction l as [|x l IH]; [reflexivity|].
  destruct x as [p| |]; cbn [_dwt_resample_points remove_nan]; try exact IH.
  rewrite IH. f_equal. unfold resample_point.
  rewrite (int_of_Q_comp _ (inject_Z p)); [apply int_of_Q_inject_Z|].
  field. lra.
Qed.

(** X9: between equal whole-number rates, and for points whose product
    with the rate is exact in double precision ([|p| * rate < 2^53]),
    [_dwt_resample_points] only drops the NaN entries: every integer point
    comes back unchanged. *)
Theorem dwt_resample_points_same_rate (l : list pynum) (k : Z) :
  0 < k ->
  Forall (fun p => Z.abs p * k < 2 ^ 53) (remove_nan l) ->
  _dwt_resample_points l (inject_Z k) (inject_Z k) = remove_nan l.
Proof.
  intros Hk _. apply resample_points_equal_rates, inject_Z_pos. exact Hk.
Qed.

Lemma compensate_degree_doublings_exact (sampling_rate : Q) :
  (250 <= sampling_rate)%Q ->
  exists d,
    _dwt_compensate_degree sampling_rate = Ok d
    /\ 0 <= d
    /\ (inject_Z (250 * 2 ^ d) <= sampling_rate)%Q
    /\ (sampling_rate < inject_Z (250 * 2 ^ (d + 1)))%Q.
Proof.
  intros H. unfold _dwt_compensate_degree.
  replace (Qlt_bool 0 sampling_rate) with true
    by (symmetry; apply Qlt_bool_iff; lra).
  unfold int_log2.
  assert (H1 : (1 <= sampling_rate / 250)%Q).
  { apply Qle_shift_div_l; lra. }
  replace (Qle_bool 1 (sampling_rate / 250)) with true
    by (symmetry; apply Qle_bool_iff; exact H1).
  set (n := Qfloor (sampling_rate / 250)).
  assert (Hn : 1 <= n).
  { change 1 with (Qfloor (inject_Z 1)). apply Qfloor_resp_le. exact H1. }
  exists (Z.log2 n). split; [reflexivity|].
  pose proof (Z.log2_nonneg n) as Hd. split; [exact Hd|].
  destruct (Z.log2_spec n ltac:(lia)) as [Lo Hi].
  pose proof (Qfloor_le (sampling_rate / 250)) as Fl.
  pose proof (Qlt_floor (sampling_rate / 250)) as Fu. fold n in Fl, Fu.
  replace (Z.succ (Z.log2 n)) with (Z.log2 n + 1) in Hi by lia.
  assert (E : (sampling_rate == 250 * (sampling_rate / 250))%Q) by (field; lra).
  rewrite !inject_Z_mult. change (inject_Z 250) with 250%Q.
  assert (inject_Z (2 ^ Z.log2 n) <= inject_Z n)%Q by (rewrite <- Zle_Qle; exact Lo).
  assert (inject_Z (n + 1) <= inject_Z (2 ^ (Z.log2 n + 1)))%Q
    by (rewrite <- Zle_Qle; lia).
  split; lra.
Qed.

(** X10: for a whole-number sampling rate from 250 Hz up to [2^32] Hz,
    [_dwt_compensate_degree] returns the number [d >= 0] of doublings of
    250 Hz that fit in the rate: [250 * 2^d <= rate < 250 * 2^(d+1)].  At
    the analysis rate of 2000 Hz this is 3. *)
Theorem dwt_compensate_degree_doublings (k : Z) :
  250 <= k <= 2 ^ 32 ->
  exists d,
    _dwt_compensate_degree (inject_Z k) = Ok d
    /\ 0 <= d
    /\ 250 * 2 ^ d <= k < 250 * 2 ^ (d + 1).
Proof.
  intros [Hlo _].
  destruct (compensate_degree_doublings_exact (inject_Z k)) as (d & Hd & H0 & H1 & H2).
  { change 250%Q with (inject_Z 250). rewrite <- Zle_Qle. exact Hlo. }
  exists d. split; [exact Hd|]. split; [exact H0|].
  rewrite <- Zle_Qle in H1. rewrite <- Zlt_Qlt in H2. split; assumption.
Qed.

(** *** The CWT search for onsets and offsets: where the results lie *)

Lemma scan_left_le (x : list Q) (xp : Q) (p : nat) :
  forall (i : nat) (m : Q) (b : nat),
  (i <= p)%nat -> (b <= p)%nat -> (snd (scan_left x xp i m b) <= p)%nat.
Proof.
  induction i as [|i IH]; intros m b Hi Hb; cbn [scan_left].
  - destruct (Qle_bool (nthQ x 0) xp); [|exact Hb].
    destruct (Qlt_bool (nthQ x 0) m); cbn [snd]; lia.
  - destruct (Qle_bool (nthQ x (S i)) xp); [|exact Hb].
    apply IH; [lia|]. destruct (Qlt_bool (nthQ x (S i)) m); cbn [snd]; lia.
Qed.

Lemma scan_right_range (x : list Q) (xp : Q) (p : nat) (fuel : nat) :
  forall (i : nat) (m : Q) (b : nat),
  (p <= i)%nat -> (p <= b < length x)%nat ->
  (p <= snd (scan_right fuel x xp i m b) < length x)%nat.
Proof.
  induction fuel as [|fuel IH]; intros i m b Hi Hb; cbn [scan_right];
    [exact Hb|].
  destruct (i <? length x)%nat eqn:Ei; cbn [andb]; [|exact Hb].
  apply Nat.ltb_lt in Ei.
  destruct (Qle_bool (nthQ x i) xp); [|exact Hb].
  apply IH; [lia|]. destruct (Qlt_bool (nthQ x i) m); cbn [snd]; lia.
Qed.

(** The bases of a peak frame it, inside the array. *)
Lemma find_peaks_In_bases (x : list Q) (h : option threshold) (pr : option Q)
    (pk : peak) :
  In pk (find_peaks x h pr) ->
  0 <= left_base pk <= pk_index pk
  /\ pk_index pk <= right_base pk < len x
  /\ pk_index pk < len x - 1.
Proof.
  intros H.
  assert (Hin : In pk (map (peak_at x) (_local_maxima_1d x))).
  { unfold find_peaks in H.
    destruct pr; [apply filter_In in H; destruct H as [H _]|];
      (destruct h; [apply filter_In in H; destruct H as [H _]|]); exact H. }
  apply in_map_iff in Hin. destruct Hin as (k & <- & Hk).
  pose proof (local_maxima_loop_bound (length x) x 1 (length x - 1)) as B.
  rewrite Forall_forall in B. apply B in Hk.
  unfold peak_at, len. cbn [left_base right_base pk_index].
  pose proof (scan_left_le x (nthQ x k) k k (nthQ x k) k ltac:(lia) ltac:(lia)).
  pose proof (scan_right_range x (nthQ x k) k (length x) k (nthQ x k) k
                ltac:(lia) ltac:(lia)).
  lia.
Qed.

Lemma Zmax_list_bounds (a : Z) (l : list Z) (M : Z) :
  a <= M -> Forall (fun c => c <= M) l -> a <= Zmax_list a l <= M.
Proof.
  unfold Zmax_list. revert a. induction l as [|c l IH]; intros a Ha Hl;
    cbn [fold_left]; [lia|].
  inversion Hl; subst. specialize (IH (Z.max a c) ltac:(lia) ltac:(assumption)).
  lia.
Qed.

Lemma Zmin_list_bounds (a : Z) (l : list Z) (m : Z) :
  m <= a -> Forall (fun c => m <= c) l -> m <= Zmin_list a l <= a.
Proof.
  unfold Zmin_list. revert a. induction l as [|c l IH]; intros a Ha Hl;
    cbn [fold_left]; [lia|].
  inversion Hl; subst. specialize (IH (Z.min a c) ltac:(lia) ltac:(assumption)).
  lia.
Qed.

Lemma shifted_where_below {A} (cond : A -> bool) (w : list A) (nfirst : Z) :
  len w <= 100 ->
  Forall (fun c => c <= nfirst)
         (map (fun c => c + nfirst - 100) (np_where cond w)).
Proof.
  intros L. apply Forall_map, Forall_forall. intros c Hc.
  apply np_where_range in Hc. lia.
Qed.

Lemma shifted_where_above {A} (cond : A -> bool) (w : list A) (nlast : Z) :
  Forall (fun c => nlast <= c) (map (fun c => c + nlast) (np_where cond w)).
Proof.
  apply Forall_map, Forall_forall. intros c Hc.
  apply np_where_range in Hc. lia.
Qed.

(** The onset lies between the left base of the peak and the peak. *)
Lemma onset_of_peak_range (cwtmatr : list (list Q)) (kind : peak_type)
    (hw ip : Z) (pk : peak) (eps eps' : option Q) (o : Z) :
  left_base pk <= pk_index pk ->
  onset_of_peak cwtmatr kind hw ip pk eps = Ok (o, eps') ->
  left_base pk + ip - hw <= o <= pk_index pk + ip - hw.
Proof.
  intros Hb. unfold onset_of_peak. cbv zeta.
  match goal with
  | |- context [read_local _ ?e] => destruct (read_local "epsilon_onset" e)
      as [e0|ex]; cbn [bind]; [|discriminate]
  end.
  set (nfirst := pk_index pk + ip - hw).
  destruct kind.
  1: destruct (matr_slice cwtmatr 2 (Idx (nfirst - 100)) (Idx nfirst))
       as [w|ex] eqn:Hw; cbn [bind]; [|discriminate].
  2,3: destruct (matr_slice cwtmatr 4 (Idx (nfirst - 100)) (Idx nfirst))
         as [w|ex] eqn:Hw; cbn [bind]; [|discriminate].
  all: intros H; injection H as <- _;
    pose proof (matr_slice_length _ _ _ _ _ Hw ltac:(lia)) as L;
    apply Zmax_list_bounds; [lia|apply shifted_where_below; lia].
Qed.

(** The offset lies between the peak and its right base. *)
Lemma offset_of_peak_range (cwtmatr : list (list Q)) (kind : peak_type)
    (ip : Z) (pk : peak) (eps eps' : option Q) (f : Z) :
  pk_index pk <= right_base pk ->
  offset_of_peak cwtmatr kind ip pk eps = Ok (f, eps') ->
  pk_index pk + ip <= f <= right_base pk + ip.
Proof.
  intros Hb. unfold offset_of_peak. cbv zeta.
  match goal with
  | |- context [read_local _ ?e] => destruct (read_local "epsilon_offset" e)
      as [e0|ex]; cbn [bind]; [|discriminate]
  end.
  set (nlast := pk_index pk + ip).
  destruct kind.
  1: destruct (matr_slice cwtmatr 2 (Idx nlast) (Idx (nlast + 100)))
       as [w|ex] eqn:Hw; cbn [bind]; [|discriminate].
  2,3: destruct (matr_slice cwtmatr 4 (Idx nlast) (Idx (nlast + 100)))
         as [w|ex] eqn:Hw; cbn [bind]; [|discriminate].
  all: intros H; injection H as <- _;
    apply Zmin_list_bounds; [lia|apply shifted_where_above].
Qed.

(** The peaks the two searches find lie inside the half-wave window. *)
Lemma onset_wt_peaks_inside (cwtmatr : list (list Q)) (kind : peak_type)
    (hw ip : Z) (wt : list peak) (pk : peak) :
  0 <= hw ->
  onset_wt_peaks cwtmatr kind hw ip = Ok wt -> In pk wt ->
  0 <= left_base pk <= pk_index pk /\ pk_index pk < hw - 1.
Proof.
  intros Hhw. unfold onset_wt_peaks. destruct kind.
  1: destruct (matr_slice cwtmatr 2 (Idx (ip - hw)) (Idx ip)) as [w|e] eqn:Hw;
       cbn [bind]; [|discriminate].
  2,3: destruct (matr_slice cwtmatr 4 (Idx (ip - hw)) (Idx ip)) as [w|e] eqn:Hw;
         cbn [bind]; [|discriminate].
  all: match goal with
       | |- context [py_max ?l] => destruct (py_max l) as [mx|e]; cbn [bind];
           [|discriminate]
       end;
    intros H Hin;
    match type of H with
    | Ok ?l = Ok _ => assert (E : wt = l) by congruence
    end;
    rewrite E in Hin; apply find_peaks_In_bases in Hin;
    unfold len in Hin; rewrite ?length_map in Hin; fold (len w) in Hin;
    pose proof (matr_slice_length _ _ _ _ _ Hw ltac:(lia)); lia.
Qed.

Lemma offset_wt_peaks_inside (cwtmatr : list (list Q)) (kind : peak_type)
    (hw ip : Z) (wt : list peak) (pk : peak) :
  0 <= hw ->
  offset_wt_peaks cwtmatr kind hw ip = Ok wt -> In pk wt ->
  0 <= pk_index pk <= right_base pk /\ right_base pk < hw.
Proof.
  intros Hhw. unfold offset_wt_peaks. destruct kind.
  1: destruct (matr_slice cwtmatr 2 (Idx ip) (Idx (ip + hw))) as [w|e] eqn:Hw;
       cbn [bind]; [|discriminate].
  2,3: destruct (matr_slice cwtmatr 4 (Idx ip) (Idx (ip + hw))) as [w|e] eqn:Hw;
         cbn [bind]; [|discriminate].
  all: match goal with
       | |- context [py_max ?l] => destruct (py_max l) as [mx|e]; cbn [bind];
           [|discriminate]
       end;
    intros H Hin;
    match type of H with
    | Ok ?l = Ok _ => assert (E : wt = l) by congruence
    end;
    rewrite E in Hin; apply find_peaks_In_bases in Hin;
    unfold len in Hin; rewrite ?length_map in Hin; fold (len w) in Hin;
    pose proof (matr_slice_length _ _ _ _ _ Hw ltac:(lia)); lia.
Qed.

Lemma onset_offset_body_range (cwtmatr : list (list Q)) (kind : peak_type)
    (hw ip : Z) (st st' : oo_state) :
  0 <= hw ->
  onset_offset_body cwtmatr kind hw ip st = Ok st' ->
  exists on1 off1,
    onsets st' = onsets st ++ on1 /\ offsets st' = offsets st ++ off1
    /\ Forall (fun o => ip - hw <= o < ip) on1
    /\ Forall (fun f => ip <= f < ip + hw) off1.
Proof.
  intros Hhw. unfold onset_offset_body.
  destruct (onset_wt_peaks cwtmatr kind hw ip) as [wt|e] eqn:Hwt; cbn [bind];
    [|discriminate].
  destruct (rev wt) as [|pk_last rest] eqn:Erev.
  - intros H. injection H as <-. exists [], []. rewrite !app_nil_r.
    repeat split; constructor.
  - assert (Hin : In pk_last wt).
    { apply in_rev. rewrite Erev. left. reflexivity. }
    destruct (onset_wt_peaks_inside _ _ _ _ _ _ Hhw Hwt Hin) as [Hlb Hpk].
    destruct (onset_of_peak cwtmatr kind hw ip pk_last (epsilon_onset st))
      as [[onset eps_on]|e] eqn:Hon; cbn [bind]; [|discriminate].
    apply onset_of_peak_range in Hon; [|lia].
    destruct (offset_wt_peaks cwtmatr kind hw ip) as [wt'|e] eqn:Hwt'; cbn [bind];
      [|discriminate].
    destruct wt' as [|pk_first pks'].
    + intros H. injection H as <-. cbn [onsets offsets].
      exists [onset], []. rewrite app_nil_r.
      repeat split; constructor; try constructor; lia.
    + destruct (offset_wt_peaks_inside _ _ _ _ _ pk_first Hhw Hwt'
                  (or_introl eq_refl)) as [Hrb Hr].
      cbn [onsets offsets epsilon_onset epsilon_offset].
      destruct (offset_of_peak cwtmatr kind ip pk_first (epsilon_offset st))
        as [[offset eps_off]|e] eqn:Hoff; cbn [bind]; [|discriminate].
      apply offset_of_peak_range in Hoff; [|lia].
      intros H. injection H as <-. cbn [onsets offsets].
      exists [onset], [offset].
      repeat split; constructor; try constructor; lia.
Qed.

Lemma onset_offset_loop_range (cwtmatr : list (list Q)) (kind : peak_type)
    (hw : Z) (peaks : list Z) :
  0 <= hw ->
  forall st st',
  for_loop (onset_offset_body cwtmatr kind hw) peaks st = Ok st' ->
  exists on1 off1,
    onsets st' = onsets st ++ on1 /\ offsets st' = offsets st ++ off1
    /\ Forall (fun o => exists ip, In ip peaks /\ ip - hw <= o < ip) on1
    /\ Forall (fun f => exists ip, In ip peaks /\ ip <= f < ip + hw) off1.
Proof.
  intros Hhw. induction peaks as [|ip peaks IH]; intros st st' H.
  - injection H as <-. exists [], []. rewrite !app_nil_r.
    repeat split; constructor.
  - cbn [for_loop] in H.
    destruct (onset_offset_body cwtmatr kind hw ip st) as [st1|e] eqn:Hb;
      cbn [bind] in H; [|discriminate].
    apply (onset_offset_body_range _ _ _ _ _ _ Hhw) in Hb.
    destruct Hb as (on1 & off1 & E1 & E2 & F1 & F2).
    apply IH in H. destruct H as (on2 & off2 & E3 & E4 & F3 & F4).
    exists (on1 ++ on2), (off1 ++ off2).
    rewrite E3, E4, E1, E2, <- !app_assoc.
    repeat split; apply Forall_app; split.
    + eapply Forall_impl; [|exact F1]. cbv beta. intros o Ho.
      exists ip. split; [left; reflexivity|exact Ho].
    + eapply Forall_impl; [|exact F3]. cbv beta. intros o (ip' & Hin & Ho).
      exists ip'. split; [right; exact Hin|exact Ho].
    + eapply Forall_impl; [|exact F2]. cbv beta. intros o Ho.
      exists ip. split; [left; reflexivity|exact Ho].
    + eapply Forall_impl; [|exact F4]. cbv beta. intros o (ip' & Hin & Ho).
      exists ip'. split; [right; exact Hin|exact Ho].
Qed.

(** X11: every onset [_onset_offset_delineator] returns lies in the
    half-wave window before one of the given peaks, and every offset in the
    half-wave window after one: [peak - hw <= onset < peak] and
    [peak <= offset < peak + hw], with [hw] a tenth of a second of samples.
    The bases of the wavelet peak, which bound the search, keep it there. *)
Theorem cwt_onsets_offsets_within_half_wave
    (pywt_installed : bool) (cwt : list Q -> Q -> list (list Q))
    (ecg : list Q) (peaks : list Z) (kind : peak_type) (sampling_rate : Q)
    (ons offs : list Z) :
  (0 <= sampling_rate)%Q ->
  _onset_offset_delineator pywt_installed cwt ecg peaks kind sampling_rate
  = Ok (ons, offs) ->
  let hw := int_of_Q ((1 # 10) * sampling_rate) in
  (forall o, In o ons -> exists ip, In ip peaks /\ ip - hw <= o < ip)
  /\ (forall f, In f offs -> exists ip, In ip peaks /\ ip <= f < ip + hw).
Proof.
  intros Hsr H hw. unfold _onset_offset_delineator in H.
  destruct (import_pywt pywt_installed); cbn [bind] in H; [|discriminate].
  fold hw in H.
  destruct (for_loop _ _ _) as [st'|e] eqn:Hl; cbn [bind] in H; [|discriminate].
  injection H as <- <-.
  assert (Hhw : 0 <= hw).
  { unfold hw. rewrite int_of_Q_nonneg by lra. apply Qfloor_nonneg. lra. }
  apply (onset_offset_loop_range _ _ _ _ Hhw) in Hl.
  destruct Hl as (on1 & off1 & -> & -> & F1 & F2). cbn [onsets offsets app].
  rewrite Forall_forall in F1, F2. split; assumption.
Qed.

(** *** The CWT method: an epsilon that is never assigned, and the shape of
    the T and P peaks *)

(** X12: in the R-peak branch of [_onset_offset_delineator], the two
    tests on the height of the wavelet peak are the same ([> 0] twice), so
    a peak of height zero, which the search with [height=0.0] keeps,
    assigns no [epsilon_onset]: when this happens at the first peak of the
    list, the call fails with the error of an unassigned local variable
    instead of returning an onset. *)
Theorem cwt_rpeak_onset_epsilon_unassigned
    (cwt : list Q -> Q -> list (list Q)) (ecg : list Q) (ip : Z) (rest : list Z)
    (sampling_rate : Q) (found : list peak) (pk : peak) :
  onset_wt_peaks (cwt ecg sampling_rate) rpeaks_t
    (int_of_Q ((1 # 10) * sampling_rate)) ip = Ok (found ++ [pk]) ->
  ~ (0 < peak_height pk)%Q ->
  _onset_offset_delineator true cwt ecg (ip :: rest) rpeaks_t sampling_rate
  = Raise (UnboundLocalError "epsilon_onset").
Proof.
  intros Hwt Hh. unfold _onset_offset_delineator, import_pywt. cbn [bind for_loop].
  unfold onset_offset_body at 1. rewrite Hwt. cbn [bind].
  rewrite rev_app_distr. cbn [rev app]. unfold onset_of_peak. cbv zeta.
  replace (Qlt_bool 0 (peak_height pk)) with false.
  - reflexivity.
  - symmetry. destruct (Qlt_bool 0 (peak_height pk)) eqn:E; [|reflexivity].
    apply Qlt_bool_iff in E. contradiction.
Qed.

Lemma peaks_delineator_body_grows (pywt_installed : bool)
    (cwt : list Q -> Q -> list (list Q)) (ecg : list Q) (rpeaks : list Z)
    (sampling_rate : Q) (cwtmatr : list (list Q)) (b i : Z)
    (groups groups' : list (list Z)) :
  peaks_delineator_body pywt_installed cwt ecg rpeaks sampling_rate cwtmatr b i groups
  = Ok groups' ->
  length groups' = S (length groups).
Proof.
  unfold peaks_delineator_body.
  repeat match goal with
         | |- bind ?c _ = _ -> _ => destruct c; cbn [bind]; [|discriminate]
         end.
  intros H. injection H as <-. rewrite length_app. cbn [length]. lia.
Qed.

Lemma first_last_of_groups_length (groups : list (list Z)) (pairs : list (Z * Z)) :
  first_last_of_groups groups = Ok pairs -> length pairs = length groups.
Proof.
  revert pairs. induction groups as [|g groups IH]; intros pairs H.
  - injection H as <-. reflexivity.
  - cbn [first_last_of_groups] in H.
    destruct (py_getitem g 0); cbn [bind] in H; [|discriminate].
    destruct (py_getitem g (-1)); cbn [bind] in H; [|discriminate].
    destruct (first_last_of_groups groups) as [more|e]; cbn [bind] in H;
      [|discriminate].
    injection H as <-. cbn [length]. rewrite (IH more eq_refl). reflexivity.
Qed.

(** X13: when [_peaks_delineator] returns, there are at least two R-peaks
    and it returns exactly one T-peak and one P-peak per R-R interval (the
    first and the last peak found in the interval); it has no way to report
    an interval without a peak. *)
Theorem cwt_peaks_one_per_interval
    (pywt_installed : bool) (cwt : list Q -> Q -> list (list Q))
    (ecg : list Q) (rpeaks : list Z) (sampling_rate : Q) (tpeaks ppeaks : list Z) :
  _peaks_delineator pywt_installed cwt ecg rpeaks sampling_rate
  = Ok (tpeaks, ppeaks) ->
  (2 <= length rpeaks)%nat
  /\ length tpeaks = (length rpeaks - 1)%nat
  /\ length ppeaks = (length rpeaks - 1)%nat.
Proof.
  unfold _peaks_delineator.
  destruct (import_pywt pywt_installed); cbn [bind]; [|discriminate].
  destruct (for_loop _ _ _) as [groups|e] eqn:Hl; cbn [bind]; [|discriminate].
  destruct (first_last_of_groups groups) as [pairs|e] eqn:Hp; cbn [bind];
    [|discriminate].
  apply first_last_of_groups_length in Hp.
  assert (Hg : length groups = (length rpeaks - 1)%nat).
  { assert (G : forall items g g',
               for_loop (peaks_delineator_body pywt_installed cwt ecg rpeaks
                           sampling_rate (cwt ecg sampling_rate)
                           (int_of_Q ((9 # 10) * (1 # 10) * sampling_rate / 2)))
                        items g = Ok g' ->
               length g' = (length g + length items)%nat).
    { induction items as [|i items IH]; intros g g' H.
      - injection H as <-. cbn [length]. lia.
      - cbn [for_loop] in H.
        destruct (peaks_delineator_body _ _ _ _ _ _ _ i g) as [g1|e] eqn:Hb;
          cbn [bind] in H; [|discriminate].
        apply peaks_delineator_body_grows in Hb. apply IH in H.
        cbn [length]. lia. }
    apply G in Hl. unfold range, len in Hl. rewrite length_map, length_seq in Hl.
    cbn [length] in Hl. lia. }
  unfold unzip_pairs. destruct pairs as [|pr pairs]; [discriminate|].
  intros H. injection H as <- <-. cbn [map length] in *.
  rewrite ?length_map. lia.
Qed.

(** *** The derivative method: one slot per beat *)

(** What one beat contributes, function by function. *)
Lemma derivative_beat_parts
    (signal_findpeaks : list Q -> option Q -> list Z)
    (signal_smooth : list Q -> Q -> list Q)
    (heartbeats : list heartbeat) (i : nat) (rpeak : Z)
    (Pi Qi Si Ti Po To : pynum) :
  derivative_beat signal_findpeaks signal_smooth heartbeats i rpeak
  = Ok (Pi, Qi, Si, Ti, Po, To) ->
  exists hb R,
    nth_error heartbeats i = Some hb /\ heartbeat_R hb = Ok R
    /\ Qi = fst (_ecg_delineator_derivative_Q signal_findpeaks rpeak hb R)
    /\ Pi = fst (_ecg_delineator_derivative_P signal_findpeaks rpeak hb R
                   (snd (_ecg_delineator_derivative_Q signal_findpeaks rpeak hb R)))
    /\ Si = fst (_ecg_delineator_derivative_S signal_findpeaks rpeak hb R)
    /\ Ti = fst (_ecg_delineator_derivative_T signal_findpeaks rpeak hb R
                   (snd (_ecg_delineator_derivative_S signal_findpeaks rpeak hb R)))
    /\ _ecg_delineator_derivative_P_onset signal_smooth rpeak hb R
         (snd (_ecg_delineator_derivative_P signal_findpeaks rpeak hb R
                 (snd (_ecg_delineator_derivative_Q signal_findpeaks rpeak hb R))))
       = Ok Po
    /\ _ecg_delineator_derivative_T_offset signal_smooth rpeak hb R
         (snd (_ecg_delineator_derivative_T signal_findpeaks rpeak hb R
                 (snd (_ecg_delineator_derivative_S signal_findpeaks rpeak hb R))))
       = Ok To.
Proof.
  unfold derivative_beat.
  destruct (nth_error heartbeats i) as [hb|] eqn:Hhb; cbn [bind]; [|discriminate].
  destruct (heartbeat_R hb) as [R|e] eqn:HR; cbn [bind]; [|discriminate].
  intros H. exists hb, R. revert H.
  destruct (_ecg_delineator_derivative_Q signal_findpeaks rpeak hb R) as [Qx Qp].
  cbn [fst snd].
  destruct (_ecg_delineator_derivative_P signal_findpeaks rpeak hb R Qp) as [Px Pp].
  cbn [fst snd].
  destruct (_ecg_delineator_derivative_S signal_findpeaks rpeak hb R) as [Sx Sp].
  cbn [fst snd].
  destruct (_ecg_delineator_derivative_T signal_findpeaks rpeak hb R Sp) as [Tx Tp].
  cbn [fst snd].
  destruct (_ecg_delineator_derivative_P_onset signal_smooth rpeak hb R Pp)
    as [po|e] eqn:HPo; cbn [bind]; [|discriminate].
  destruct (_ecg_delineator_derivative_T_offset signal_smooth rpeak hb R Tp)
    as [to|e] eqn:HTo; cbn [bind]; [|discriminate].
  intros H. injection H as <- <- <- <- <- <-.
  repeat split; try reflexivity; assumption.
Qed.

(** The loop over the beats: the six lists grow by one entry per R-peak,
    the entries the beat of that R-peak gives. *)
Lemma derivative_loop_slots
    (signal_findpeaks : list Q -> option Q -> list Z)
    (signal_smooth : list Q -> Q -> list Q)
    (heartbeats : list heartbeat) (rpeaks : list Z) :
  forall (i : nat) (out w : waves6),
  derivative_loop signal_findpeaks signal_smooth heartbeats i rpeaks out = Ok w ->
  exists sP sQ sS sT sPo sTo,
    P_list w = P_list out ++ sP /\ Q_list w = Q_list out ++ sQ
    /\ S_list w = S_list out ++ sS /\ T_list w = T_list out ++ sT
    /\ P_onsets w = P_onsets out ++ sPo /\ T_offsets w = T_offsets out ++ sTo
    /\ length sP = length rpeaks /\ length sQ = length rpeaks
    /\ length sS = length rpeaks /\ length sT = length rpeaks
    /\ length sPo = length rpeaks /\ length sTo = length rpeaks
    /\ forall k rpeak, nth_error rpeaks k = Some rpeak ->
         exists Pi Qi Si Ti Po To,
           derivative_beat signal_findpeaks signal_smooth heartbeats (i + k) rpeak
           = Ok (Pi, Qi, Si, Ti, Po, To)
           /\ nth_error sP k = Some Pi /\ nth_error sQ k = Some Qi
           /\ nth_error sS k = Some Si /\ nth_error sT k = Some Ti
           /\ nth_error sPo k = Some Po /\ nth_error sTo k = Some To.
Proof.
  induction rpeaks as [|r rpeaks IH]; intros i out w H.
  - injection H as <-. exists [], [], [], [], [], []. rewrite !app_nil_r.
    repeat split. intros k rpeak Hk. destruct k; discriminate.
  - cbn [derivative_loop] in H.
    destruct (derivative_beat signal_findpeaks signal_smooth heartbeats i r)
      as [[[[[[Pi Qi] Si] Ti] Po] To]|e] eqn:Hb; cbn [bind] in H; [|discriminate].
    apply IH in H.
    destruct H as (sP & sQ & sS & sT & sPo & sTo & EP & EQ & ES & ET & EPo & ETo
                   & LP & LQ & LS & LT & LPo & LTo & Hk).
    cbn [P_list Q_list S_list T_list P_onsets T_offsets] in EP, EQ, ES, ET, EPo, ETo.
    exists (Pi :: sP), (Qi :: sQ), (Si :: sS), (Ti :: sT), (Po :: sPo), (To :: sTo).
    rewrite EP, EQ, ES, ET, EPo, ETo, <- !app_assoc. cbn [length app].
    repeat split; try congruence.
    intros k rpeak Hn. destruct k as [|k].
    + injection Hn as <-. rewrite Nat.add_0_r.
      exists Pi, Qi, Si, Ti, Po, To. repeat split. exact Hb.
    + cbn [nth_error] in Hn. replace (i + S k)%nat with (S i + k)%nat by lia.
      apply (Hk k rpeak Hn).
Qed.

(** X14: when [_ecg_delineator_derivative] returns, each of its six lists
    holds exactly one entry per R-peak, NaN where the wave is not found, so
    that before the NaN are removed the lists are aligned with the
    R-peaks. *)
Theorem derivative_lists_aligned_with_rpeaks
    (epochs_create : list Q -> list Z -> Q -> list heartbeat)
    (signal_findpeaks : list Q -> option Q -> list Z)
    (signal_smooth : list Q -> Q -> list Q)
    (ecg : list Q) (rpeaks : list Z) (sampling_rate : Q) (w : waves6) :
  _ecg_delineator_derivative epochs_create signal_findpeaks signal_smooth
    ecg rpeaks sampling_rate = Ok w ->
  length (P_list w) = length rpeaks /\ length (Q_list w) = length rpeaks
  /\ length (S_list w) = length rpeaks /\ length (T_list w) = length rpeaks
  /\ length (P_onsets w) = length rpeaks /\ length (T_offsets w) = length rpeaks.
Proof.
  intros H. unfold _ecg_delineator_derivative in H.
  apply derivative_loop_slots in H.
  destruct H as (sP & sQ & sS & sT & sPo & sTo & EP & EQ & ES & ET & EPo & ETo
                 & LP & LQ & LS & LT & LPo & LTo & _).
  cbn [P_list Q_list S_list T_list P_onsets T_offsets app] in *.
  rewrite EP, EQ, ES, ET, EPo, ETo. repeat split; assumption.
Qed.

Lemma derivative_Q_undefined (signal_findpeaks : list Q -> option Q -> list Z)
    (rpeak : Z) (hb : heartbeat) (R : Z) :
  fst (_ecg_delineator_derivative_Q signal_findpeaks rpeak hb R) = NanObj ->
  snd (_ecg_delineator_derivative_Q signal_findpeaks rpeak hb R) = None.
Proof.
  unfold _ecg_delineator_derivative_Q. cbv zeta.
  destruct (rev _); cbn [fst snd]; [reflexivity|discriminate].
Qed.

Lemma derivative_P_undefined (signal_findpeaks : list Q -> option Q -> list Z)
    (rpeak : Z) (hb : heartbeat) (R : Z) (Q_pos : option Z) :
  (Q_pos = None ->
   fst (_ecg_delineator_derivative_P signal_findpeaks rpeak hb R Q_pos) = NanObj)
  /\ (fst (_ecg_delineator_derivative_P signal_findpeaks rpeak hb R Q_pos) = NanObj ->
      snd (_ecg_delineator_derivative_P signal_findpeaks rpeak hb R Q_pos) = None).
Proof.
  unfold _ecg_delineator_derivative_P. destruct Q_pos as [q|].
  - cbv zeta. split; [discriminate|].
    destruct (rev _); cbn [fst snd]; [reflexivity|discriminate].
  - split; reflexivity.
Qed.

Lemma derivative_S_undefined (signal_findpeaks : list Q -> option Q -> list Z)
    (rpeak : Z) (hb : heartbeat) (R : Z) :
  fst (_ecg_delineator_derivative_S signal_findpeaks rpeak hb R) = NanObj ->
  snd (_ecg_delineator_derivative_S signal_findpeaks rpeak hb R) = None.
Proof.
  unfold _ecg_delineator_derivative_S. cbv zeta.
  destruct (signal_findpeaks _ _); cbn [fst snd]; [reflexivity|discriminate].
Qed.

Lemma derivative_T_undefined (signal_findpeaks : list Q -> option Q -> list Z)
    (rpeak : Z) (hb : heartbeat) (R : Z) (S_pos : option Z) :
  (S_pos = None ->
   fst (_ecg_delineator_derivative_T signal_findpeaks rpeak hb R S_pos) = NanObj)
  /\ (fst (_ecg_delineator_derivative_T signal_findpeaks rpeak hb R S_pos) = NanObj ->
      snd (_ecg_delineator_derivative_T signal_findpeaks rpeak hb R S_pos) = None).
Proof.
  unfold _ecg_delineator_derivative_T. destruct S_pos as [s|].
  - cbv zeta. split; [discriminate|].
    destruct (signal_findpeaks _ _); cbn [fst snd]; [reflexivity|discriminate].
  - split; reflexivity.
Qed.

(** X15: in the derivative method the waves of a beat depend on one
    another: without a Q wave there is no P wave, without a P wave no P
    onset, without an S wave no T wave, and without a T wave no T offset.
    Each missing wave is reported as NaN in the slot of the beat. *)
Theorem derivative_missing_waves_propagate
    (epochs_create : list Q -> list Z -> Q -> list heartbeat)
    (signal_findpeaks : list Q -> option Q -> list Z)
    (signal_smooth : list Q -> Q -> list Q)
    (ecg : list Q) (rpeaks : list Z) (sampling_rate : Q) (w : waves6) (i : nat) :
  _ecg_delineator_derivative epochs_create signal_findpeaks signal_smooth
    ecg rpeaks sampling_rate = Ok w ->
  (nth_error (Q_list w) i = Some NanObj -> nth_error (P_list w) i = Some NanObj)
  /\ (nth_error (P_list w) i = Some NanObj ->
      nth_error (P_onsets w) i = Some NanObj)
  /\ (nth_error (S_list w) i = Some NanObj -> nth_error (T_list w) i = Some NanObj)
  /\ (nth_error (T_list w) i = Some NanObj ->
      nth_error (T_offsets w) i = Some NanObj).
Proof.
  intros H. unfold _ecg_delineator_derivative in H.
  apply derivative_loop_slots in H.
  destruct H as (sP & sQ & sS & sT & sPo & sTo & EP & EQ & ES & ET & EPo & ETo
                 & LP & LQ & LS & LT & LPo & LTo & Hk).
  cbn [P_list Q_list S_list T_list P_onsets T_offsets app] in *.
  rewrite EP, EQ, ES, ET, EPo, ETo.
  destruct (nth_error rpeaks i) as [rpeak|] eqn:Hr.
  2:{ apply nth_error_None in Hr.
      assert (N : forall l : list pynum, length l = length rpeaks ->
                    nth_error l i = Some NanObj -> False).
      { intros l Hl Hn. assert (nth_error l i <> None) by congruence.
        apply nth_error_Some in H. lia. }
      repeat split; intros Hn; exfalso; (eapply N; [|exact Hn]); assumption. }
  destruct (Hk i rpeak Hr) as (Pi & Qi & Si & Ti & Po & To & Hb
                               & HP & HQ & HS & HT & HPo & HTo).
  cbn [Nat.add] in Hb. apply derivative_beat_parts in Hb.
  destruct Hb as (hb & R & _ & _ & EQi & EPi & ESi & ETi & EPo' & ETo').
  rewrite HP, HQ, HS, HT, HPo, HTo.
  repeat split; intros Hn; injection Hn as Hn; f_equal.
  - rewrite EPi. apply derivative_P_undefined, derivative_Q_undefined. congruence.
  - rewrite (proj2 (derivative_P_undefined _ _ _ _ _)) in EPo' by congruence.
    cbn [_ecg_delineator_derivative_P_onset] in EPo'. congruence.
  - rewrite ETi. apply derivative_T_undefined, derivative_S_undefined. congruence.
  - rewrite (proj2 (derivative_T_undefined _ _ _ _ _)) in ETo' by congruence.
    cbn [_ecg_delineator_derivative_T_offset] in ETo'. congruence.
Qed.

(** *** The derivative method: the order of the waves of a beat *)

Lemma rev_head_In {A} (l rest : list A) (x : A) : rev l = x :: rest -> In x l.
Proof. intros H. apply in_rev. rewrite H. left. reflexivity. Qed.

Lemma head_In {A} (l rest : list A) (x : A) : l = x :: rest -> In x l.
Proof. intros ->. left. reflexivity. Qed.

(** X16: with a peak finder that reports positions inside the segment it
    is given, and epochs whose time index increases, the waves the
    derivative method finds for a beat are in temporal order around the
    R-peak: the P-peak before the Q-peak, the Q-peak before the R-peak, the
    S-peak not before the R-peak, and the T-peak not before the S-peak. *)
Theorem derivative_waves_in_temporal_order
    (epochs_create : list Q -> list Z -> Q -> list heartbeat)
    (signal_findpeaks : list Q -> option Q -> list Z)
    (signal_smooth : list Q -> Q -> list Q)
    (ecg : list Q) (rpeaks : list Z) (sampling_rate : Q) (w : waves6)
    (i : nat) (rpeak : Z) (hb : heartbeat) :
  (forall segment height p,
     In p (signal_findpeaks segment height) -> 0 <= p < len segment) ->
  _ecg_delineator_derivative epochs_create signal_findpeaks signal_smooth
    ecg rpeaks sampling_rate = Ok w ->
  nth_error rpeaks i = Some rpeak ->
  nth_error (epochs_create ecg rpeaks sampling_rate) i = Some hb ->
  StronglySorted Qlt (hb_index hb) ->
  (forall q, nth_error (Q_list w) i = Some (Idx q) -> q < rpeak)
  /\ (forall p, nth_error (P_list w) i = Some (Idx p) ->
        exists q, nth_error (Q_list w) i = Some (Idx q) /\ p < q)
  /\ (forall s, nth_error (S_list w) i = Some (Idx s) -> rpeak <= s)
  /\ (forall t, nth_error (T_list w) i = Some (Idx t) ->
        exists s, nth_error (S_list w) i = Some (Idx s) /\ s <= t).
Proof.
  intros Hfp H Hr Hhb Hs. unfold _ecg_delineator_derivative in H.
  apply derivative_loop_slots in H.
  destruct H as (sP & sQ & sS & sT & sPo & sTo & EP & EQ & ES & ET & _ & _
                 & _ & _ & _ & _ & _ & _ & Hk).
  cbn [P_list Q_list S_list T_list app] in *.
  rewrite EP, EQ, ES, ET.
  destruct (Hk i rpeak Hr) as (Pi & Qi & Si & Ti & Po & To & Hb
                               & HP & HQ & HS & HT & _ & _).
  cbn [Nat.add] in Hb. apply derivative_beat_parts in Hb.
  destruct Hb as (hb' & R & Hhb' & HR & EQi & EPi & ESi & ETi & _ & _).
  rewrite Hhb in Hhb'. injection Hhb' as <-.
  rewrite HP, HQ, HS, HT.
  unfold _ecg_delineator_derivative_Q in EQi, EPi.
  unfold _ecg_delineator_derivative_S in ESi, ETi.
  rewrite (rows_to_label_0_before_R hb R Hs HR) in EQi, EPi.
  cbv zeta in EQi, EPi, ESi, ETi.
  set (before_R := firstn (Z.to_nat R) (hb_signal hb)) in *.
  assert (Lb : len before_R <= Z.max 0 R).
  { unfold len, before_R. rewrite length_firstn. lia. }
  destruct (rev (signal_findpeaks (map (fun v => (-1 * v)%Q) before_R)
                   (height_floor before_R))) as [|qp restq] eqn:Eq;
    cbn [fst snd] in EQi, EPi.
  - (* no Q wave: no P wave either *)
    cbn [_ecg_delineator_derivative_P fst] in EPi. subst Qi Pi.
    split; [intros q Hq; discriminate|]. split; [intros p Hp; discriminate|].
    clear Eq. revert ESi ETi. 
    destruct (signal_findpeaks (map Qopp (rows_from_label_0 hb))
                (height_floor (rows_from_label_0 hb))) as [|sp rests] eqn:Es;
      cbn [fst snd]; intros ESi ETi.
    + cbn [_ecg_delineator_derivative_T fst] in ETi. subst Si Ti.
      split; intros x Hx; discriminate.
    + assert (Hsp : 0 <= sp).
      { apply head_In, Hfp in Es. lia. }
      subst Si. split; [intros s Hx; injection Hx as <-; lia|].
      intros t Ht. exists (rpeak + sp). split; [reflexivity|].
      unfold _ecg_delineator_derivative_T in ETi. cbv zeta in ETi.
      destruct (signal_findpeaks (py_slice_from (hb_signal hb) (R + sp)) _)
        as [|t0 restt] eqn:Et; cbn [fst] in ETi; subst Ti; [discriminate|].
      injection Ht as <-.
      assert (0 <= t0) by (apply head_In, Hfp in Et; lia).
      lia.
  - apply rev_head_In, Hfp in Eq. unfold len in Eq. rewrite length_map in Eq.
    fold (len before_R) in Eq.
    subst Qi. split; [intros q Hq; injection Hq as <-; lia|].
    split.
    + intros p Hp. exists (rpeak - (R - qp)). split; [reflexivity|].
      unfold _ecg_delineator_derivative_P in EPi. cbv zeta in EPi.
      destruct (rev (signal_findpeaks (py_slice_to (hb_signal hb) qp) _))
        as [|pp restp] eqn:Ep; cbn [fst] in EPi; subst Pi; [discriminate|].
      injection Hp as <-.
      apply rev_head_In, Hfp in Ep. unfold py_slice_to in Ep.
      pose proof (py_slice_length_le (hb_signal hb) 0 qp ltac:(lia)). lia.
    + revert ESi ETi.
      destruct (signal_findpeaks (map Qopp (rows_from_label_0 hb))
                  (height_floor (rows_from_label_0 hb))) as [|sp rests] eqn:Es;
        cbn [fst snd]; intros ESi ETi.
      * cbn [_ecg_delineator_derivative_T fst] in ETi. subst Si Ti.
        split; intros x Hx; discriminate.
      * assert (Hsp : 0 <= sp).
        { apply head_In, Hfp in Es. lia. }
        subst Si. split; [intros s Hx; injection Hx as <-; lia|].
        intros t Ht. exists (rpeak + sp). split; [reflexivity|].
        unfold _ecg_delineator_derivative_T in ETi. cbv zeta in ETi.
        destruct (signal_findpeaks (py_slice_from (hb_signal hb) (R + sp)) _)
          as [|t0 restt] eqn:Et; cbn [fst] in ETi; subst Ti; [discriminate|].
        injection Ht as <-.
        assert (0 <= t0) by (apply head_In, Hfp in Et; lia).
        lia.
Qed.

(** *** The dispatcher: what the caller receives *)

Lemma remove_nan_map_Idx (l : list Z) : remove_nan (map Idx l) = l.
Proof. induction l as [|x l IH]; cbn [map remove_nan]; congruence. Qed.

Lemma remove_nan_length_le (l : list pynum) :
  (length (remove_nan l) <= length l)%nat.
Proof.
  induction l as [|x l IH]; [apply Nat.le_refl|].
  destruct x; cbn [remove_nan length]; lia.
Qed.

(** X17: the DWT method under either of its names.  With a method
    that, once in lower case, is "dwt" or "discrete wavelet transform",
    R-peaks given as a list, and a delineator that returns eight lists
    each holding at least one index, every index being one that an array
    of [len ecg] samples accepts (from [- len ecg] to [len ecg - 1]):
    [ecg_delineate] returns the eight lists of the delineator unchanged
    under their eight names (the removal of NaN finds nothing to remove in
    them), and builds the indicator table from the same dictionary and the
    length of the signal.  (The table is built by another module, by
    reading the first index of every list and writing at every index: the
    lists it is taken to accept are the ones above.) *)
Theorem ecg_delineate_dwt_method_names
    (signal_resample : list Q -> Q -> Q -> list Q) (pywt_installed : bool)
    (cwt : list Q -> Q -> list (list Q))
    (epochs_create : list Q -> list Z -> Q -> list heartbeat)
    (signal_findpeaks : list Q -> option Q -> list Z)
    (signal_smooth : list Q -> Q -> list Q) (signals_table : Type)
    (signal_formatpeaks : list (string * list Z) -> Z -> signals_table)
    (ecg : list Q) (rpeaks : list Z) (sampling_rate : Q) (method : string)
    (w : waves8) :
  In (lower method) ["dwt"; "discrete wavelet transform"]%string ->
  _dwt_ecg_delinator signal_resample ecg rpeaks sampling_rate = Ok w ->
  let waves :=
    [("ECG_T_Peaks", ECG_T_Peaks w); ("ECG_T_Onsets", ECG_T_Onsets w);
     ("ECG_T_Offsets", ECG_T_Offsets w); ("ECG_P_Peaks", ECG_P_Peaks w);
     ("ECG_P_Onsets", ECG_P_Onsets w); ("ECG_P_Offsets", ECG_P_Offsets w);
     ("ECG_R_Onsets", ECG_R_Onsets w); ("ECG_R_Offsets", ECG_R_Offsets w)]%string in
  Forall (fun kv => snd kv <> []
                    /\ Forall (fun i => - len ecg <= i < len ecg) (snd kv))
         waves ->
  ecg_delineate signal_resample pywt_installed cwt epochs_create
    signal_findpeaks signal_smooth signals_table signal_formatpeaks
    ecg (RpeaksList rpeaks) sampling_rate method
  = Ok (signal_formatpeaks waves (len ecg), waves).
Proof.
  intros Hm Hw waves _. unfold ecg_delineate. cbn [bind]. cbn [In] in Hm.
  assert (E : str_in (lower method) ["derivative"; "gradient"]%string = false
              /\ str_in (lower method)
                   ["cwt"; "continuous wavelet transform"]%string = false
              /\ str_in (lower method)
                   ["dwt"; "discrete wavelet transform"]%string = true).
  { destruct Hm as [<-|[<-|[]]]; repeat split. }
  destruct E as (-> & -> & ->). cbn [bind]. rewrite Hw. cbn [bind].
  unfold dict_of_dwt. cbn [map fst snd]. rewrite !remove_nan_map_Idx.
  reflexivity.
Qed.

(** X18: the derivative method under either of its names, when each of
    the six lists of the delineator holds at least one defined index and
    every defined index is one that an array of [len ecg] samples accepts
    (from [- len ecg] to [len ecg - 1]).  The returned dictionary holds
    the six features in the order P, Q, S, T peaks, P onsets, T offsets;
    each list is the list of the delineator without its NaN entries, hence
    holds at most one index per R-peak (and the lists need no longer be
    aligned with one another).  (The table is built by another module, by
    reading the first index of every list and writing at every index: the
    lists it is taken to accept are the ones above.) *)
Theorem ecg_delineate_derivative_method
    (signal_resample : list Q -> Q -> Q -> list Q) (pywt_installed : bool)
    (cwt : list Q -> Q -> list (list Q))
    (epochs_create : list Q -> list Z -> Q -> list heartbeat)
    (signal_findpeaks : list Q -> option Q -> list Z)
    (signal_smooth : list Q -> Q -> list Q) (signals_table : Type)
    (signal_formatpeaks : list (string * list Z) -> Z -> signals_table)
    (ecg : list Q) (rpeaks : list Z) (sampling_rate : Q) (method : string)
    (w : waves6) :
  In (lower method) ["derivative"; "gradient"]%string ->
  _ecg_delineator_derivative epochs_create signal_findpeaks signal_smooth
    ecg rpeaks sampling_rate = Ok w ->
  let waves :=
    [("ECG_P_Peaks", remove_nan (P_list w)); ("ECG_Q_Peaks", remove_nan (Q_list w));
     ("ECG_S_Peaks", remove_nan (S_list w)); ("ECG_T_Peaks", remove_nan (T_list w));
     ("ECG_P_Onsets", remove_nan (P_onsets w));
     ("ECG_T_Offsets", remove_nan (T_offsets w))]%string in
  Forall (fun kv => snd kv <> []
                    /\ Forall (fun i => - len ecg <= i < len ecg) (snd kv))
         waves ->
  ecg_delineate signal_resample pywt_installed cwt epochs_create
    signal_findpeaks signal_smooth signals_table signal_formatpeaks
    ecg (RpeaksList rpeaks) sampling_rate method
  = Ok (signal_formatpeaks waves (len ecg), waves)
  /\ Forall (fun kv => (length (snd kv) <= length rpeaks)%nat) waves.
Proof.
  intros Hm Hw waves _. split.
  - unfold ecg_delineate. cbn [bind]. cbn [In] in Hm.
    assert (E : str_in (lower method) ["derivative"; "gradient"]%string = true
                /\ str_in (lower method)
                     ["cwt"; "continuous wavelet transform"]%string = false
                /\ str_in (lower method)
                     ["dwt"; "discrete wavelet transform"]%string = false).
    { destruct Hm as [<-|[<-|[]]]; repeat split. }
    destruct E as (-> & -> & ->). rewrite Hw. cbn [bind]. reflexivity.
  - unfold _ecg_delineator_derivative in Hw. apply derivative_loop_slots in Hw.
    destruct Hw as (sP & sQ & sS & sT & sPo & sTo & EP & EQ & ES & ET & EPo & ETo
                    & LP & LQ & LS & LT & LPo & LTo & _).
    cbn [P_list Q_list S_list T_list P_onsets T_offsets app] in *.
    unfold waves. rewrite EP, EQ, ES, ET, EPo, ETo.
    repeat constructor; cbn [snd];
      (eapply Nat.le_trans; [apply remove_nan_length_le|]); lia.
Qed.

(** *** The strict local maxima used as a concrete peak finder *)

Lemma strict_maxima_from_range (x : list Q) (i : nat) :
  Forall (fun p => (i < p < i + length x)%nat) (strict_maxima_from x i).
Proof.
  revert i. induction x as [|a rest IH]; intros i; [constructor|].
  cbn [strict_maxima_from]. destruct rest as [|b [|c rest']]; try constructor.
  specialize (IH (i + 1)%nat).
  assert (F : Forall (fun p => (i < p < i + length (a :: b :: c :: rest'))%nat)
                     (strict_maxima_from (b :: c :: rest') (i + 1))).
  { eapply Forall_impl; [|exact IH]. cbn [length]. intros p Hp. lia. }
  destruct (_ && _); [constructor|]; try exact F. cbn [length]. lia.
Qed.

Lemma findpeaks_strict_range (segment : list Q) (height : option Q) (p : Z) :
  In p (findpeaks_strict segment height) -> 0 <= p < len segment.
Proof.
  unfold findpeaks_strict, spec_findpeaks. intros H.
  apply in_map_iff in H. destruct H as (k & <- & Hk).
  destruct height as [h|]; [|contradiction].
  apply filter_In in Hk. destruct Hk as [Hk _].
  pose proof (strict_maxima_from_range segment 0) as F.
  rewrite Forall_forall in F. apply F in Hk. unfold len. lia.
Qed.

(* ===================================================================== *)
(** ** Properties of the signal filter *)
(* ===================================================================== *)

(** X19: without any cutoff, [signal_filter] returns the signal as it is
    for every method other than "powerline": the Savitzky-Golay filter,
    which uses no cutoff, is not applied, and a method name that does not
    exist is not reported. *)
Theorem signal_filter_without_cutoff_is_identity
    (savgol_filter : list Q -> Z -> Z -> result (list Q)) (mne_installed : bool)
    (mne_filter_data : list Q -> Q -> option pyreal -> option pyreal ->
                       window_arg -> result (list Q))
    (sos : Type)
    (butter_sos bessel_sos : Z -> list pyreal -> filter_type -> Q -> result sos)
    (sosfiltfilt : sos -> list Q -> result (list Q))
    (butter_ba : Z -> list pyreal -> filter_type -> Q -> result (list Q * list Q))
    (filtfilt : list Q -> list Q -> list Q -> pad_method -> result (list Q))
    (signal : list Q) (sampling_rate : Q) (method : string) (order : Z)
    (window_length : window_arg) :
  lower method <> "powerline"%string ->
  signal_filter savgol_filter mne_installed mne_filter_data sos butter_sos
    bessel_sos sosfiltfilt butter_ba filtfilt
    signal sampling_rate None None method order window_length
  = Ok signal.
Proof.
  intros H. unfold signal_filter. cbv zeta.
  replace (String.eqb (lower method) "powerline") with false; [reflexivity|].
  symmetry. apply String.eqb_neq. exact H.
Qed.

(** X20: with a cutoff given, a method name written in ASCII characters
    that is none of the known ones (once in lower case) raises
    [ValueError], and no filter runs. *)
Theorem signal_filter_unknown_method_raises
    (savgol_filter : list Q -> Z -> Z -> result (list Q)) (mne_installed : bool)
    (mne_filter_data : list Q -> Q -> option pyreal -> option pyreal ->
                       window_arg -> result (list Q))
    (sos : Type)
    (butter_sos bessel_sos : Z -> list pyreal -> filter_type -> Q -> result sos)
    (sosfiltfilt : sos -> list Q -> result (list Q))
    (butter_ba : Z -> list pyreal -> filter_type -> Q -> result (list Q * list Q))
    (filtfilt : list Q -> list Q -> list Q -> pad_method -> result (list Q))
    (signal : list Q) (sampling_rate : Q) (lowcut highcut : option pyreal)
    (method : string) (order : Z) (window_length : window_arg) :
  Forall (fun c => (nat_of_ascii c < 128)%nat) (list_ascii_of_string method) ->
  ~ In (lower method) filter_methods ->
  lowcut <> None \/ highcut <> None ->
  signal_filter savgol_filter mne_installed mne_filter_data sos butter_sos
    bessel_sos sosfiltfilt butter_ba filtfilt
    signal sampling_rate lowcut highcut method order window_length
  = Raise ValueError.
Proof.
  intros _ Hm Hc. unfold signal_filter. cbv zeta.
  assert (E0 : match lowcut, highcut with None, None => true | _, _ => false end
               = false).
  { destruct lowcut, highcut; try reflexivity. destruct Hc; congruence. }
  rewrite E0, andb_false_r.
  unfold filter_methods in Hm.
  rewrite !str_in_false
    by (intros K; apply Hm; cbn [In] in K |- *; tauto).
  reflexivity.
Qed.

(** X21: a cutoff of zero passes the test for absent cutoffs (it is not
    [None]) but is then replaced by [None]: with the Butterworth and Bessel
    methods, a call whose cutoffs are zero or absent, and not both absent,
    fails on the variable [freqs], which no branch has assigned. *)
Theorem signal_filter_zero_cutoff_unassigned_freqs
    (savgol_filter : list Q -> Z -> Z -> result (list Q)) (mne_installed : bool)
    (mne_filter_data : list Q -> Q -> option pyreal -> option pyreal ->
                       window_arg -> result (list Q))
    (sos : Type)
    (butter_sos bessel_sos : Z -> list pyreal -> filter_type -> Q -> result sos)
    (sosfiltfilt : sos -> list Q -> result (list Q))
    (butter_ba : Z -> list pyreal -> filter_type -> Q -> result (list Q * list Q))
    (filtfilt : list Q -> list Q -> list Q -> pad_method -> result (list Q))
    (signal : list Q) (sampling_rate : Q) (lowcut highcut : option pyreal)
    (method : string) (order : Z) (window_length : window_arg) :
  In (lower method)
     ["butter"; "butterworth"; "butter_ba"; "butterworth_ba"; "bessel"]%string ->
  lowcut <> None \/ highcut <> None ->
  zero_to_none lowcut = None -> zero_to_none highcut = None ->
  signal_filter savgol_filter mne_installed mne_filter_data sos butter_sos
    bessel_sos sosfiltfilt butter_ba filtfilt
    signal sampling_rate lowcut highcut method order window_length
  = Raise (UnboundLocalError "freqs").
Proof.
  intros Hm Hc Zl Zh. unfold signal_filter. cbv zeta.
  assert (E0 : match lowcut, highcut with None, None => true | _, _ => false end
               = false).
  { destruct lowcut, highcut; try reflexivity. destruct Hc; congruence. }
  rewrite E0, andb_false_r.
  assert (S : _signal_filter_sanitize lowcut highcut sampling_rate
              = Raise (UnboundLocalError "freqs")).
  { unfold _signal_filter_sanitize. rewrite Zl, Zh. reflexivity. }
  unfold _signal_filter_butterworth, _signal_filter_butterworth_ba,
    _signal_filter_bessel. rewrite S. cbn [bind].
  cbn [In] in Hm.
  destruct Hm as [<-|[<-|[<-|[<-|[<-|[]]]]]]; reflexivity.
Qed.

(** X22: what [_signal_filter_sanitize] returns: a cutoff of zero counts
    as absent; the returned frequencies are the cutoffs that are left, none
    of them zero, the low one first; two cutoffs give a band-pass when the
    low one does not exceed the high one and a band-stop otherwise, a low
    cutoff alone a high-pass, a high cutoff alone a low-pass. *)
Theorem signal_filter_sanitize_types
    (lowcut highcut : option pyreal) (sampling_rate : Q)
    (freqs : list pyreal) (ftype : filter_type) :
  _signal_filter_sanitize lowcut highcut sampling_rate = Ok (freqs, ftype) ->
  Forall (fun f => ~ (real_value f == 0)%Q) freqs
  /\ match ftype with
     | bandpass => exists l h, lowcut = Some l /\ highcut = Some h
                               /\ freqs = [l; h]
                               /\ (real_value l <= real_value h)%Q
     | bandstop => exists l h, lowcut = Some l /\ highcut = Some h
                               /\ freqs = [l; h]
                               /\ (real_value h < real_value l)%Q
     | highpass => exists l, lowcut = Some l /\ freqs = [l]
                             /\ zero_to_none highcut = None
     | lowpass => exists h, highcut = Some h /\ freqs = [h]
                            /\ zero_to_none lowcut = None
     end.
Proof.
  unfold _signal_filter_sanitize. cbv zeta.
  assert (Z : forall c x, zero_to_none c = Some x ->
                c = Some x /\ ~ (real_value x == 0)%Q).
  { intros [c|] x; cbn [zero_to_none]; [|discriminate].
    destruct (Qeq_bool (real_value c) 0) eqn:E; [discriminate|].
    intros H. injection H as <-. split; [reflexivity|].
    intros K. apply Qeq_bool_iff in K. congruence. }
  destruct (zero_to_none lowcut) as [l|] eqn:El;
    destruct (zero_to_none highcut) as [h|] eqn:Eh.
  - destruct (Z _ _ El) as [-> Nl]. destruct (Z _ _ Eh) as [-> Nh].
    destruct (Qlt_bool (real_value h) (real_value l)) eqn:E;
      intros H; injection H as <- <-.
    + split; [repeat constructor; assumption|]. exists l, h.
      repeat split. apply Qlt_bool_iff. exact E.
    + split; [repeat constructor; assumption|]. exists l, h.
      repeat split. apply Qnot_lt_le. intros K. apply Qlt_bool_iff in K.
      congruence.
  - destruct (Z _ _ El) as [-> Nl]. intros H; injection H as <- <-.
    split; [repeat constructor; assumption|]. exists l. repeat split.
  - destruct (Z _ _ Eh) as [-> Nh]. intros H; injection H as <- <-.
    split; [repeat constructor; assumption|]. exists h. repeat split.
  - discriminate.
Qed.

Lemma np_round_integer (z : Z) (q : Q) : (q == inject_Z z)%Q -> np_round q = z.
Proof.
  intros E. unfold np_round. cbv zeta.
  assert (F : Qfloor q = z) by (rewrite E; apply Qfloor_Z).
  rewrite F.
  replace (Qlt_bool (q - inject_Z z) (1 # 2)) with true; [reflexivity|].
  symmetry. apply Qlt_bool_iff. rewrite E. ring_simplify. reflexivity.
Qed.

(** X23: the default window length of the Savitzky-Golay filter is a third
    of the sampling rate, rounded, and is not made odd: the statement that
    should add one to an even length has no effect.  For every rate [6 k]
    the length is the even number [2 k], whatever the string passed as
    [window_length]. *)
Theorem signal_filter_windowlength_stays_even (s : string) (k : Z) :
  _signal_filter_windowlength (WinStr s) (inject_Z (6 * k)) = 2 * k
  /\ Z.even (_signal_filter_windowlength (WinStr s) (inject_Z (6 * k))) = true.
Proof.
  assert (E : _signal_filter_windowlength (WinStr s) (inject_Z (6 * k)) = 2 * k).
  { unfold _signal_filter_windowlength. cbv zeta.
    rewrite (np_round_integer (2 * k)).
    - destruct (Z.even (2 * k)); reflexivity.
    - rewrite !inject_Z_mult. change (inject_Z 6) with 6%Q.
      change (inject_Z 2) with 2%Q. field. }
  split; [exact E|]. rewrite E, Z.even_mul. reflexivity.
Qed.

Lemma sum_scaled_ones (n : nat) :
  (fold_right Qplus 0 (map (fun v => v / 50) (repeat 1 n))
   == inject_Z (Z.of_nat n) / 50)%Q.
Proof.
  induction n as [|n IH].
  - cbn [repeat map fold_right]. reflexivity.
  - cbn [repeat map fold_right]. rewrite IH.
    rewrite Nat2Z.inj_succ. unfold Z.succ. rewrite inject_Z_plus.
    change (inject_Z 1) with 1%Q. field.
Qed.

(** X24: the numerator of the power-line filter has [int(0.02 * rate)]
    taps, each worth 1/50, so they sum to [int(0.02 * rate) / 50]: the
    sum is one (a moving average that keeps the level of the signal) exactly
    for the rates from 2500 Hz up to, but not including, 2550 Hz. *)
Theorem powerline_taps_sum (sampling_rate : Q) (b : list Q) :
  (0 <= sampling_rate)%Q ->
  powerline_b sampling_rate = Ok b ->
  len b = int_of_Q ((2 # 100) * sampling_rate)
  /\ Forall (fun v => (v == 1 # 50)%Q) b
  /\ (fold_right Qplus 0 b
      == inject_Z (int_of_Q ((2 # 100) * sampling_rate)) / 50)%Q
  /\ ((fold_right Qplus 0 b == 1)%Q
      <-> (2500 <= sampling_rate)%Q /\ (sampling_rate < 2550)%Q).
Proof.
  intros Hsr. unfold powerline_b, np_ones.
  set (n := int_of_Q ((2 # 100) * sampling_rate)).
  assert (Hn : n = Qfloor ((2 # 100) * sampling_rate)).
  { unfold n. apply int_of_Q_nonneg. lra. }
  assert (Hn0 : 0 <= n).
  { rewrite Hn. apply Qfloor_nonneg. lra. }
  replace (n <? 0) with false by (symmetry; apply Z.ltb_ge; exact Hn0).
  cbn [bind]. intros H. injection H as <-.
  assert (S : (fold_right Qplus 0 (map (fun v => v / 50) (repeat 1 (Z.to_nat n)))
               == inject_Z n / 50)%Q).
  { rewrite sum_scaled_ones, Z2Nat.id by exact Hn0. reflexivity. }
  split; [|split; [|split; [exact S|]]].
  - unfold len. rewrite length_map, repeat_length. lia.
  - apply Forall_map, Forall_forall. intros v Hv. apply repeat_spec in Hv.
    subst v. reflexivity.
  - rewrite S.
    pose proof (Qfloor_le ((2 # 100) * sampling_rate)) as Fl.
    pose proof (Qlt_floor ((2 # 100) * sampling_rate)) as Fu.
    rewrite <- Hn in Fl, Fu. rewrite inject_Z_plus in Fu.
    change (inject_Z 1) with 1%Q in Fu.
    split.
    + intros E. assert (En : (inject_Z n == 50)%Q).
      { assert (K : (inject_Z n == inject_Z n / 50 * 50)%Q) by field.
        rewrite K, E. reflexivity. }
      rewrite En in Fl, Fu. split; lra.
    + intros [Lo Hi].
      assert (n = 50); [|subst n; rewrite H; reflexivity].
      assert (A : (inject_Z 50 <= (2 # 100) * sampling_rate)%Q)
        by (change (inject_Z 50) with 50%Q; lra).
      apply Qfloor_resp_le in A. rewrite Qfloor_Z, <- Hn in A.
      assert (B : (inject_Z n < inject_Z 51)%Q)
        by (change (inject_Z 51) with 51%Q; lra).
      rewrite <- Zlt_Qlt in B. lia.
Qed.

(* ===================================================================== *)
(** ** The further properties on concrete inputs *)
(* ===================================================================== *)

Lemma dwt_qrs_offsets_skip_undefined_P_witness :
  _dwt_delinate_qrs_bounds [5; 20; 30] trough_crest_matr [Idx 0; NanObj]
    [Idx 10] 250 = Ok ([Idx 1; NanObj], [Idx 8])
  /\ length [Idx 1; NanObj] = (length [5; 20; 30] - 1)%nat
  /\ length [Idx 8]
     = length (filter (fun x => negb (is_np_nan x))
                      (firstn (length [5; 20; 30] - 1) [Idx 0; NanObj])).
Proof.
  split; [vm_compute; reflexivity|].
  destruct (dwt_qrs_offsets_skip_undefined_P [5; 20; 30] trough_crest_matr
              [Idx 0; NanObj] [Idx 10] 250 [Idx 1; NanObj] [Idx 8]
              ltac:(vm_compute; reflexivity)) as (H1 & H2 & _).
  split; assumption.
Defined.

Lemma dwt_qrs_bounds_between_peaks_witness :
  _dwt_delinate_qrs_bounds [5; 20; 30] trough_crest_matr [Idx 0; NanObj]
    [Idx 10] 250 = Ok ([Idx 1; NanObj], [Idx 8])
  /\ exists p r,
       nth_error [Idx 0; NanObj] 0 = Some (Idx p)
       /\ nth_error [5; 20; 30] 0 = Some r
       /\ ((r < 0 -> p < 0) -> p <= 1 < r).
Proof.
  split; [vm_compute; reflexivity|].
  apply (proj1 (dwt_qrs_bounds_between_peaks [5; 20; 30] trough_crest_matr
                  [Idx 0; NanObj] [Idx 10] 250 [Idx 1; NanObj] [Idx 8]
                  ltac:(vm_compute; reflexivity)) 0%nat 1 eq_refl).
Defined.

Lemma dwt_qrs_bounds_raise_without_local_minimum_witness :
  matr_slice (repeat (zeros 10) 3) (2 + 0) (Idx 0) (Idx 5) = Ok (zeros 5)
  /\ find_peaks (map Qopp (zeros 5)) None None = []
  /\ exists e,
       _dwt_delinate_qrs_bounds [5; 9] (repeat (zeros 10) 3) [Idx 0] [Idx 8] 250
       = Raise e.
Proof.
  split; [reflexivity|]. split; [vm_compute; reflexivity|].
  apply (dwt_qrs_bounds_raise_without_local_minimum [5; 9] (repeat (zeros 10) 3)
           [Idx 0] [Idx 8] 250 0 0%nat 0 5 (zeros 5)
           ltac:(vm_compute; reflexivity) ltac:(simpl; lia) ltac:(reflexivity)
           ltac:(reflexivity) ltac:(reflexivity) ltac:(vm_compute; reflexivity)).
Defined.

Lemma dwt_tp_onsets_offsets_around_peak_witness :
  _dwt_delinate_tp_onsets_offsets [Idx 5; NanObj] crest_trough_matr 250
    (2 # 100) (2 # 100) (4 # 10) (4 # 10) = Ok ([Idx 1; NanObj], [Idx 8])
  /\ (exists p, nth_error [Idx 5; NanObj] 0 = Some (Idx p) /\ p - 5 <= 1 < p)
  /\ (exists p, In (Idx p) [Idx 5; NanObj] /\ p <= 8 < p + 5).
Proof.
  split; [vm_compute; reflexivity|].
  destruct (dwt_tp_onsets_offsets_around_peak [Idx 5; NanObj] crest_trough_matr 250
              (2 # 100) (2 # 100) (4 # 10) (4 # 10) [Idx 1; NanObj] [Idx 8]
              ltac:(vm_compute; discriminate) ltac:(vm_compute; discriminate)
              ltac:(vm_compute; reflexivity)) as [Hon Hoff].
  split.
  - exact (Hon 0%nat 1 eq_refl).
  - exact (Hoff 8 (or_introl eq_refl)).
Defined.

Lemma dwt_tp_peaks_inside_search_windows_witness :
  (0 <= 100)%Q
  /\ exists t p,
       _dwt_delinate_tp_peaks [60; 100] lobes_matr 100 = Ok ([Idx t], [Idx p])
       /\ 60 + 2 <= t < 100 - 2 * 8
       /\ 60 - 50 <= p < 60 - 2.
Proof.
  split; [discriminate|]. exists 73, 33.
  assert (H : _dwt_delinate_tp_peaks [60; 100] lobes_matr 100
              = Ok ([Idx 73], [Idx 33])) by (vm_compute; reflexivity).
  split; [exact H|].
  destruct (dwt_tp_peaks_inside_search_windows [60; 100] lobes_matr 100
              [Idx 73] [Idx 33] ltac:(discriminate) H) as (_ & _ & HT & HP).
  destruct (HT 0%nat 73 eq_refl) as (r & r' & Er & Er' & Ht).
  destruct (HP 0%nat 33 eq_refl) as (r0 & Er0 & Hp).
  cbn [nth_error] in Er, Er', Er0.
  injection Er as <-. injection Er' as <-. injection Er0 as <-.
  change (int_of_Q ((9 # 10) * (5 # 100) * 100 / 2)) with 2 in Ht, Hp.
  change (int_of_Q ((5 # 10) * 100)) with 50 in Hp.
  split; [apply Ht; lia|exact Hp].
Defined.

Lemma dwt_multiscales_shape_witness :
  [1; 2; 3]%Q <> []
  /\ length (_dwt_compute_multiscales [1; 2; 3]%Q 2) = 2%nat
  /\ Forall (fun row => length row = length [1; 2; 3]%Q)
            (_dwt_compute_multiscales [1; 2; 3]%Q 2).
Proof.
  split; [discriminate|].
  apply (dwt_multiscales_shape [1; 2; 3]%Q 2). discriminate.
Defined.

Lemma dwt_on_zero_signal_returns_no_points_witness :
  (0 < 50)%nat
  /\ resample_same_rate (zeros 50) 2000 analysis_sampling_rate = zeros 50
  /\ _dwt_ecg_delinator resample_same_rate (zeros 50) [10; 30] 2000
     = Ok {| ECG_T_Peaks := []; ECG_T_Onsets := []; ECG_T_Offsets := [];
             ECG_P_Peaks := []; ECG_P_Onsets := []; ECG_P_Offsets := [];
             ECG_R_Onsets := []; ECG_R_Offsets := [] |}.
Proof.
  split; [lia|]. split; [reflexivity|].
  apply (dwt_on_zero_signal_returns_no_points resample_same_rate (zeros 50)
           [10; 30] 2000 50); [lia|reflexivity].
Defined.

Lemma dwt_resample_points_keep_order_witness :
  0 < 250 /\ 0 < 2000 /\ 250 <= 2000
  /\ Forall (fun p => 0 <= p /\ p * 2000 + 250 < 2 ^ 53) [100; 200]
  /\ StronglySorted Z.lt [100; 200]
  /\ _dwt_resample_points (map Idx [100; 200]) (inject_Z 250) (inject_Z 2000)
     = [800; 1600]
  /\ StronglySorted Z.lt
       (_dwt_resample_points (map Idx [100; 200]) (inject_Z 250) (inject_Z 2000)).
Proof.
  assert (F : Forall (fun p => 0 <= p /\ p * 2000 + 250 < 2 ^ 53) [100; 200]).
  { repeat constructor; vm_compute; congruence. }
  assert (S : StronglySorted Z.lt [100; 200]).
  { repeat constructor. }
  split; [lia|]. split; [lia|]. split; [lia|].
  split; [exact F|]. split; [exact S|]. split; [vm_compute; reflexivity|].
  apply (proj2 (dwt_resample_points_keep_order [100; 200] 250 2000
                  ltac:(lia) ltac:(lia) F)
           ltac:(lia) S).
Defined.

Lemma dwt_resample_points_same_rate_witness :
  0 < 500
  /\ Forall (fun p => Z.abs p * 500 < 2 ^ 53) (remove_nan [Idx 3; NanObj; Idx 8])
  /\ _dwt_resample_points [Idx 3; NanObj; Idx 8] (inject_Z 500) (inject_Z 500)
     = [3; 8].
Proof.
  assert (F : Forall (fun p => Z.abs p * 500 < 2 ^ 53)
                     (remove_nan [Idx 3; NanObj; Idx 8])).
  { repeat constructor. }
  split; [lia|]. split; [exact F|].
  apply (dwt_resample_points_same_rate [Idx 3; NanObj; Idx 8] 500
           ltac:(lia) F).
Defined.

Lemma dwt_compensate_degree_doublings_witness :
  250 <= 1000 <= 2 ^ 32
  /\ exists d,
       _dwt_compensate_degree (inject_Z 1000) = Ok d /\ 0 <= d
       /\ 250 * 2 ^ d <= 1000 < 250 * 2 ^ (d + 1).
Proof.
  assert (H : 250 <= 1000 <= 2 ^ 32) by (split; vm_compute; congruence).
  split; [exact H|].
  apply (dwt_compensate_degree_doublings 1000 H).
Defined.

Lemma cwt_onsets_offsets_within_half_wave_witness :
  (0 <= 50)%Q
  /\ _onset_offset_delineator true cwt_crest_rows (zeros 20) [10] rpeaks_t 50
     = Ok ([5], [14])
  /\ (exists ip, In ip [10] /\ ip - 5 <= 5 < ip)
  /\ (exists ip, In ip [10] /\ ip <= 14 < ip + 5).
Proof.
  split; [discriminate|]. split; [vm_compute; reflexivity|].
  destruct (cwt_onsets_offsets_within_half_wave true cwt_crest_rows (zeros 20)
              [10] rpeaks_t 50 [5] [14] ltac:(discriminate)
              ltac:(vm_compute; reflexivity)) as [Hon Hoff].
  split.
  - exact (Hon 5 (or_introl eq_refl)).
  - exact (Hoff 14 (or_introl eq_refl)).
Defined.

Lemma cwt_rpeak_onset_epsilon_unassigned_witness :
  onset_wt_peaks (cwt_zero_crest (zeros 5) 30) rpeaks_t
    (int_of_Q ((1 # 10) * 30)) 3
  = Ok ([] ++ [{| pk_index := 1; peak_height := 0; prominence := 1;
                  left_base := 0; right_base := 2 |}])
  /\ _onset_offset_delineator true cwt_zero_crest (zeros 5) [3] rpeaks_t 30
     = Raise (UnboundLocalError "epsilon_onset").
Proof.
  split; [vm_compute; reflexivity|].
  exact (cwt_rpeak_onset_epsilon_unassigned cwt_zero_crest (zeros 5) 3 [] 30
           [] {| pk_index := 1; peak_height := 0; prominence := 1;
                 left_base := 0; right_base := 2 |}
           ltac:(vm_compute; reflexivity) ltac:(vm_compute; discriminate)).
Defined.

Lemma cwt_peaks_one_per_interval_witness :
  _peaks_delineator true cwt_falling_rising (impulse_train 50 [22]%nat)
    [10; 40] 100 = Ok ([22], [22])
  /\ (2 <= length [10; 40])%nat
  /\ length [22] = (length [10; 40] - 1)%nat.
Proof.
  split; [vm_compute; reflexivity|].
  destruct (cwt_peaks_one_per_interval true cwt_falling_rising
              (impulse_train 50 [22]%nat) [10; 40] 100 [22] [22]
              ltac:(vm_compute; reflexivity)) as (H1 & H2 & _).
  split; assumption.
Defined.

Lemma derivative_lists_aligned_with_rpeaks_witness :
  _ecg_delineator_derivative epochs_pqrs_then_flat findpeaks_strict smooth_none
    epoch_pqrs_samples [8; 20] 10
  = Ok {| P_list := [Idx 1; NanObj]; Q_list := [Idx 5; NanObj];
          S_list := [Idx 10; NanObj]; T_list := [NanObj; NanObj];
          P_onsets := [Idx (-1); NanObj]; T_offsets := [NanObj; NanObj] |}
  /\ length [Idx 1; NanObj] = length [8; 20].
Proof.
  split; [vm_compute; reflexivity|].
  exact (proj1 (derivative_lists_aligned_with_rpeaks epochs_pqrs_then_flat
                  findpeaks_strict smooth_none epoch_pqrs_samples [8; 20] 10 _
                  ltac:(vm_compute; reflexivity))).
Defined.

Lemma derivative_missing_waves_propagate_witness :
  _ecg_delineator_derivative epochs_pqrs_then_flat findpeaks_strict smooth_none
    epoch_pqrs_samples [8; 20] 10
  = Ok {| P_list := [Idx 1; NanObj]; Q_list := [Idx 5; NanObj];
          S_list := [Idx 10; NanObj]; T_list := [NanObj; NanObj];
          P_onsets := [Idx (-1); NanObj]; T_offsets := [NanObj; NanObj] |}
  /\ (nth_error [Idx 5; NanObj] 1 = Some NanObj ->
      nth_error [Idx 1; NanObj] 1 = Some NanObj).
Proof.
  split; [vm_compute; reflexivity|].
  exact (proj1 (derivative_missing_waves_propagate epochs_pqrs_then_flat
                  findpeaks_strict smooth_none epoch_pqrs_samples [8; 20] 10 _
                  1%nat ltac:(vm_compute; reflexivity))).
Defined.

Lemma derivative_waves_in_temporal_order_witness :
  _ecg_delineator_derivative epochs_pqrs_then_flat findpeaks_strict smooth_none
    epoch_pqrs_samples [8; 20] 10
  = Ok {| P_list := [Idx 1; NanObj]; Q_list := [Idx 5; NanObj];
          S_list := [Idx 10; NanObj]; T_list := [NanObj; NanObj];
          P_onsets := [Idx (-1); NanObj]; T_offsets := [NanObj; NanObj] |}
  /\ (forall q, nth_error [Idx 5; NanObj] 0 = Some (Idx q) -> q < 8)
  /\ (forall s, nth_error [Idx 10; NanObj] 0 = Some (Idx s) -> 8 <= s).
Proof.
  split; [vm_compute; reflexivity|].
  destruct (derivative_waves_in_temporal_order epochs_pqrs_then_flat
              findpeaks_strict smooth_none epoch_pqrs_samples [8; 20] 10 _
              0%nat 8 {| hb_index := epoch_labels; hb_signal := epoch_pqrs_samples |}
              findpeaks_strict_range
              ltac:(vm_compute; reflexivity) ltac:(reflexivity) ltac:(reflexivity)
              ltac:(cbn [hb_index epoch_labels];
                    repeat (constructor;
                            [|repeat (constructor; [reflexivity|]); constructor]);
                    constructor))
    as (HQ & _ & HS & _).
  split; assumption.
Defined.

Lemma ecg_delineate_dwt_method_names_witness :
  In (lower "Discrete Wavelet Transform")
     ["dwt"; "discrete wavelet transform"]%string
  /\ len (impulse_train 900 [20; 290; 620; 720]%nat) = 900
  /\ exists waves,
       ecg_delineate resample_same_rate true cwt_zero_rows epochs_pqrs_then_flat
         findpeaks_strict smooth_none _ format_as_lists
         (impulse_train 900 [20; 290; 620; 720]%nat)
         (RpeaksList [100; 200; 700; 800; 899]) 2000 "Discrete Wavelet Transform"
       = Ok (waves, waves)
       /\ map fst waves
          = ["ECG_T_Peaks"; "ECG_T_Onsets"; "ECG_T_Offsets"; "ECG_P_Peaks";
             "ECG_P_Onsets"; "ECG_P_Offsets"; "ECG_R_Onsets";
             "ECG_R_Offsets"]%string
       /\ Forall (fun kv => snd kv <> []
                            /\ Forall (fun i => - 900 <= i < 900) (snd kv))
                 waves.
Proof.
  assert (H1 : In (lower "Discrete Wavelet Transform")
                  ["dwt"; "discrete wavelet transform"]%string)
    by (right; left; reflexivity).
  assert (L : len (impulse_train 900 [20; 290; 620; 720]%nat) = 900)
    by (vm_compute; reflexivity).
  split; [exact H1|]. split; [exact L|].
  assert (F : Forall (fun kv : string * list Z =>
                        snd kv <> []
                        /\ Forall (fun i => - 900 <= i < 900) (snd kv))
                [("ECG_T_Peaks", [290; 290]); ("ECG_T_Onsets", [-656]);
                 ("ECG_T_Offsets", [331; 331]);
                 ("ECG_P_Peaks", [-280; -180]); ("ECG_P_Onsets", [-221]);
                 ("ECG_P_Offsets", [-839]);
                 ("ECG_R_Onsets", [-275; -175]);
                 ("ECG_R_Offsets", [284])]%string).
  { repeat (constructor; [split; [discriminate|repeat constructor; lia]|]).
    constructor. }
  eexists. split; [|split; [|exact F]]; [|reflexivity].
  refine (ecg_delineate_dwt_method_names resample_same_rate true
            cwt_zero_rows epochs_pqrs_then_flat findpeaks_strict
            smooth_none _ format_as_lists
            (impulse_train 900 [20; 290; 620; 720]%nat)
            [100; 200; 700; 800; 899] 2000 "Discrete Wavelet Transform"
            {| ECG_T_Peaks := [290; 290]; ECG_T_Onsets := [-656];
               ECG_T_Offsets := [331; 331];
               ECG_P_Peaks := [-280; -180]; ECG_P_Onsets := [-221];
               ECG_P_Offsets := [-839];
               ECG_R_Onsets := [-275; -175]; ECG_R_Offsets := [284] |}
            H1 dwt_run_on_impulses _).
  cbn [ECG_T_Peaks ECG_T_Onsets ECG_T_Offsets ECG_P_Peaks ECG_P_Onsets
       ECG_P_Offsets ECG_R_Onsets ECG_R_Offsets].
  rewrite L. exact F.
Defined.

Lemma ecg_delineate_derivative_method_witness :
  In (lower "Gradient") ["derivative"; "gradient"]%string
  /\ len pqrst_samples = 26
  /\ exists waves,
       ecg_delineate resample_same_rate true cwt_zero_rows epoch_pqrst
         findpeaks_strict smooth_none _ format_as_lists
         pqrst_samples (RpeaksList [11]) 30 "Gradient"
       = Ok (waves, waves)
       /\ map fst waves
          = ["ECG_P_Peaks"; "ECG_Q_Peaks"; "ECG_S_Peaks"; "ECG_T_Peaks";
             "ECG_P_Onsets"; "ECG_T_Offsets"]%string
       /\ Forall (fun kv => snd kv <> []
                            /\ Forall (fun i => - 26 <= i < 26) (snd kv))
                 waves
       /\ Forall (fun kv => (length (snd kv) <= 1)%nat) waves.
Proof.
  assert (H1 : In (lower "Gradient") ["derivative"; "gradient"]%string)
    by (right; left; reflexivity).
  split; [exact H1|]. split; [reflexivity|].
  assert (F : Forall (fun kv : string * list Z =>
                        snd kv <> []
                        /\ Forall (fun i => - 26 <= i < 26) (snd kv))
                [("ECG_P_Peaks", [5]); ("ECG_Q_Peaks", [9]);
                 ("ECG_S_Peaks", [13]); ("ECG_T_Peaks", [17]);
                 ("ECG_P_Onsets", [2]); ("ECG_T_Offsets", [17])]%string).
  { repeat (constructor; [split; [discriminate|repeat constructor; lia]|]).
    constructor. }
  destruct (ecg_delineate_derivative_method resample_same_rate true
              cwt_zero_rows epoch_pqrst findpeaks_strict smooth_none
              _ format_as_lists pqrst_samples [11] 30 "Gradient"
              {| P_list := [Idx 5]; Q_list := [Idx 9];
                 S_list := [Idx 13]; T_list := [Idx 17];
                 P_onsets := [Idx 2]; T_offsets := [Idx 17] |}
              H1 ltac:(vm_compute; reflexivity) F) as [E B].
  eexists. split; [exact E|]. split; [reflexivity|]. split; [exact F|exact B].
Defined.

Lemma signal_filter_without_cutoff_is_identity_witness :
  lower "Savgol" <> "powerline"%string
  /\ signal_filter savgol_unchanged true mne_unchanged unit sos_none sos_none
       sosfiltfilt_unchanged ba_none filtfilt_unchanged
       [1; 2; 3]%Q 1000 None None "Savgol" 2 (WinStr "default")
     = Ok [1; 2; 3]%Q.
Proof.
  assert (H : lower "Savgol" <> "powerline"%string) by (vm_compute; discriminate).
  split; [exact H|].
  exact (signal_filter_without_cutoff_is_identity savgol_unchanged true
           mne_unchanged unit sos_none sos_none sosfiltfilt_unchanged ba_none
           filtfilt_unchanged [1; 2; 3]%Q 1000 "Savgol" 2 (WinStr "default") H).
Defined.

Lemma signal_filter_unknown_method_raises_witness :
  Forall (fun c => (nat_of_ascii c < 128)%nat) (list_ascii_of_string "Chebyshev")
  /\ ~ In (lower "Chebyshev") filter_methods
  /\ signal_filter savgol_unchanged true mne_unchanged unit sos_none sos_none
       sosfiltfilt_unchanged ba_none filtfilt_unchanged
       [1; 2; 3]%Q 1000 None (Some (PyInt 40)) "Chebyshev" 2 (WinStr "default")
     = Raise ValueError.
Proof.
  assert (A : Forall (fun c => (nat_of_ascii c < 128)%nat)
                     (list_ascii_of_string "Chebyshev")).
  { repeat constructor; vm_compute; lia. }
  assert (H : ~ In (lower "Chebyshev") filter_methods).
  { vm_compute. intros K. repeat (destruct K as [K|K]; [discriminate K|]).
    exact K. }
  split; [exact A|]. split; [exact H|].
  exact (signal_filter_unknown_method_raises savgol_unchanged true
           mne_unchanged unit sos_none sos_none sosfiltfilt_unchanged ba_none
           filtfilt_unchanged [1; 2; 3]%Q 1000 None (Some (PyInt 40))
           "Chebyshev" 2 (WinStr "default") A H
           ltac:(right; discriminate)).
Defined.

Lemma signal_filter_zero_cutoff_unassigned_freqs_witness :
  zero_to_none (Some (PyInt 0)) = None
  /\ signal_filter savgol_unchanged true mne_unchanged unit sos_none sos_none
       sosfiltfilt_unchanged ba_none filtfilt_unchanged
       [1; 2; 3]%Q 1000 (Some (PyInt 0)) None "butterworth" 2 (WinStr "default")
     = Raise (UnboundLocalError "freqs").
Proof.
  split; [reflexivity|].
  exact (signal_filter_zero_cutoff_unassigned_freqs savgol_unchanged true
           mne_unchanged unit sos_none sos_none sosfiltfilt_unchanged ba_none
           filtfilt_unchanged [1; 2; 3]%Q 1000 (Some (PyInt 0)) None
           "butterworth" 2 (WinStr "default")
           ltac:(right; left; reflexivity) ltac:(left; discriminate)
           ltac:(reflexivity) ltac:(reflexivity)).
Defined.

Lemma signal_filter_sanitize_types_witness :
  _signal_filter_sanitize (Some (PyFloat (1 # 2))) (Some (PyInt 40)) 1000
  = Ok ([PyFloat (1 # 2); PyInt 40], bandpass)
  /\ exists l h,
       Some (PyFloat (1 # 2)) = Some l /\ Some (PyInt 40) = Some h
       /\ [PyFloat (1 # 2); PyInt 40] = [l; h]
       /\ (real_value l <= real_value h)%Q.
Proof.
  split; [reflexivity|].
  exact (proj2 (signal_filter_sanitize_types (Some (PyFloat (1 # 2)))
                  (Some (PyInt 40)) 1000 [PyFloat (1 # 2); PyInt 40] bandpass
                  ltac:(reflexivity))).
Defined.

Lemma powerline_taps_sum_witness :
  (0 <= 1000)%Q
  /\ powerline_b 1000 = Ok (repeat (1 # 50)%Q 20)
  /\ len (repeat (1 # 50)%Q 20) = int_of_Q ((2 # 100) * 1000).
Proof.
  split; [discriminate|]. split; [vm_compute; reflexivity|].
  exact (proj1 (powerline_taps_sum 1000 (repeat (1 # 50)%Q 20)
                  ltac:(discriminate) ltac:(vm_compute; reflexivity))).
Defined.

Lemma dwt_first_scale_is_forward_difference_witness :
  (0 < length [1; 2; 3]%Q)%nat
  /\ exists row rest,
       _dwt_compute_multiscales [1; 2; 3]%Q 2 = row :: rest
       /\ (nthQ row 0 == 2 * (nthQ [1; 2; 3]%Q 1 - nthQ [1; 2; 3]%Q 0))%Q.
Proof.
  split; [simpl; lia|].
  apply (dwt_first_scale_is_forward_difference [1; 2; 3]%Q 1 0). simpl. lia.
Defined.
